(** * Competitive-analysis agent: intent analysis, sub-goal planning,
      resilient provider calls, orchestration and the history ledgers.

    A shallow embedding of [query_analyzer.py], [vector_store.py],
    [react_agent.py], [competitive_agent.py] and [history_manager.py].

    Python [str] values are modelled by [string]: a character is an [ascii],
    so the embedding is exact on ASCII text (case mapping and white space
    of characters above 127 follow the ASCII rule: they are left alone).
    Python [int] is [Z]; durations handed to [time.sleep] are rationals. *)

From Stdlib Require Import String Ascii List ZArith QArith Qminmax Lia Bool.
From Stdlib Require Import DecimalString.
Import ListNotations.

Local Open Scope string_scope.
Local Open Scope list_scope.

(** ** Python string operations *)

Module PyStr.

Definition code (c : ascii) : N := N_of_ascii c.

Definition isupper (c : ascii) : bool :=
  (N.leb 65 (code c) && N.leb (code c) 90)%bool.

Definition islower (c : ascii) : bool :=
  (N.leb 97 (code c) && N.leb (code c) 122)%bool.

(** [str.isspace] on one character: TAB, LF, VT, FF, CR, FS, GS, RS, US
    and the blank. *)
Definition isspace (c : ascii) : bool :=
  let n := code c in
  ((N.leb 9 n && N.leb n 13) || (N.leb 28 n && N.leb n 32))%bool.

Definition lower_char (c : ascii) : ascii :=
  if isupper c then ascii_of_N (code c + 32) else c.

Definition upper_char (c : ascii) : ascii :=
  if islower c then ascii_of_N (code c - 32) else c.

(** [s.lower()] *)
Fixpoint lower (s : string) : string :=
  match s with
  | EmptyString => EmptyString
  | String c r => String (lower_char c) (lower r)
  end.

(** [s.capitalize()]: first character upper-cased, the rest lower-cased. *)
Definition capitalize (s : string) : string :=
  match s with
  | EmptyString => EmptyString
  | String c r => String (upper_char c) (lower r)
  end.

(** [len(s)] *)
Definition len (s : string) : Z := Z.of_nat (String.length s).

(** [needle in hay] *)
Fixpoint contains (needle hay : string) : bool :=
  if prefix needle hay then true
  else match hay with
       | EmptyString => false
       | String _ r => contains needle r
       end.

(** [s.replace(old, new)] for a one-character [old]. *)
Fixpoint replace (old : ascii) (new : string) (s : string) : string :=
  match s with
  | EmptyString => EmptyString
  | String c r =>
      if Ascii.eqb c old then new ++ replace old new r
      else String c (replace old new r)
  end.

(** [s.split()]: the maximal runs of characters that are not white
    space; [cur] is the run being read. *)
Fixpoint split_from (cur : string) (s : string) : list string :=
  match s with
  | EmptyString => if String.eqb cur "" then [] else [cur]
  | String c r =>
      if isspace c
      then (if String.eqb cur "" then split_from "" r
            else cur :: split_from "" r)
      else split_from (cur ++ String c "") r
  end.

Definition split (s : string) : list string := split_from "" s.

(** [sep.join(parts)] *)
Fixpoint join (sep : string) (parts : list string) : string :=
  match parts with
  | [] => ""
  | [p] => p
  | p :: rest => p ++ sep ++ join sep rest
  end.

Fixpoint lstrip (s : string) : string :=
  match s with
  | EmptyString => EmptyString
  | String c r => if isspace c then lstrip r else s
  end.

Fixpoint rstrip (s : string) : string :=
  match s with
  | EmptyString => EmptyString
  | String c r =>
      let r' := rstrip r in
      if (isspace c && String.eqb r' "")%bool then "" else String c r'
  end.

(** [s.strip()] *)
Definition strip (s : string) : string := rstrip (lstrip s).

(** [s[:n]] for [n >= 0]. *)
Fixpoint take (n : nat) (s : string) : string :=
  match n, s with
  | O, _ => ""
  | _, EmptyString => ""
  | S n', String c r => String c (take n' r)
  end.

(** [str(n)] for an integer. *)
Definition str_of_Z (z : Z) : string := NilZero.string_of_int (Z.to_int z).

(** [any(k in text for k in keywords)] *)
Definition any_in (keywords : list string) (text : string) : bool :=
  existsb (fun k => contains k text) keywords.

Definition nl : string := String (ascii_of_nat 10) "".

End PyStr.

Import PyStr.

(** Membership test [x in xs] on a list of strings. *)
Definition mem (x : string) (xs : list string) : bool :=
  existsb (String.eqb x) xs.

(** ** Intent analysis ([query_analyzer.py]) *)

Record Intent := mkIntent {
  query_type : string;
  competitors_mentioned : list string;
  aspects_requested : list string;
  comparison_requested : bool;
  action_keywords : list string;
  query_complexity : string
}.

Definition default_competitor_list : list string :=
  ["techcorp"; "innovatelabs"; "datadynamic"; "cloudfirst"; "aiforward";
   "smartsolutions"; "nextgentech"; "futuresystems"; "digitaledge";
   "proactive"].

Definition competitor_variations (competitor : string) : list string :=
  [ lower competitor;
    replace " " "" (lower competitor);
    replace " " "-" (lower competitor) ].

(** [' '.join(word.capitalize() for word in competitor.split())] *)
Definition formatted_name (competitor : string) : string :=
  join " " (map capitalize (split competitor)).

(** One pass of the inner loop: a variation found in the query appends the
    formatted name unless it is already listed. *)
Definition check_variation (query_lower competitor : string)
    (mentioned : list string) (variation : string) : list string :=
  if contains variation query_lower
  then (if mem (formatted_name competitor) mentioned then mentioned
        else mentioned ++ [formatted_name competitor])
  else mentioned.

Definition scan_competitor (query_lower : string)
    (mentioned : list string) (competitor : string) : list string :=
  fold_left (check_variation query_lower competitor)
            (competitor_variations competitor) mentioned.

Definition find_competitors (query_lower : string)
    (competitor_list : list string) : list string :=
  fold_left (scan_competitor query_lower) competitor_list [].

Definition comparison_keywords : list string :=
  ["compare"; "versus"; "vs"; "difference"; "better"; "against"; "between"].

Definition aspect_keywords : list (string * list string) :=
  [ ("marketing", ["marketing"; "strategy"; "promotion"; "advertising";
                   "campaign"; "sales"]);
    ("financial", ["financial"; "revenue"; "profit"; "funding"; "valuation";
                   "growth"; "money"]);
    ("product", ["product"; "features"; "technology"; "solution";
                 "platform"; "service"]);
    ("strengths", ["strength"; "advantage"; "benefit"; "strong"; "good";
                   "pros"]);
    ("weaknesses", ["weakness"; "disadvantage"; "problem"; "weak"; "bad";
                    "cons"; "issue"]) ].

Definition action_keyword_list : list string :=
  ["analyze"; "explain"; "describe"; "summarize"; "evaluate"; "assess";
   "review"].

Definition find_aspects (query_lower : string) : list string :=
  map fst (filter (fun kv => any_in (snd kv) query_lower) aspect_keywords).

Definition find_actions (query_lower : string) : list string :=
  filter (fun k => contains k query_lower) action_keyword_list.

(** [analyze_query_intent(query, competitor_list)]; [None] for the list
    selects the built-in default. The dictionary is updated in the order
    of the source. *)
Definition analyze_query_intent (query : string)
    (competitor_list : option (list string)) : Intent :=
  let competitor_list :=
    match competitor_list with
    | None => default_competitor_list
    | Some l => l
    end in
  let query_lower := lower query in
  let competitors := find_competitors query_lower competitor_list in
  let comparison := any_in comparison_keywords query_lower in
  let qtype := if comparison then "comparison" else "general" in
  let complexity0 := if comparison then "complex" else "simple" in
  let aspects := find_aspects query_lower in
  let actions := find_actions query_lower in
  let complexity_indicators :=
    (Z.of_nat (length competitors) + Z.of_nat (length aspects))%Z in
  let complexity :=
    if ((2 <? complexity_indicators)%Z || comparison)%bool then "complex"
    else if (0 <? complexity_indicators)%Z then "moderate"
    else complexity0 in
  mkIntent qtype competitors aspects comparison actions complexity.

(** [plan_sub_goals(intent)] *)
Definition plan_sub_goals (intent : Intent) : list string :=
  let sub_goals :=
    if comparison_requested intent then
      if (2 <=? Z.of_nat (length (competitors_mentioned intent)))%Z
      then ["retrieve_specific_competitors"; "analyze_competitor_data";
            "perform_comparison"; "generate_insights"]
      else ["retrieve_relevant_data"; "identify_comparison_candidates";
            "perform_comparison"]
    else
      match competitors_mentioned intent with
      | _ :: _ =>
          ["retrieve_specific_competitors"] ++
          match aspects_requested intent with
          | _ :: _ => ["analyze_specific_aspects";
                       "extract_relevant_information"]
          | [] => ["provide_comprehensive_analysis"]
          end
      | [] => ["retrieve_relevant_data"; "analyze_market_landscape";
               "provide_general_insights"]
      end in
  if String.eqb (query_complexity intent) "complex"
  then sub_goals ++ ["synthesize_complex_analysis"]
  else sub_goals.

(** ** Exceptions, results and the observable world *)

(** The exception classes the call layer tells apart. [ConnectionError] and
    [Timeout] are the ones of [requests]; [OtherException] stands for any
    other subclass of [Exception]. The classes are taken as disjoint. *)
Inductive ExnClass :=
| TooManyRequestsError | UnauthorizedError | BadRequestError | NotFoundError
| InternalServerError | ServiceUnavailableError | ForbiddenError
| InvalidTokenError
| RequestException | ConnectionError | Timeout
| ValueError | RuntimeError | MemoryError | ZeroDivisionError
| OtherException.

(** An exception: its class and [str(e)]. *)
Record Exn := mkExn { exn_class : ExnClass; exn_str : string }.

Definition in_COHERE_EXCEPTIONS (c : ExnClass) : bool :=
  match c with
  | TooManyRequestsError | UnauthorizedError | BadRequestError
  | NotFoundError | InternalServerError | ServiceUnavailableError
  | ForbiddenError | InvalidTokenError => true
  | _ => false
  end.

Definition is_network_exception (c : ExnClass) : bool :=
  match c with
  | RequestException | ConnectionError | Timeout => true
  | _ => false
  end.

Definition is_rate_limit_error (e : Exn) : bool :=
  (match exn_class e with TooManyRequestsError => true | _ => false end
   || contains "rate_limit" (lower (exn_str e))
   || contains "429" (exn_str e))%bool.

Definition is_auth_error (e : Exn) : bool :=
  (match exn_class e with
   | UnauthorizedError | InvalidTokenError | ForbiddenError => true
   | _ => false
   end
   || contains "invalid" (lower (exn_str e))
   || contains "unauthorized" (lower (exn_str e)))%bool.

Definition is_not_found_error (e : Exn) : bool :=
  (match exn_class e with NotFoundError => true | _ => false end
   || contains "not found" (lower (exn_str e))
   || contains "404" (exn_str e))%bool.

Inductive result (A : Type) : Type :=
| Ret (a : A)
| Raise (e : Exn).
Arguments Ret {A} a.
Arguments Raise {A} e.

(** What a run leaves behind: how often the embedding provider and the
    query engine were called, the durations slept (in seconds, oldest
    first) and the [input_type] of [Settings.embed_model]. *)
Record World := mkWorld {
  embed_calls : nat;
  query_calls : nat;
  slept : list Q;
  embed_input_type : option string
}.

Definition initial_world : World := mkWorld 0 0 [] None.

Definition sleep (d : Q) (w : World) : World :=
  mkWorld (embed_calls w) (query_calls w) (slept w ++ [d]) (embed_input_type w).

Definition count_embed_call (w : World) : World :=
  mkWorld (S (embed_calls w)) (query_calls w) (slept w) (embed_input_type w).

Definition count_query_call (w : World) : World :=
  mkWorld (embed_calls w) (S (query_calls w)) (slept w) (embed_input_type w).

Definition set_embed_model (input_type : string) (w : World) : World :=
  mkWorld (embed_calls w) (query_calls w) (slept w) (Some input_type).

(** Computations that read and change the world and may raise. *)
Definition M (A : Type) : Type := World -> result A * World.

Definition ret {A} (a : A) : M A := fun w => (Ret a, w).
Definition raise {A} (e : Exn) : M A := fun w => (Raise e, w).
Definition bind {A B} (c : M A) (k : A -> M B) : M B :=
  fun w => match c w with
           | (Ret a, w') => k a w'
           | (Raise e, w') => (Raise e, w')
           end.
(** [try: c except Exception as e: h(e)] *)
Definition try_except {A} (c : M A) (h : Exn -> M A) : M A :=
  fun w => match c w with
           | (Ret a, w') => (Ret a, w')
           | (Raise e, w') => h e w'
           end.

Notation "x <- c ;; k" := (bind c (fun x => k))
  (at level 61, c at next level, right associativity).

(** One turn of a [for attempt in range(max_retries)] loop either goes on
    to the next attempt, returns from the function or raises out of it. *)
Inductive step (A : Type) : Type :=
| Continue
| Return (v : A)
| Throw (e : Exn).
Arguments Continue {A}.
Arguments Return {A} v.
Arguments Throw {A} e.

(** [fuel] turns starting at [attempt]; a loop that runs out returns
    [None], as a Python function without [return] does. *)
Fixpoint for_attempts {A} (body : Z -> World -> step A * World)
    (fuel : nat) (attempt : Z) : M (option A) :=
  fun w =>
    match fuel with
    | O => (Ret None, w)
    | S fuel' =>
        match body attempt w with
        | (Continue, w') => for_attempts body fuel' (attempt + 1)%Z w'
        | (Return v, w') => (Ret (Some v), w')
        | (Throw e, w') => (Raise e, w')
        end
    end.

(** [for attempt in range(n): body] *)
Definition for_range {A} (body : Z -> World -> step A * World) (n : Z)
  : M (option A) :=
  for_attempts body (Z.to_nat n) 0%Z.

(** ** The resilient call layer ([vector_store.py]) *)

(** The embedding provider: whether [COHERE_API_KEY_CONFIGURED] holds, and
    what the [k]-th construction of a [CohereEmbedding] does ([None]: it
    succeeds). *)
Record Provider := mkProvider {
  api_key_configured : bool;
  cohere_embedding : nat -> option Exn
}.

(** A query engine: the outcome of the [k]-th call of [query(text)]; a
    response is identified with its text. *)
Definition Engine : Type := string -> nat -> result string.

(** The [try] block shared by the two configuration functions. *)
Definition configure_try (P : Provider) (input_type : string) : M unit :=
  fun w =>
    if negb (api_key_configured P)
    then (Raise (mkExn ValueError "COHERE_API_KEY is not set or is empty"), w)
    else match cohere_embedding P (embed_calls w) with
         | Some e => (Raise e, count_embed_call w)
         | None => (Ret tt, set_embed_model input_type (count_embed_call w))
         end.

(** The [except] clauses of the configuration functions; [what] is
    ["search"] or ["indexing"]. *)
Definition configure_handlers (what : string) (max_retries attempt : Z)
    (e : Exn) (w : World) : step unit * World :=
  if in_COHERE_EXCEPTIONS (exn_class e) then
    if is_rate_limit_error e then
      if (attempt <? max_retries - 1)%Z then (Continue, sleep 1%Q w)
      else (Throw (mkExn RuntimeError
              ("Rate limit exceeded while configuring " ++ what ++ " embedding")), w)
    else if is_auth_error e then
      (Throw (mkExn ValueError ("Invalid API key: " ++ exn_str e)), w)
    else
      if (attempt <? max_retries - 1)%Z then (Continue, sleep (1 # 2)%Q w)
      else (Throw (mkExn RuntimeError
              ("Failed to configure " ++ what ++ " embedding: " ++ exn_str e)), w)
  else
    if (attempt <? max_retries - 1)%Z then (Continue, sleep (1 # 2)%Q w)
    else (Throw (mkExn RuntimeError
            ("Failed to configure " ++ what ++ " embedding after "
             ++ str_of_Z max_retries ++ " attempts: " ++ exn_str e)), w).

Definition configure_body (P : Provider) (what input_type : string)
    (max_retries attempt : Z) (w : World) : step unit * World :=
  match configure_try P input_type w with
  | (Ret _, w') => (Return tt, w')
  | (Raise e, w') => configure_handlers what max_retries attempt e w'
  end.

Definition configure_embedding_for_search (P : Provider) (max_retries : Z)
  : M (option unit) :=
  for_range (configure_body P "search" "search_query" max_retries) max_retries.

Definition configure_embedding_for_indexing (P : Provider) (max_retries : Z)
  : M (option unit) :=
  for_range (configure_body P "indexing" "search_document" max_retries)
            max_retries.

Definition msg_empty_response : string :=
  "I apologize, but I couldn't generate a meaningful response to your query. Please try rephrasing your question.".
Definition msg_rate_limited : string :=
  "I'm currently experiencing rate limits. Please try again in a few minutes.".
Definition msg_too_complex : string :=
  "Your query is too complex. Please try breaking it into smaller, more specific questions.".
Definition msg_invalid : string :=
  "There was an issue processing your query. Please rephrase your question and try again.".
Definition msg_api_error : string :=
  "I encountered an API error while processing your query. Please try again later.".
Definition msg_network : string :=
  "I'm having trouble connecting to the service. Please check your internet connection and try again.".
Definition msg_unexpected : string :=
  "I encountered an unexpected error while processing your query. Please try again or contact support if the issue persists.".

(** The [try] block of [safe_query_engine_call]. *)
Definition query_try (query_engine : Engine) (query : string)
    (max_retries attempt : Z) : M (step string) :=
  fun w =>
    if (String.eqb query "" || String.eqb (strip query) "")%bool
    then (Raise (mkExn ValueError "Query cannot be empty"), w)
    else if (len (strip query) <? 3)%Z
    then (Raise (mkExn ValueError
            "Query too short. Please provide a more detailed question."), w)
    else
      match query_engine query (query_calls w) with
      | Raise e => (Raise e, count_query_call w)
      | Ret response =>
          let w' := count_query_call w in
          if (String.eqb response "" || String.eqb (strip response) "")%bool
          then
            if (attempt <? max_retries - 1)%Z
            then (Ret Continue, sleep 1%Q w')
            else (Ret (Return msg_empty_response), w')
          else (Ret (Return response), w')
      end.

(** The [except] clauses of [safe_query_engine_call], in source order. *)
Definition query_handlers (max_retries attempt : Z) (e : Exn) (w : World)
  : step string * World :=
  if in_COHERE_EXCEPTIONS (exn_class e) then
    if is_rate_limit_error e then
      if (attempt <? max_retries - 1)%Z
      then (Continue, sleep (inject_Z (2 ^ attempt * 2)) w)
      else (Return msg_rate_limited, w)
    else if (contains "token" (lower (exn_str e))
             && contains "limit" (lower (exn_str e)))%bool then
      (Return msg_too_complex, w)
    else if contains "invalid" (lower (exn_str e)) then
      (Return msg_invalid, w)
    else
      if (attempt <? max_retries - 1)%Z then (Continue, sleep 1%Q w)
      else (Return msg_api_error, w)
  else if is_network_exception (exn_class e) then
    if (attempt <? max_retries - 1)%Z
    then (Continue, sleep (inject_Z (2 ^ attempt)) w)
    else (Return msg_network, w)
  else
    match exn_class e with
    | ValueError => (Return ("Query validation error: " ++ exn_str e)%string, w)
    | _ =>
        if (attempt <? max_retries - 1)%Z then (Continue, sleep 1%Q w)
        else (Return msg_unexpected, w)
    end.

Definition query_body (query_engine : Engine) (query : string)
    (max_retries attempt : Z) (w : World) : step string * World :=
  match query_try query_engine query max_retries attempt w with
  | (Ret s, w') => (s, w')
  | (Raise e, w') => query_handlers max_retries attempt e w'
  end.

(** [safe_query_engine_call(query_engine, query, max_retries)] *)
Definition safe_query_engine_call (query_engine : Engine) (query : string)
    (max_retries : Z) : M (option string) :=
  for_range (query_body query_engine query max_retries) max_retries.

(** The index handle: what building the retriever-based engine and what
    [index.as_query_engine] do for a given [similarity_top_k]. *)
Record Index := mkIndex {
  retriever_query_engine : Z -> result Engine;
  as_query_engine : Z -> result Engine
}.

(** [create_optimized_query_engine(index, similarity_top_k)]: a failed
    construction falls back to the default engine. *)
Definition create_optimized_query_engine (index : Index)
    (similarity_top_k : Z) : M Engine :=
  fun w =>
    match retriever_query_engine index similarity_top_k with
    | Ret query_engine => (Ret query_engine, w)
    | Raise _ => (match as_query_engine index similarity_top_k with
                  | Ret query_engine => Ret query_engine
                  | Raise e => Raise e
                  end, w)
    end.

(** ** The orchestrator ([react_agent.py]) *)

Definition SIMILARITY_TOP_K : Z := 5.

(** The retrieval depth chosen in [execute_retrieval_and_analysis] for a
    base depth [top_k]. *)
Definition similarity_depth (top_k : Z) (intent : Intent) : Z :=
  if String.eqb (query_complexity intent) "complex"
  then Z.min 8 (top_k + 3)
  else top_k.

(** [enhance_response_based_on_intent]; the reasoning log and the
    sub-goals it also receives are not read. *)
Definition enhance_response_based_on_intent (base_response : string)
    (intent : Intent) : string :=
  let enhanced_response := strip base_response in
  let metadata_parts :=
    (match competitors_mentioned intent with
     | [] => []
     | cs => [("Companies: " ++ join ", " cs)%string]
     end) ++
    (match aspects_requested intent with
     | [] => []
     | asp => [("Focus: " ++ join ", " asp)%string]
     end) in
  match metadata_parts with
  | [] => enhanced_response
  | _ => (enhanced_response ++ nl ++ nl ++ "---" ++ nl
          ++ join " | " metadata_parts)%string
  end.

(** [str(response)] of what [safe_query_engine_call] returned. *)
Definition py_str (response : option string) : string :=
  match response with
  | Some s => s
  | None => "None"
  end.

(** The [try] block of [execute_retrieval_and_analysis]. *)
Definition retrieval_steps (P : Provider) (query : string) (index : Index)
    (intent : Intent) : M string :=
  _ <- configure_embedding_for_search P 2 ;;
  query_engine <- create_optimized_query_engine index
                    (similarity_depth SIMILARITY_TOP_K intent) ;;
  response <- safe_query_engine_call query_engine query 3 ;;
  _ <- try_except (configure_embedding_for_indexing P 2)
                  (fun _ => ret None) ;;
  ret (enhance_response_based_on_intent (py_str response) intent).

Definition msg_configuration_error (e : Exn) : string :=
  ("âŒ Configuration Error: " ++ exn_str e ++ nl ++ nl
  ++ "Please check your API key and configuration settings.")%string.
Definition msg_agent_rate_limit : string :=
  "â° I'm currently experiencing rate limits with the API. Please try again in a few minutes.".
Definition msg_agent_network : string :=
  "ğŸŒ I'm having trouble connecting to the service. Please check your internet connection and try again.".
Definition msg_technical_issue (e : Exn) : string :=
  ("âš ï¸ I encountered a technical issue while processing your query: "
  ++ exn_str e ++ nl ++ nl ++ "Please try again or rephrase your question.")%string.
Definition msg_agent_unexpected : string :=
  "âŒ I encountered an unexpected error while processing your query. Please try again or contact support if the issue persists.".

(** The [except] clauses of [execute_retrieval_and_analysis]. *)
Definition surface_error (e : Exn) : string :=
  match exn_class e with
  | ValueError => msg_configuration_error e
  | RuntimeError =>
      if contains "rate limit" (lower (exn_str e)) then msg_agent_rate_limit
      else if (contains "network" (lower (exn_str e))
               || contains "connection" (lower (exn_str e)))%bool
      then msg_agent_network
      else msg_technical_issue e
  | _ => msg_agent_unexpected
  end.

Definition execute_retrieval_and_analysis (P : Provider) (query : string)
    (index : Index) (intent : Intent) : M string :=
  try_except (retrieval_steps P query index intent)
             (fun e => ret (surface_error e)).

(** [reason_and_act(query, index, competitor_list)]. Logging and the
    reasoning log, which nothing reads, leave no trace here; the sub-goals
    are planned by [plan_sub_goals] and only handed on. *)
Definition reason_and_act (P : Provider) (query : string) (index : Index)
    (competitor_list : option (list string)) : M string :=
  let intent := analyze_query_intent query competitor_list in
  try_except (execute_retrieval_and_analysis P query index intent)
    (fun e => ret ("I encountered an error while processing your query: "
                   ++ exn_str e)%string).

(** ** Competitor lists as the agent hands them over *)

(** An entry of [df['Competitor Name'].tolist()], the list the agent
    passes on: the text of a cell, or the float NaN that pandas puts for
    a blank cell. *)
Inductive PyValue :=
| PyStr (s : string)
| PyNaN.

Module Untyped.

(** The entries as strings, when every one of them is a string. *)
Fixpoint strings_of (l : list PyValue) : option (list string) :=
  match l with
  | [] => Some []
  | PyStr s :: r =>
      match strings_of r with
      | Some rs => Some (s :: rs)
      | None => None
      end
  | PyNaN :: _ => None
  end.

Definition typed (competitor_list : option (list PyValue))
  : option (option (list string)) :=
  match competitor_list with
  | None => Some None
  | Some l =>
      match strings_of l with
      | Some ls => Some (Some ls)
      | None => None
      end
  end.

(** [analyze_query_intent(query, competitor_list)] on such a list.
    [competitor.lower()] is the first thing the loop does with an entry
    and a float has no [lower]; no [break] ends the loop early, so the
    analysis raises [AttributeError] exactly when some entry is not a
    string, and is the analysis of the strings otherwise. *)
Definition analyze_query_intent (query : string)
    (competitor_list : option (list PyValue)) : result Intent :=
  match typed competitor_list with
  | Some strings => Ret (analyze_query_intent query strings)
  | None => Raise (mkExn OtherException
                     "'float' object has no attribute 'lower'")
  end.

(** [reason_and_act(query, index, competitor_list)]: the analysis and
    the planning come before the [try]. *)
Definition reason_and_act (P : Provider) (query : string) (index : Index)
    (competitor_list : option (list PyValue)) : M string :=
  fun w =>
    match analyze_query_intent query competitor_list with
    | Raise e => (Raise e, w)
    | Ret intent =>
        try_except (execute_retrieval_and_analysis P query index intent)
          (fun e => ret ("I encountered an error while processing your query: "
                         ++ exn_str e)%string) w
    end.

End Untyped.

(** ** The agent's history ledger ([competitive_agent.py]) *)

Module CompetitiveAgent.

(** [QueryHistoryEntry]; the processing time, a float in the source, is
    a rational here. *)
Record QueryHistoryEntry := mkEntry {
  timestamp : string;
  query : string;
  response : string;
  processing_time : Q
}.

(** The attributes of [CompetitiveAnalysisAgent] the ledger methods
    read or write. *)
Record Agent := mkAgent {
  max_history_size : Z;
  query_history : list QueryHistoryEntry
}.

(** [CompetitiveAnalysisAgent(max_history_size)] *)
Definition new_agent (max_history_size : Z) : Agent :=
  mkAgent max_history_size [].

(** [self._add_to_history(query, response, processing_time)]; [now] is
    the formatted reading of the clock. [pop(0)] is [tl]: the list was
    just appended to. *)
Definition _add_to_history (now query response : string)
    (processing_time : Q) (self : Agent) : Agent :=
  let entry := mkEntry now query response processing_time in
  let appended := query_history self ++ [entry] in
  if (max_history_size self <? Z.of_nat (length appended))%Z
  then mkAgent (max_history_size self) (tl appended)
  else mkAgent (max_history_size self) appended.

(** [self.clear_history()] *)
Definition clear_history (self : Agent) : Agent :=
  mkAgent (max_history_size self) [].

(** The dictionary of [get_history_stats]; the keys [fastest_query] and
    [slowest_query] are absent ([None]) for an empty ledger. *)
Record HistoryStats := mkStats {
  total_queries : Z;
  avg_processing_time : Q;
  oldest_query : option string;
  newest_query : option string;
  fastest_query : option Q;
  slowest_query : option Q
}.

(** [a / n]: raises on a zero divisor. *)
Definition py_div (a : Q) (n : Z) : result Q :=
  if (n =? 0)%Z
  then Raise (mkExn ZeroDivisionError "division by zero")
  else Ret (a / inject_Z n)%Q.

Definition sum (xs : list Q) : Q := fold_left Qplus xs 0%Q.

(** [min(xs)] and [max(xs)] of a list with head [x]. *)
Definition min_from (x : Q) (xs : list Q) : Q := fold_left Qmin xs x.
Definition max_from (x : Q) (xs : list Q) : Q := fold_left Qmax xs x.

(** [self.get_history_stats()] *)
Definition get_history_stats (self : Agent) : result HistoryStats :=
  match query_history self with
  | [] => Ret (mkStats 0 0%Q None None None None)
  | first :: rest =>
      let processing_times := map processing_time (first :: rest) in
      match py_div (sum processing_times)
                   (Z.of_nat (length processing_times)) with
      | Raise e => Raise e
      | Ret avg =>
          Ret (mkStats (Z.of_nat (length (first :: rest)))
                       avg
                       (Some (timestamp first))
                       (Some (timestamp (last rest first)))
                       (Some (min_from (processing_time first)
                                       (map processing_time rest)))
                       (Some (max_from (processing_time first)
                                       (map processing_time rest))))
      end
  end.

End CompetitiveAgent.

(** ** The module-level history ledger ([history_manager.py]) *)

Module HistoryManager.

Definition MAX_HISTORY_SIZE : Z := 5.

(** One dictionary of [query_history]. *)
Record HistoryRecord := mkRecord {
  timestamp : string;
  query : string;
  response : string
}.

(** [add_to_history(query, response)] on the ledger [query_history];
    [now] is the formatted reading of the clock. Nothing in the body of the
[try] raises on strings, so its [except] clause is never entered. *)
Definition add_to_history (now query response : string)
    (query_history : list HistoryRecord) : list HistoryRecord :=
  let stored :=
    if (200 <? len response)%Z then (take 200 response ++ "...")%string
    else response in
  let appended := query_history ++ [mkRecord now query stored] in
  if (MAX_HISTORY_SIZE <? Z.of_nat (length appended))%Z
  then tl appended
  else appended.

(** [clear_history()] *)
Definition clear_history (query_history : list HistoryRecord)
  : list HistoryRecord := [].

End HistoryManager.

(** The planner as the specification words it: four branches on the
    comparison flag and the number of named competitors, then the
    synthesis goal for a complex query. *)
Definition planSubGoals_spec (intent : Intent) : list string :=
  let named := length (competitors_mentioned intent) in
  let branch :=
    if (comparison_requested intent && (2 <=? named)%nat)%bool then
      ["retrieve_specific_competitors"; "analyze_competitor_data";
       "perform_comparison"; "generate_insights"]
    else if (comparison_requested intent && (named <? 2)%nat)%bool then
      ["retrieve_relevant_data"; "identify_comparison_candidates";
       "perform_comparison"]
    else if (negb (comparison_requested intent) && (0 <? named)%nat)%bool then
      "retrieve_specific_competitors" ::
      (if (0 <? length (aspects_requested intent))%nat
       then ["analyze_specific_aspects"; "extract_relevant_information"]
       else ["provide_comprehensive_analysis"])
    else
      ["retrieve_relevant_data"; "analyze_market_landscape";
       "provide_general_insights"] in
  branch ++
  (if String.eqb (query_complexity intent) "complex"
   then ["synthesize_complex_analysis"] else []).

(** Whether some variation of the competitor's name occurs in the
    lower-cased query. *)
Definition is_mentioned (query_lower competitor : string) : bool :=
  any_in (competitor_variations competitor) query_lower.

(** The list without its repetitions, every element kept at its first
    position. *)
Fixpoint first_occurrences (l : list string) : list string :=
  match l with
  | [] => []
  | x :: r => x :: filter (fun y => negb (String.eqb y x)) (first_occurrences r)
  end.

(** The competitor list a call works with. *)
Definition effective_competitors (competitor_list : option (list string))
  : list string :=
  match competitor_list with
  | None => default_competitor_list
  | Some l => l
  end.

(** The waits of a rate-limited run that starts at [attempt] and has
    [n] further turns before its last. *)
Definition backoff_waits (base attempt : Z) (n : nat) : list Q :=
  map (fun k => inject_Z (base * 2 ^ (attempt + Z.of_nat k))) (seq 0 n).

(** The provider's answer to a rejected credential. *)
Definition unauthorized : Exn :=
  mkExn UnauthorizedError "status_code: 401, body: unauthorized".

(** Appending ready-made entries to the agent's ledger, one and many. *)
Definition append_entry (e : CompetitiveAgent.QueryHistoryEntry)
    (self : CompetitiveAgent.Agent) : CompetitiveAgent.Agent :=
  CompetitiveAgent._add_to_history
    (CompetitiveAgent.timestamp e) (CompetitiveAgent.query e)
    (CompetitiveAgent.response e) (CompetitiveAgent.processing_time e) self.

Definition append_all (es : list CompetitiveAgent.QueryHistoryEntry)
    (self : CompetitiveAgent.Agent) : CompetitiveAgent.Agent :=
  fold_left (fun a e => append_entry e a) es self.

(** ** More of the agent ([competitive_agent.py]) *)

(** [l[start:]] for a Python list: a negative [start] counts from the
    end and is clipped at the front. *)
Definition slice_from {A} (start : Z) (l : list A) : list A :=
  if (start <? 0)%Z
  then skipn (Z.to_nat (Z.max 0 (Z.of_nat (length l) + start))) l
  else skipn (Z.to_nat start) l.

(** [self.get_recent_history(count)] *)
Definition get_recent_history (count : Z) (self : CompetitiveAgent.Agent)
  : list CompetitiveAgent.QueryHistoryEntry :=
  match CompetitiveAgent.query_history self with
  | [] => []
  | h => slice_from (- count) h
  end.

(** The agent with the attributes [process_query] reads beside its
    ledger. The index is read only when [is_initialized] holds, which
    [initialize] sets after storing it; the competitor list is
    [df['Competitor Name'].tolist()], stored as it comes. *)
Record AgentState := mkAgentState {
  ledger : CompetitiveAgent.Agent;
  is_initialized : bool;
  vector_index : Index;
  competitor_list : list PyValue
}.

Definition with_ledger (self : AgentState) (l : CompetitiveAgent.Agent)
  : AgentState :=
  mkAgentState l (is_initialized self) (vector_index self)
               (competitor_list self).

(** [self.process_query(query)]. [start_time] and [end_time] are the two
    readings of the clock in seconds, [now] the formatted reading taken
    by [_add_to_history]. The result is the returned string and the
    agent afterwards. *)
Definition process_query (P : Provider) (start_time end_time : Q)
    (now : string) (query : string) (self : AgentState)
  : World -> (string * AgentState) * World :=
  fun w =>
    if negb (is_initialized self)
    then (("[ERROR] Agent is not initialized. Please initialize the agent first.",
           self), w)
    else if (String.eqb query "" || String.eqb (strip query) "")%bool
    then (("[ERROR] Please provide a valid query.", self), w)
    else
      let query := strip query in
      let processing_time := (end_time - start_time)%Q in
      match Untyped.reason_and_act P query (vector_index self)
                                   (Some (competitor_list self)) w with
      | (Ret response, w') =>
          ((response,
            with_ledger self
              (CompetitiveAgent._add_to_history now query response
                 processing_time (ledger self))), w')
      | (Raise e, w') =>
          let error_response :=
            ("[ERROR] Error processing query: " ++ exn_str e)%string in
          ((error_response,
            with_ledger self
              (CompetitiveAgent._add_to_history now query error_response
                 processing_time (ledger self))), w')
      end.

(** ** Data preparation ([data_processor.py]) *)

(** [\w] on one character. *)
Definition is_word_char (c : ascii) : bool :=
  (isupper c || islower c
   || (N.leb 48 (code c) && N.leb (code c) 57)
   || Ascii.eqb c "_")%bool.

(** The characters the first substitution of [preprocess_text] keeps:
    the complement of the class [[^\w\s\-.,()%$]]. *)
Definition is_kept_char (c : ascii) : bool :=
  (is_word_char c || isspace c
   || Ascii.eqb c "-" || Ascii.eqb c "." || Ascii.eqb c ","
   || Ascii.eqb c "(" || Ascii.eqb c ")" || Ascii.eqb c "%"
   || Ascii.eqb c "$")%bool.

(** [re.sub(r'[^\w\s\-.,()%$]', ' ', text)] *)
Fixpoint blank_special (text : string) : string :=
  match text with
  | EmptyString => EmptyString
  | String c r =>
      String (if is_kept_char c then c else " "%char) (blank_special r)
  end.

(** [re.sub(r'\s+', ' ', text)]; [in_run] tells that the character
    before was white space, already replaced. *)
Fixpoint collapse_from (in_run : bool) (text : string) : string :=
  match text with
  | EmptyString => EmptyString
  | String c r =>
      if isspace c
      then (if in_run then collapse_from true r
            else String " " (collapse_from true r))
      else String c (collapse_from false r)
  end.

Definition collapse_whitespace (text : string) : string :=
  collapse_from false text.

(** [preprocess_text(text)]; [None] is a missing value ([pd.isna]). *)
Definition preprocess_text (text : option string) : string :=
  match text with
  | None => ""
  | Some t => strip (collapse_whitespace (blank_special t))
  end.

(** A data frame: its column labels and its rows; a row gives the cell
    under a label, [None] for a missing value, text otherwise. *)
Definition Row : Type := string -> option string.

Record DataFrame := mkDataFrame {
  columns : list string;
  rows : list Row
}.

Definition required_columns : list string :=
  ["Competitor Name"; "Product Description"; "Marketing Strategy";
   "Financial Summary"].

(** [validate_csv_structure(df)] *)
Definition validate_csv_structure (df : DataFrame) : bool :=
  match filter (fun col => negb (mem col (columns df))) required_columns with
  | [] => true
  | _ :: _ => false
  end.

Record Metadata := mkMetadata {
  competitor_name : string;
  product_description : string;
  marketing_strategy : string;
  financial_summary : string
}.

Record Document := mkDocument {
  doc_text : string;
  doc_metadata : Metadata
}.

Definition indent8 : string := "        ".

(** The f-string of [prepare_documents], before [strip]. *)
Definition document_template (name product marketing financial : string)
  : string :=
  (nl ++ indent8 ++ "Competitor: " ++ name ++ nl
   ++ indent8 ++ nl
   ++ indent8 ++ "Product Description: " ++ product ++ nl
   ++ indent8 ++ nl
   ++ indent8 ++ "Marketing Strategy: " ++ marketing ++ nl
   ++ indent8 ++ nl
   ++ indent8 ++ "Financial Summary: " ++ financial ++ nl
   ++ indent8)%string.

(** One turn of the loop of [prepare_documents]: a row whose cleaned
    name is empty is skipped. *)
Definition prepare_row (documents : list Document) (row : Row)
  : list Document :=
  let name := preprocess_text (row "Competitor Name") in
  let product := preprocess_text (row "Product Description") in
  let marketing := preprocess_text (row "Marketing Strategy") in
  let financial := preprocess_text (row "Financial Summary") in
  if String.eqb name "" then documents
  else documents ++
       [mkDocument (strip (document_template name product marketing financial))
                   (mkMetadata name product marketing financial)].

(** [prepare_documents(df)] *)
Definition prepare_documents (df : DataFrame) : result (list Document) :=
  if negb (validate_csv_structure df)
  then Raise (mkExn ValueError "CSV file does not have required columns")
  else Ret (fold_left prepare_row (rows df) []).

(** Append to a ledger of capacity [N]: the oldest entry goes when the
    ledger has grown past [N]. Both ledgers of the program append this
    way. *)
Definition push_bounded {A} (N : Z) (h : list A) (x : A) : list A :=
  if (N <? Z.of_nat (length (h ++ [x])))%Z then tl (h ++ [x]) else h ++ [x].

(** The response [add_to_history] stores for a response. *)
Definition stored_response (response : string) : string :=
  if (200 <? len response)%Z then (take 200 response ++ "...")%string
  else response.

(** A run of calls [add_to_history(query, response)], each with the
    reading of the clock at its time. *)
Definition add_all_to_history (calls : list (string * string * string))
    (query_history : list HistoryManager.HistoryRecord)
  : list HistoryManager.HistoryRecord :=
  fold_left (fun h c => HistoryManager.add_to_history
                          (fst (fst c)) (snd (fst c)) (snd c) h)
            calls query_history.

(** White space in [s] comes as single blanks only; with [prev] set, [s]
    does not begin with one. *)
Fixpoint spaced (prev : bool) (s : string) : bool :=
  match s with
  | EmptyString => true
  | String c r =>
      if isspace c
      then (Ascii.eqb c " " && negb prev && spaced true r)%bool
      else spaced false r
  end.

(** Every character of [s] is one that [preprocess_text] keeps. *)
Fixpoint kept_only (s : string) : bool :=
  match s with
  | EmptyString => true
  | String c r => (is_kept_char c && kept_only r)%bool
  end.

(** [s] does not begin with white space. *)
Definition no_lead (s : string) : bool :=
  match s with
  | EmptyString => true
  | String c _ => negb (isspace c)
  end.

(** The document [prepare_documents] makes of a row, and the test that
    lets a row through. *)
Definition document_of_row (row : Row) : Document :=
  let name := preprocess_text (row "Competitor Name") in
  let product := preprocess_text (row "Product Description") in
  let marketing := preprocess_text (row "Marketing Strategy") in
  let financial := preprocess_text (row "Financial Summary") in
  mkDocument (strip (document_template name product marketing financial))
             (mkMetadata name product marketing financial).

Definition has_name (row : Row) : bool :=
  negb (String.eqb (preprocess_text (row "Competitor Name")) "").

(** ** Building the index ([vector_store.py]) *)

(** Beside the embedding provider, index building constructs the
    language model and builds the index from documents; each is given by
    what its [k]-th call does. *)
Record Services := mkServices {
  embedding_provider : Provider;
  cohere_llm : nat -> option Exn;
  from_documents : list Document -> nat -> result Index
}.

(** The world of index building: the world of the call layer, and how
    often the language model was constructed and an index built. *)
Record BuildWorld := mkBuildWorld {
  core : World;
  llm_calls : nat;
  index_builds : nat
}.

Definition on_core (f : World -> World) (w : BuildWorld) : BuildWorld :=
  mkBuildWorld (f (core w)) (llm_calls w) (index_builds w).

Definition count_llm_call (w : BuildWorld) : BuildWorld :=
  mkBuildWorld (core w) (S (llm_calls w)) (index_builds w).

Definition count_index_build (w : BuildWorld) : BuildWorld :=
  mkBuildWorld (core w) (llm_calls w) (S (index_builds w)).

(** The retry loop over any state. *)
Fixpoint for_turns {St A} (body : Z -> St -> step A * St)
    (fuel : nat) (attempt : Z) (s : St) : result (option A) * St :=
  match fuel with
  | O => (Ret None, s)
  | S fuel' =>
      match body attempt s with
      | (Continue, s') => for_turns body fuel' (attempt + 1)%Z s'
      | (Return v, s') => (Ret (Some v), s')
      | (Throw e, s') => (Raise e, s')
      end
  end.

Definition EMBEDDING_MODEL : string := "embed-english-v3.0".
Definition LLM_MODEL : string := "command-r-plus-08-2024".

(** The [try] block of [initialize_llm_settings]: the key check, the
    embedding (set for documents once constructed), the language
    model. *)
Definition initialize_try (S : Services) (w : BuildWorld)
  : result unit * BuildWorld :=
  if negb (api_key_configured (embedding_provider S))
  then (Raise (mkExn ValueError
          "COHERE_API_KEY is not set or is empty. Please check your .env file."),
        w)
  else
    match cohere_embedding (embedding_provider S) (embed_calls (core w)) with
    | Some e => (Raise e, on_core count_embed_call w)
    | None =>
        let w1 := on_core (fun c => set_embed_model "search_document"
                                      (count_embed_call c)) w in
        match cohere_llm S (llm_calls w1) with
        | Some e => (Raise e, count_llm_call w1)
        | None => (Ret tt, count_llm_call w1)
        end
    end.

(** The [except] clauses of [initialize_llm_settings]. *)
Definition initialize_handlers (max_retries : Z) (retry_delay : Q)
    (attempt : Z) (e : Exn) (w : BuildWorld) : step unit * BuildWorld :=
  if in_COHERE_EXCEPTIONS (exn_class e) then
    if is_rate_limit_error e then
      if (attempt <? max_retries - 1)%Z
      then (Continue,
            on_core (sleep (retry_delay * inject_Z (2 ^ attempt))%Q) w)
      else (Throw (mkExn RuntimeError
              ("Rate limit exceeded after " ++ str_of_Z max_retries
               ++ " attempts. Please try again later.")), w)
    else if is_auth_error e then
      (Throw (mkExn ValueError
         ("Invalid API key or unauthorized access: " ++ exn_str e)), w)
    else if is_not_found_error e then
      (Throw (mkExn ValueError
         ("Model '" ++ EMBEDDING_MODEL ++ "' or '" ++ LLM_MODEL
          ++ "' not found. Please check model names in config.py")), w)
    else
      if (attempt <? max_retries - 1)%Z
      then (Continue, on_core (sleep retry_delay) w)
      else (Throw (mkExn RuntimeError
              ("Cohere API error after " ++ str_of_Z max_retries
               ++ " attempts: " ++ exn_str e)), w)
  else if is_network_exception (exn_class e) then
    if (attempt <? max_retries - 1)%Z
    then (Continue,
          on_core (sleep (retry_delay * inject_Z (2 ^ attempt))%Q) w)
    else (Throw (mkExn ConnectionError
            ("Network connection failed after " ++ str_of_Z max_retries
             ++ " attempts. Please check your internet connection.")), w)
  else
    match exn_class e with
    | ValueError => (Throw e, w)
    | _ =>
        if (attempt <? max_retries - 1)%Z
        then (Continue, on_core (sleep retry_delay) w)
        else (Throw (mkExn RuntimeError
                ("Failed to initialize LLM settings after "
                 ++ str_of_Z max_retries ++ " attempts: " ++ exn_str e)), w)
    end.

Definition initialize_body (S : Services) (max_retries : Z) (retry_delay : Q)
    (attempt : Z) (w : BuildWorld) : step unit * BuildWorld :=
  match initialize_try S w with
  | (Ret _, w') => (Return tt, w')
  | (Raise e, w') => initialize_handlers max_retries retry_delay attempt e w'
  end.

(** [initialize_llm_settings(max_retries, retry_delay)] *)
Definition initialize_llm_settings (S : Services) (max_retries : Z)
    (retry_delay : Q) (w : BuildWorld) : result (option unit) * BuildWorld :=
  for_turns (initialize_body S max_retries retry_delay)
            (Z.to_nat max_retries) 0%Z w.

(** The [try] block of [create_vector_index]. *)
Definition create_index_try (S : Services) (documents : list Document)
    (max_retries : Z) (w : BuildWorld) : result Index * BuildWorld :=
  match initialize_llm_settings S max_retries 1%Q w with
  | (Raise e, w1) => (Raise e, w1)
  | (Ret _, w1) =>
      match from_documents S documents (index_builds w1) with
      | Raise e => (Raise e, count_index_build w1)
      | Ret index => (Ret index, count_index_build w1)
      end
  end.

(** The [except] clauses of [create_vector_index]; [None] is returned
    where the source gives the index up. *)
Definition create_index_handlers (max_retries attempt : Z) (e : Exn)
    (w : BuildWorld) : step (option Index) * BuildWorld :=
  if in_COHERE_EXCEPTIONS (exn_class e) then
    if is_rate_limit_error e then
      if (attempt <? max_retries - 1)%Z
      then (Continue, on_core (sleep (inject_Z (2 ^ attempt * 5))) w)
      else (Return None, w)
    else if (contains "token" (lower (exn_str e))
             && contains "limit" (lower (exn_str e)))%bool then
      (Return None, w)
    else
      if (attempt <? max_retries - 1)%Z
      then (Continue, on_core (sleep (inject_Z (2 ^ attempt))) w)
      else (Return None, w)
  else if is_network_exception (exn_class e) then
    if (attempt <? max_retries - 1)%Z
    then (Continue, on_core (sleep (inject_Z (2 ^ attempt * 3))) w)
    else (Return None, w)
  else
    match exn_class e with
    | MemoryError => (Return None, w)
    | _ =>
        if (attempt <? max_retries - 1)%Z
        then (Continue, on_core (sleep (inject_Z (2 ^ attempt))) w)
        else (Return None, w)
    end.

Definition create_index_body (S : Services) (documents : list Document)
    (max_retries attempt : Z) (w : BuildWorld)
  : step (option Index) * BuildWorld :=
  match create_index_try S documents max_retries w with
  | (Ret index, w') => (Return (Some index), w')
  | (Raise e, w') => create_index_handlers max_retries attempt e w'
  end.

(** [create_vector_index(documents, max_retries)]: the index, or [None]. *)
Definition create_vector_index (S : Services) (documents : list Document)
    (max_retries : Z) (w : BuildWorld)
  : result (option Index) * BuildWorld :=
  match documents with
  | [] => (Ret None, w)
  | _ :: _ =>
      match for_turns (create_index_body S documents max_retries)
                      (Z.to_nat max_retries) 0%Z w with
      | (Ret (Some r), w') => (Ret r, w')
      | (Ret None, w') => (Ret None, w')
      | (Raise e, w') => (Raise e, w')
      end
  end.

(** * Properties *)

(** ** Intent classifier *)

Lemma mem_true_iff (x : string) (l : list string) :
  mem x l = true <-> In x l.
Proof.
  unfold mem. rewrite existsb_exists. split.
  - intros (y & Hy & E). apply String.eqb_eq in E. now subst.
  - intros H. exists x. split; [assumption | apply String.eqb_refl].
Qed.

Lemma mem_app (x : string) (l1 l2 : list string) :
  mem x (l1 ++ l2) = (mem x l1 || mem x l2)%bool.
Proof. unfold mem. apply existsb_app. Qed.

Lemma mem_snoc_self (x : string) (l : list string) :
  mem x (l ++ [x]) = true.
Proof.
  rewrite mem_app. cbn [mem existsb]. rewrite String.eqb_refl.
  apply orb_true_iff. right. reflexivity.
Qed.

(** One competitor changes the list the way a single guarded append
    does: after the first matching variation the name is present. *)
Lemma scan_competitor_step (ql : string) (acc : list string) (c : string) :
  scan_competitor ql acc c =
    if is_mentioned ql c
    then (if mem (formatted_name c) acc then acc
          else acc ++ [formatted_name c])
    else acc.
Proof.
  unfold scan_competitor, is_mentioned, any_in, competitor_variations.
  cbn [fold_left existsb]. unfold check_variation.
  destruct (contains (lower c) ql);
    destruct (contains (replace " " "" (lower c)) ql);
    destruct (contains (replace " " "-" (lower c)) ql);
    cbn [orb];
    destruct (mem (formatted_name c) acc) eqn:E;
    repeat first [rewrite E | rewrite mem_snoc_self | progress cbv iota];
    reflexivity.
Qed.

Lemma filter_filter_and {A} (f g : A -> bool) (l : list A) :
  filter f (filter g l) = filter (fun x => (g x && f x)%bool) l.
Proof.
  induction l as [|a l IH]; cbn [filter]; [reflexivity |].
  destruct (g a); cbn [filter andb]; [destruct (f a) |]; now rewrite IH.
Qed.

Lemma filter_all {A} (f : A -> bool) (l : list A) :
  (forall x, f x = true) -> filter f l = l.
Proof.
  intros H. induction l as [|a l IH]; cbn [filter]; [reflexivity |].
  now rewrite H, IH.
Qed.

Lemma fold_scan_competitor (ql : string) (cl acc : list string) :
  fold_left (scan_competitor ql) cl acc =
    acc ++ filter (fun y => negb (mem y acc))
             (first_occurrences (map formatted_name (filter (is_mentioned ql) cl))).
Proof.
  revert acc. induction cl as [|c cl IH]; intros acc.
  - cbn. now rewrite app_nil_r.
  - cbn [fold_left filter]. rewrite IH, scan_competitor_step.
    destruct (is_mentioned ql c); [| reflexivity].
    cbn [map first_occurrences filter].
    set (L := first_occurrences _).
    destruct (mem (formatted_name c) acc) eqn:E; cbn [negb].
    + f_equal. rewrite filter_filter_and. apply filter_ext. intros y.
      destruct (String.eqb_spec y (formatted_name c)) as [-> | _]; cbn [negb andb].
      * now rewrite E.
      * reflexivity.
    + rewrite <- app_assoc. cbn [app]. do 2 f_equal.
      rewrite filter_filter_and. apply filter_ext. intros y.
      rewrite mem_app. cbn [mem existsb].
      rewrite orb_false_r, negb_orb. apply andb_comm.
Qed.

Lemma find_competitors_first_occurrences (ql : string) (cl : list string) :
  find_competitors ql cl =
    first_occurrences (map formatted_name (filter (is_mentioned ql) cl)).
Proof.
  unfold find_competitors. rewrite fold_scan_competitor. cbn [app].
  apply filter_all. intros y. reflexivity.
Qed.

Lemma count_occ_filter (f : string -> bool) (l : list string) (x : string) :
  count_occ string_dec (filter f l) x =
    if f x then count_occ string_dec l x else 0%nat.
Proof.
  induction l as [|a l IH]; cbn [filter count_occ].
  - now destruct (f x).
  - destruct (f a) eqn:Fa; cbn [count_occ];
      destruct (string_dec a x) as [-> | N]; rewrite IH.
    + now rewrite Fa.
    + reflexivity.
    + now rewrite Fa.
    + reflexivity.
Qed.

Lemma first_occurrences_once (l : list string) (x : string) :
  In x l -> count_occ string_dec (first_occurrences l) x = 1%nat.
Proof.
  induction l as [|a l IH]; intros H; [contradiction |].
  cbn [first_occurrences count_occ]. rewrite count_occ_filter.
  destruct (string_dec a x) as [-> | N].
  - now rewrite String.eqb_refl.
  - destruct H as [-> | H]; [contradiction |].
    destruct (String.eqb_spec x a) as [-> | _]; [contradiction |].
    cbn [negb]. now apply IH.
Qed.

(** C1 (as the code has it): a competitor of the list, one of whose
    variations (lower-cased name, the same without blanks, the same with
    hyphens for blanks) occurs in the lower-cased query, has its
    formatted name (every word capitalised, the rest lower-cased) exactly
    once in [competitors_mentioned]; the names come in the order of the
    competitor list, each at its first position. *)
Theorem competitors_mentioned_once_in_list_order :
  forall (query : string) (competitor_list : option (list string))
         (competitor : string),
    In competitor (effective_competitors competitor_list) ->
    is_mentioned (lower query) competitor = true ->
    let mentioned :=
      competitors_mentioned (analyze_query_intent query competitor_list) in
    count_occ string_dec mentioned (formatted_name competitor) = 1%nat /\
    mentioned =
      first_occurrences
        (map formatted_name
             (filter (is_mentioned (lower query))
                     (effective_competitors competitor_list))).
Proof.
  intros query competitor_list competitor Hin Hm mentioned.
  assert (E : mentioned =
              first_occurrences
                (map formatted_name
                     (filter (is_mentioned (lower query))
                             (effective_competitors competitor_list)))).
  { subst mentioned. unfold analyze_query_intent. cbv zeta.
    cbn [competitors_mentioned].
    rewrite find_competitors_first_occurrences.
    destruct competitor_list; reflexivity. }
  split; [| exact E].
  rewrite E. apply first_occurrences_once.
  apply in_map. apply filter_In. split; assumption.
Qed.

Lemma competitors_mentioned_once_in_list_order_witness :
  let mentioned :=
    competitors_mentioned
      (analyze_query_intent "what does Acme Data sell, acme-data again?"
                            (Some ["Globex"; "acme data"])) in
  count_occ string_dec mentioned (formatted_name "acme data") = 1%nat /\
  mentioned =
    first_occurrences
      (map formatted_name
           (filter (is_mentioned (lower "what does Acme Data sell, acme-data again?"))
                   (effective_competitors (Some ["Globex"; "acme data"])))).
Proof.
  apply (competitors_mentioned_once_in_list_order
           "what does Acme Data sell, acme-data again?"
           (Some ["Globex"; "acme data"]) "acme data").
  - cbn. right. left. reflexivity.
  - vm_compute. reflexivity.
Defined.

(** C1 (as stated) fails: with the competitor list [TechCorp],
    [InnovateLabs] the scenario query yields [Techcorp], [Innovatelabs],
    not the names as written; and with the list in the other order the
    result follows the list, although [TechCorp] comes first in the
    query. *)
Lemma competitors_mentioned_counterexample :
  competitors_mentioned
    (analyze_query_intent
       "Compare TechCorp and InnovateLabs marketing strategies"
       (Some ["TechCorp"; "InnovateLabs"]))
    <> ["TechCorp"; "InnovateLabs"] /\
  competitors_mentioned
    (analyze_query_intent
       "Compare TechCorp and InnovateLabs marketing strategies"
       (Some ["InnovateLabs"; "TechCorp"]))
    = ["Innovatelabs"; "Techcorp"].
Proof.
  split.
  - vm_compute. discriminate.
  - vm_compute. reflexivity.
Qed.

Lemma length_zero_nil {A} (l : list A) :
  (Z.of_nat (length l) = 0)%Z <-> l = [].
Proof.
  destruct l; cbn [length]; split; intros H; try reflexivity; try discriminate; lia.
Qed.

(** C5: the complexity tier is [complex] exactly when a comparison is
    requested or competitors plus aspects number more than two, [moderate]
    exactly when it is not complex and that number is positive, and
    [simple] exactly when nothing was found and no comparison is asked. *)
Theorem complexity_classification :
  forall (query : string) (competitor_list : option (list string)),
    let intent := analyze_query_intent query competitor_list in
    let c := (Z.of_nat (length (competitors_mentioned intent))
              + Z.of_nat (length (aspects_requested intent)))%Z in
    (query_complexity intent = "complex"
       <-> (comparison_requested intent = true \/ (2 < c)%Z)) /\
    (query_complexity intent = "moderate"
       <-> (query_complexity intent <> "complex" /\ (0 < c)%Z)) /\
    (query_complexity intent = "simple"
       <-> (competitors_mentioned intent = [] /\
            aspects_requested intent = [] /\
            comparison_requested intent = false)).
Proof.
  intros query competitor_list.
  unfold analyze_query_intent.
  cbv zeta.
  cbn [query_complexity competitors_mentioned aspects_requested
       comparison_requested].
  set (cs := find_competitors _ _).
  set (asp := find_aspects _).
  set (cmp := any_in comparison_keywords _).
  pose proof (length_zero_nil cs) as Hcs.
  pose proof (length_zero_nil asp) as Hasp.
  destruct cmp;
    destruct (Z.ltb_spec 2 (Z.of_nat (length cs) + Z.of_nat (length asp)));
    destruct (Z.ltb_spec 0 (Z.of_nat (length cs) + Z.of_nat (length asp)));
    cbn [orb];
    repeat split; intros; try discriminate; try lia; auto;
    try (exfalso; intuition (try discriminate; try lia; try congruence); fail).
  - apply Hcs. lia.
  - apply Hasp. lia.
Qed.

(** ** Sub-goal planner *)

Lemma two_leb_length {A} (l : list A) :
  (2 <=? Z.of_nat (length l))%Z = (2 <=? length l)%nat.
Proof.
  destruct (Z.leb_spec 2 (Z.of_nat (length l)));
    destruct (Nat.leb_spec 2 (length l)); try reflexivity; lia.
Qed.

(** C6: the planner computes the four-branch policy of the
    specification, reads nothing but the comparison flag, the named
    competitors, the requested aspects and the complexity, and carries
    the synthesis goal once when the complexity is [complex] and not at
    all otherwise. *)
Theorem plan_sub_goals_policy :
  forall intent : Intent,
    plan_sub_goals intent = planSubGoals_spec intent /\
    (In "synthesize_complex_analysis" (plan_sub_goals intent)
       <-> query_complexity intent = "complex") /\
    count_occ string_dec (plan_sub_goals intent) "synthesize_complex_analysis"
      = (if String.eqb (query_complexity intent) "complex" then 1 else 0)%nat /\
    (forall intent' : Intent,
        comparison_requested intent' = comparison_requested intent ->
        competitors_mentioned intent' = competitors_mentioned intent ->
        aspects_requested intent' = aspects_requested intent ->
        query_complexity intent' = query_complexity intent ->
        plan_sub_goals intent' = plan_sub_goals intent).
Proof.
  intros [qt cs asp cmp act cx].
  unfold plan_sub_goals, planSubGoals_spec.
  cbn [query_complexity competitors_mentioned aspects_requested
       comparison_requested].
  rewrite two_leb_length.
  repeat split.
  - destruct cmp, cs as [|c1 [|c2 cs]], asp as [|a1 asp];
      destruct (String.eqb cx "complex"); reflexivity.
  - destruct (String.eqb_spec cx "complex") as [E | E]; [auto |].
    intros H. exfalso.
    destruct cmp, cs as [|c1 [|c2 cs]], asp as [|a1 asp];
      cbn in H; intuition discriminate.
  - intros ->.
    destruct cmp, cs as [|c1 [|c2 cs]], asp as [|a1 asp];
      cbn; auto 10.
  - destruct cmp, cs as [|c1 [|c2 cs]], asp as [|a1 asp];
      destruct (String.eqb cx "complex"); reflexivity.
  - intros [qt' cs' asp' cmp' act' cx'].
    cbn [query_complexity competitors_mentioned aspects_requested
         comparison_requested].
    intros -> -> -> ->. unfold plan_sub_goals.
    cbn [query_complexity competitors_mentioned aspects_requested
         comparison_requested].
    rewrite two_leb_length. reflexivity.
Qed.

(** ** Retrieval depth *)

(** The depth computed from a base depth: the base for an intent that
    is not complex, [min 8 (base + 3)] for a complex one, 5 and 8 with
    the configured base; two intents of the same complexity get the same
    depth. *)
Lemma similarity_depth_values :
  forall (base : Z) (intent : Intent),
    (query_complexity intent <> "complex" ->
       similarity_depth base intent = base) /\
    (query_complexity intent = "complex" ->
       similarity_depth base intent = Z.min 8 (base + 3)) /\
    similarity_depth SIMILARITY_TOP_K intent
      = (if String.eqb (query_complexity intent) "complex" then 8 else 5)%Z /\
    (forall intent' : Intent,
        query_complexity intent' = query_complexity intent ->
        similarity_depth base intent' = similarity_depth base intent).
Proof.
  intros base intent. unfold similarity_depth.
  split; [| split; [| split]].
  - intros H. destruct (String.eqb_spec (query_complexity intent) "complex");
      [contradiction | reflexivity].
  - intros E. rewrite E. reflexivity.
  - destruct (String.eqb (query_complexity intent) "complex"); reflexivity.
  - intros intent' E. rewrite E. reflexivity.
Qed.

(** ** Resilient call layer *)

Lemma strip_empty : strip "" = "".
Proof. reflexivity. Qed.

(** A query of at least three characters after trimming passes the
    precondition check, and the engine is called. *)
Lemma query_try_valid (engine : Engine) (query : string)
    (max_retries attempt : Z) (w : World) :
  (3 <= len (strip query))%Z ->
  query_try engine query max_retries attempt w =
    match engine query (query_calls w) with
    | Raise e => (Raise e, count_query_call w)
    | Ret response =>
        if (String.eqb response "" || String.eqb (strip response) "")%bool
        then
          if (attempt <? max_retries - 1)%Z
          then (Ret Continue, sleep 1%Q (count_query_call w))
          else (Ret (Return msg_empty_response), count_query_call w)
        else (Ret (Return response), count_query_call w)
    end.
Proof.
  intros H. unfold query_try.
  assert (E1 : String.eqb (strip query) "" = false).
  { destruct (String.eqb_spec (strip query) "") as [E | _]; [| reflexivity].
    rewrite E in H. cbn in H. lia. }
  assert (E2 : String.eqb query "" = false).
  { destruct (String.eqb_spec query "") as [E | _]; [| reflexivity].
    subst query. discriminate E1. }
  rewrite E1, E2. cbn [orb].
  destruct (Z.ltb_spec (len (strip query)) 3); [lia | reflexivity].
Qed.

(** A blank or too short query is turned away by the loop body before
    the engine is reached. *)
Lemma query_body_rejects (engine : Engine) (query : string)
    (max_retries attempt : Z) (w : World) :
  query = "" \/ strip query = "" \/ (len (strip query) < 3)%Z ->
  exists reason : string,
    query_body engine query max_retries attempt w
      = (Return ("Query validation error: " ++ reason)%string, w).
Proof.
  intros H. unfold query_body, query_try.
  destruct (String.eqb query "" || String.eqb (strip query) "")%bool eqn:E.
  - exists "Query cannot be empty". reflexivity.
  - destruct (Z.ltb_spec (len (strip query)) 3) as [L | L].
    + exists "Query too short. Please provide a more detailed question.".
      reflexivity.
    + exfalso. apply orb_false_iff in E. destruct E as [E1 E2].
      destruct H as [-> | [H | H]].
      * discriminate E1.
      * rewrite H in E2. discriminate E2.
      * lia.
Qed.

Lemma query_call_rejects (engine : Engine) (query : string)
    (max_retries : Z) (w : World) :
  (1 <= max_retries)%Z ->
  query = "" \/ strip query = "" \/ (len (strip query) < 3)%Z ->
  exists reason : string,
    safe_query_engine_call engine query max_retries w
      = (Ret (Some ("Query validation error: " ++ reason)%string), w).
Proof.
  intros Hn Hq.
  destruct (query_body_rejects engine query max_retries 0 w Hq) as [reason E].
  exists reason. unfold safe_query_engine_call, for_range.
  destruct (Z.to_nat max_retries) as [|fuel] eqn:F; [lia |].
  cbn [for_attempts]. rewrite E. reflexivity.
Qed.

(** C7: a query that is empty, blank or shorter than three characters
    after trimming is answered, in the first turn of the loop, with the
    validation message; the world is as before, so the engine was not
    called and nothing was slept. *)
Theorem safe_query_engine_call_rejects_short_query :
  forall (engine : Engine) (query : string) (max_retries : Z) (w : World),
    (1 <= max_retries)%Z ->
    query = "" \/ strip query = "" \/ (len (strip query) < 3)%Z ->
    exists reason : string,
      query_body engine query max_retries 0 w
        = (Return ("Query validation error: " ++ reason)%string, w) /\
      safe_query_engine_call engine query max_retries w
        = (Ret (Some ("Query validation error: " ++ reason)%string), w).
Proof.
  intros engine query max_retries w Hn Hq.
  destruct (query_body_rejects engine query max_retries 0 w Hq) as [reason E].
  exists reason. split; [exact E |].
  unfold safe_query_engine_call, for_range.
  destruct (Z.to_nat max_retries) as [|fuel] eqn:F; [lia |].
  cbn [for_attempts]. rewrite E. reflexivity.
Qed.

Lemma safe_query_engine_call_rejects_short_query_witness :
  exists reason : string,
    query_body (fun _ _ => Ret "unused") "hi" 3 0 initial_world
      = (Return ("Query validation error: " ++ reason)%string, initial_world) /\
    safe_query_engine_call (fun _ _ => Ret "unused") "hi" 3 initial_world
      = (Ret (Some ("Query validation error: " ++ reason)%string), initial_world).
Proof.
  apply (safe_query_engine_call_rejects_short_query
           (fun _ _ => Ret "unused") "hi" 3 initial_world).
  - lia.
  - right. right. vm_compute. reflexivity.
Defined.

Lemma backoff_waits_succ (base attempt : Z) (n : nat) :
  backoff_waits base attempt (S n)
    = inject_Z (base * 2 ^ attempt) :: backoff_waits base (attempt + 1) n.
Proof.
  unfold backoff_waits. cbn [seq map]. rewrite Z.add_0_r. f_equal.
  rewrite <- seq_shift, map_map. apply map_ext. intros k.
  do 3 f_equal. lia.
Qed.

Lemma rate_limited_turns (engine : Engine) (query : string) (max_retries : Z) :
  (3 <= len (strip query))%Z ->
  (forall k, exists e, engine query k = Raise e /\
                       in_COHERE_EXCEPTIONS (exn_class e) = true /\
                       is_rate_limit_error e = true) ->
  forall (fuel : nat) (attempt : Z) (w : World),
    (0 <= attempt)%Z ->
    max_retries = (attempt + Z.of_nat (S fuel))%Z ->
    exists w' : World,
      for_attempts (query_body engine query max_retries) (S fuel) attempt w
        = (Ret (Some msg_rate_limited), w') /\
      query_calls w' = (query_calls w + S fuel)%nat /\
      slept w' = slept w ++ backoff_waits 2 attempt fuel /\
      embed_calls w' = embed_calls w /\
      embed_input_type w' = embed_input_type w.
Proof.
  intros Hq Hrl. induction fuel as [|fuel IH]; intros attempt w Ha Hm.
  - cbn [for_attempts]. unfold query_body.
    rewrite query_try_valid by assumption.
    destruct (Hrl (query_calls w)) as (e & -> & Hc & Hr).
    unfold query_handlers. rewrite Hc, Hr.
    destruct (Z.ltb_spec attempt (max_retries - 1)); [lia |].
    eexists. split; [reflexivity |].
    cbn [count_query_call query_calls slept embed_calls embed_input_type
         backoff_waits seq map].
    rewrite app_nil_r. repeat split. lia.
  - cbn [for_attempts]. unfold query_body at 1.
    rewrite query_try_valid by assumption.
    destruct (Hrl (query_calls w)) as (e & -> & Hc & Hr).
    unfold query_handlers. rewrite Hc, Hr.
    destruct (Z.ltb_spec attempt (max_retries - 1)); [| lia].
    destruct (IH (attempt + 1)%Z
                 (sleep (inject_Z (2 ^ attempt * 2)) (count_query_call w)))
      as (w' & E & Hcalls & Hslept & Hemb & Hmode); [lia | lia |].
    exists w'. split; [exact E |].
    rewrite Hcalls, Hslept, Hemb, Hmode.
    cbn [sleep count_query_call query_calls slept embed_calls embed_input_type].
    rewrite backoff_waits_succ, <- app_assoc. cbn [app].
    rewrite (Z.mul_comm 2 (2 ^ attempt)).
    repeat split. lia.
Qed.

(** C4: with a query that passes validation and an engine that answers
    every call with a rate-limit error of the provider, the call makes
    [max_retries] attempts, sleeps [2 * 2^attempt] seconds after each
    attempt but the last, and returns the rate-limit message. *)
Theorem safe_query_engine_call_rate_limited :
  forall (engine : Engine) (query : string) (max_retries : Z) (w : World),
    (1 <= max_retries)%Z ->
    (3 <= len (strip query))%Z ->
    (forall k, exists e, engine query k = Raise e /\
                         in_COHERE_EXCEPTIONS (exn_class e) = true /\
                         is_rate_limit_error e = true) ->
    exists w' : World,
      safe_query_engine_call engine query max_retries w
        = (Ret (Some msg_rate_limited), w') /\
      Z.of_nat (query_calls w') = (Z.of_nat (query_calls w) + max_retries)%Z /\
      slept w' = slept w ++
                 map (fun attempt => inject_Z (2 * 2 ^ Z.of_nat attempt))
                     (seq 0 (Z.to_nat (max_retries - 1))) /\
      embed_calls w' = embed_calls w /\
      embed_input_type w' = embed_input_type w.
Proof.
  intros engine query max_retries w Hn Hq Hrl.
  unfold safe_query_engine_call, for_range.
  destruct (Z.to_nat max_retries) as [|fuel] eqn:F; [lia |].
  destruct (rate_limited_turns engine query max_retries Hq Hrl fuel 0%Z w)
    as (w' & E & Hcalls & Hslept & Hemb & Hmode); [lia | lia |].
  exists w'. split; [exact E |].
  split; [lia |]. split; [| split; assumption].
  rewrite Hslept. f_equal.
  replace (Z.to_nat (max_retries - 1)) with fuel by lia.
  unfold backoff_waits. apply map_ext. intros k. reflexivity.
Qed.

Lemma safe_query_engine_call_rate_limited_witness :
  exists w' : World,
    safe_query_engine_call
      (fun _ _ => Raise (mkExn TooManyRequestsError "status_code: 429"))
      "Compare TechCorp and InnovateLabs" 3 initial_world
      = (Ret (Some msg_rate_limited), w') /\
    Z.of_nat (query_calls w') = (Z.of_nat (query_calls initial_world) + 3)%Z /\
    slept w' = slept initial_world ++
               map (fun attempt => inject_Z (2 * 2 ^ Z.of_nat attempt))
                   (seq 0 (Z.to_nat (3 - 1))) /\
    embed_calls w' = embed_calls initial_world /\
    embed_input_type w' = embed_input_type initial_world.
Proof.
  apply (safe_query_engine_call_rate_limited
           (fun _ _ => Raise (mkExn TooManyRequestsError "status_code: 429"))
           "Compare TechCorp and InnovateLabs" 3 initial_world).
  - lia.
  - vm_compute. discriminate.
  - intros k. eexists. split; [reflexivity |]. split; reflexivity.
Defined.

(** The configuration calls stop at an authorization error of the
    provider: one construction is tried, nothing is slept and a
    [ValueError] naming the key goes to the caller. *)
Lemma configure_auth_error_fails_at_once
    (P : Provider) (what input_type : string) (max_retries : Z)
    (e : Exn) (w : World) :
  (1 <= max_retries)%Z ->
  api_key_configured P = true ->
  cohere_embedding P (embed_calls w) = Some e ->
  in_COHERE_EXCEPTIONS (exn_class e) = true ->
  is_rate_limit_error e = false ->
  is_auth_error e = true ->
  for_range (configure_body P what input_type max_retries) max_retries w
    = (Raise (mkExn ValueError ("Invalid API key: " ++ exn_str e)),
       count_embed_call w).
Proof.
  intros Hn Hk He Hc Hr Ha. unfold for_range.
  destruct (Z.to_nat max_retries) as [|fuel] eqn:F; [lia |].
  cbn [for_attempts]. unfold configure_body, configure_try.
  rewrite Hk, He. cbn [negb]. unfold configure_handlers.
  rewrite Hc, Hr, Ha. reflexivity.
Qed.

(** C2: the configuration calls give up at the first authorization error
    (one construction, no sleep, a [ValueError] naming the key), but the
    generative call does not: the same error from the engine is retried
    until the three attempts are used up, with a second between them,
    and the answer is the generic API-error message. *)
Theorem auth_error_retried_by_query_call :
  configure_embedding_for_search
    (mkProvider true (fun _ => Some unauthorized)) 2 initial_world
    = (Raise (mkExn ValueError
                "Invalid API key: status_code: 401, body: unauthorized"),
       mkWorld 1 0 [] None) /\
  configure_embedding_for_indexing
    (mkProvider true (fun _ => Some unauthorized)) 2 initial_world
    = (Raise (mkExn ValueError
                "Invalid API key: status_code: 401, body: unauthorized"),
       mkWorld 1 0 [] None) /\
  safe_query_engine_call
    (fun _ _ => Raise unauthorized) "What is the TechCorp strategy?" 3
    initial_world
    = (Ret (Some msg_api_error), mkWorld 0 3 [1%Q; 1%Q] None).
Proof.
  repeat split; vm_compute; reflexivity.
Qed.

(** No turn of the query loop raises: every [except] clause of
    [safe_query_engine_call] returns or goes on. *)
Lemma query_body_never_throws (engine : Engine) (query : string)
    (max_retries attempt : Z) (w : World) (e : Exn) :
  fst (query_body engine query max_retries attempt w) <> Throw e.
Proof.
  unfold query_body, query_try, query_handlers.
  repeat match goal with
         | |- context [if ?b then _ else _] => destruct b
         | |- context [match engine ?q ?k with _ => _ end] =>
             destruct (engine q k)
         | |- context [match exn_class ?x with _ => _ end] =>
             destruct (exn_class x)
         end;
    cbn; discriminate.
Qed.

Lemma query_loop_never_raises (engine : Engine) (query : string)
    (max_retries : Z) (fuel : nat) :
  forall (attempt : Z) (w : World),
  exists (r : option string) (w' : World),
    for_attempts (query_body engine query max_retries) fuel attempt w
      = (Ret r, w').
Proof.
  induction fuel as [|fuel IH]; intros attempt w; cbn [for_attempts].
  - eauto.
  - pose proof (query_body_never_throws engine query max_retries attempt w) as N.
    destruct (query_body engine query max_retries attempt w) as [[|v|e] w1].
    + apply IH.
    + eauto.
    + exfalso. apply (N e). reflexivity.
Qed.

(** ** Orchestrator *)

(** On a competitor list of strings [reason_and_act] returns a string.
    When the retrieval steps raise, the string is the configuration-error
    message for a [ValueError], one of the three fallback messages for a
    [RuntimeError] and the generic apology for any other exception; the
    generative call below it never raises. *)
Lemma reason_and_act_outcomes :
  forall (P : Provider) (query : string) (index : Index)
         (competitor_list : option (list string)) (w : World),
    let intent := analyze_query_intent query competitor_list in
    exists (s : string) (w' : World),
      reason_and_act P query index competitor_list w = (Ret s, w') /\
      match fst (retrieval_steps P query index intent w) with
      | Ret answer => s = answer
      | Raise e =>
          match exn_class e with
          | ValueError => s = msg_configuration_error e
          | RuntimeError =>
              s = if contains "rate limit" (lower (exn_str e))
                  then msg_agent_rate_limit
                  else if (contains "network" (lower (exn_str e))
                           || contains "connection" (lower (exn_str e)))%bool
                  then msg_agent_network
                  else msg_technical_issue e
          | _ => s = msg_agent_unexpected
          end
      end /\
      (forall (engine : Engine) (max_retries : Z) (w0 : World),
          exists (r : option string) (w1 : World),
            safe_query_engine_call engine query max_retries w0 = (Ret r, w1)) /\
      (query = "" \/ strip query = "" \/ (len (strip query) < 3)%Z ->
       forall (engine : Engine) (w0 : World),
         exists reason : string,
           safe_query_engine_call engine query 3 w0
             = (Ret (Some ("Query validation error: " ++ reason)%string), w0)).
Proof.
  intros P query index competitor_list w intent.
  unfold reason_and_act, execute_retrieval_and_analysis, try_except, ret.
  fold intent.
  destruct (retrieval_steps P query index intent w) as [[answer | e] w1].
  - exists answer, w1. cbn [fst].
    split; [reflexivity | split; [reflexivity | split]].
    + intros engine max_retries w0. apply query_loop_never_raises.
    + intros Hq engine w0. apply query_call_rejects; [lia | exact Hq].
  - exists (surface_error e), w1. cbn [fst].
    split; [reflexivity | split; [| split]].
    + unfold surface_error. destruct (exn_class e); reflexivity.
    + intros engine max_retries w0. apply query_loop_never_raises.
    + intros Hq engine w0. apply query_call_rejects; [lia | exact Hq].
Qed.

(** ** History ledgers *)

Section Ledger.

Import CompetitiveAgent.

Lemma append_entry_history (e : QueryHistoryEntry) (self : Agent) :
  query_history (append_entry e self) =
    (if (max_history_size self <? Z.of_nat (length (query_history self ++ [e])))%Z
     then tl (query_history self ++ [e])
     else query_history self ++ [e]) /\
  max_history_size (append_entry e self) = max_history_size self.
Proof.
  unfold append_entry, _add_to_history. destruct e as [ts q r t].
  cbn [timestamp query response processing_time].
  destruct (_ <? _)%Z; split; reflexivity.
Qed.

(** After any run of appends to a ledger within its capacity, the
    ledger holds the last [N] of the entries it had and was given. *)
Lemma append_all_keeps_last (N : Z) (es : list QueryHistoryEntry) :
  (0 <= N)%Z ->
  forall self : Agent,
    max_history_size self = N ->
    (Z.of_nat (length (query_history self)) <= N)%Z ->
    query_history (append_all es self) =
      skipn (length (query_history self ++ es) - Z.to_nat N)
            (query_history self ++ es).
Proof.
  intros HN. induction es as [|e es IH]; intros self Hmax Hlen.
  - cbn [append_all fold_left]. rewrite app_nil_r.
    replace (length (query_history self) - Z.to_nat N)%nat with 0%nat by lia.
    reflexivity.
  - cbn [append_all fold_left]. fold (append_all es (append_entry e self)).
    destruct (append_entry_history e self) as [Hh Hm].
    rewrite length_app in Hh. cbn [length] in Hh.
    destruct (Z.ltb_spec (max_history_size self)
                (Z.of_nat (length (query_history self) + 1))) as [Full | Room].
    + destruct (query_history self) as [|x h0] eqn:Eh.
      * cbn [app tl] in Hh. cbn [length] in Full, Hlen.
        rewrite IH; [| congruence | rewrite Hh; cbn [length]; lia].
        rewrite Hh. cbn [app length].
        replace (S (length es) - Z.to_nat N)%nat
          with (S (length es - Z.to_nat N))%nat by lia.
        reflexivity.
      * cbn [app tl] in Hh. cbn [length] in Full, Hlen.
        rewrite IH;
          [| congruence | rewrite Hh, length_app; cbn [length]; lia].
        rewrite Hh. rewrite <- app_assoc. cbn [app length].
        rewrite !length_app. cbn [length].
        replace (S (length h0 + S (length es)) - Z.to_nat N)%nat
          with (S (length h0 + S (length es) - Z.to_nat N))%nat by lia.
        reflexivity.
    + rewrite IH; [| congruence | rewrite Hh, length_app; cbn [length]; lia].
      rewrite Hh, <- app_assoc. reflexivity.
Qed.

Lemma get_history_stats_total (self : Agent) :
  exists stats : HistoryStats, get_history_stats self = Ret stats.
Proof.
  unfold get_history_stats. destruct (query_history self) as [|first rest].
  - eauto.
  - unfold py_div.
    destruct (Z.eqb_spec (Z.of_nat (length (map processing_time (first :: rest)))) 0)
      as [E | _].
    + cbn [map length] in E. lia.
    + eauto.
Qed.

End Ledger.

(** C8: starting from a new agent of capacity [N] and appending any
    entries, the ledger never holds more than [N] of them and holds the
    last ones in their order; [N + 1] appends leave all but the first; an
    append to a full ledger drops exactly the oldest entry; [clear_history]
    empties the ledger; the statistics of an empty ledger are all zero or
    absent, and computing the statistics never divides by zero. *)
Theorem history_ledger_bounded_fifo :
  forall (N : Z) (es : list CompetitiveAgent.QueryHistoryEntry),
    (0 <= N)%Z ->
    let agent := append_all es (CompetitiveAgent.new_agent N) in
    let ledger := CompetitiveAgent.query_history agent in
    (Z.of_nat (length ledger) <= N)%Z /\
    ledger = skipn (length es - Z.to_nat N) es /\
    (Z.of_nat (length es) = N + 1 -> ledger = tl es)%Z /\
    (forall (self : CompetitiveAgent.Agent) (e : CompetitiveAgent.QueryHistoryEntry),
        CompetitiveAgent.max_history_size self = N ->
        Z.of_nat (length (CompetitiveAgent.query_history self)) = N ->
        CompetitiveAgent.query_history (append_entry e self)
          = tl (CompetitiveAgent.query_history self ++ [e])) /\
    CompetitiveAgent.query_history (CompetitiveAgent.clear_history agent) = [] /\
    CompetitiveAgent.get_history_stats (CompetitiveAgent.clear_history agent)
      = Ret (CompetitiveAgent.mkStats 0 0%Q None None None None) /\
    (forall self : CompetitiveAgent.Agent,
        exists stats, CompetitiveAgent.get_history_stats self = Ret stats).
Proof.
  intros N es HN agent ledger.
  assert (E : ledger = skipn (length es - Z.to_nat N) es).
  { subst ledger agent.
    rewrite (append_all_keeps_last N es HN (CompetitiveAgent.new_agent N));
      [reflexivity | reflexivity | cbn; lia]. }
  split; [| split; [exact E | split; [| split; [| split; [| split]]]]].
  - rewrite E, length_skipn. lia.
  - intros H. rewrite E.
    replace (length es - Z.to_nat N)%nat with 1%nat by lia.
    destruct es; reflexivity.
  - intros self e Hmax Hfull.
    destruct (append_entry_history e self) as [Hh _]. rewrite Hh.
    rewrite length_app. cbn [length].
    destruct (Z.ltb_spec (CompetitiveAgent.max_history_size self)
                (Z.of_nat (length (CompetitiveAgent.query_history self) + 1)));
      [reflexivity | lia].
  - reflexivity.
  - reflexivity.
  - apply get_history_stats_total.
Qed.

Lemma history_ledger_bounded_fifo_witness :
  let es := [CompetitiveAgent.mkEntry "2024-01-01 10:00:00" "q1" "r1" (1 # 2);
             CompetitiveAgent.mkEntry "2024-01-01 10:01:00" "q2" "r2" 2;
             CompetitiveAgent.mkEntry "2024-01-01 10:02:00" "q3" "r3" (3 # 4)] in
  CompetitiveAgent.query_history (append_all es (CompetitiveAgent.new_agent 2))
    = tl es.
Proof.
  intros es.
  destruct (history_ledger_bounded_fifo 2 es) as (_ & _ & H & _).
  - lia.
  - apply H. reflexivity.
Defined.

Lemma length_take (n : nat) (s : string) :
  (n <= String.length s)%nat -> String.length (take n s) = n.
Proof.
  revert s. induction n as [|n IH]; intros s H; [reflexivity |].
  destruct s as [|c s]; cbn [String.length] in H; [lia |].
  cbn [take String.length]. rewrite IH; [reflexivity | lia].
Qed.

Lemma length_string_app (s t : string) :
  String.length (s ++ t) = (String.length s + String.length t)%nat.
Proof.
  induction s as [|c s IH]; cbn [append String.length]; [reflexivity |].
  now rewrite IH.
Qed.

(** C10: [add_to_history] puts the new record last in the ledger; its
    response is the first 200 characters followed by three dots when the
    response is longer than 200 characters (203 characters in all), and
    the response itself otherwise. *)
Theorem add_to_history_truncates_response :
  forall (now query response : string)
         (query_history : list HistoryManager.HistoryRecord),
  exists (older : list HistoryManager.HistoryRecord) (stored : string),
    HistoryManager.add_to_history now query response query_history
      = older ++ [HistoryManager.mkRecord now query stored] /\
    ((200 < len response)%Z ->
       stored = (take 200 response ++ "...")%string /\ len stored = 203%Z) /\
    ((len response <= 200)%Z -> stored = response).
Proof.
  intros now query response query_history.
  unfold HistoryManager.add_to_history.
  set (stored := if (200 <? len response)%Z
                 then (take 200 response ++ "...")%string else response).
  set (rec := HistoryManager.mkRecord now query stored).
  assert (Hold : exists older,
             (if (HistoryManager.MAX_HISTORY_SIZE
                    <? Z.of_nat (length (query_history ++ [rec])))%Z
              then tl (query_history ++ [rec]) else query_history ++ [rec])
             = older ++ [rec]).
  { destruct (Z.ltb_spec HistoryManager.MAX_HISTORY_SIZE
                (Z.of_nat (length (query_history ++ [rec])))) as [Full | _];
      [| exists query_history; reflexivity].
    destruct query_history as [|x h].
    - unfold HistoryManager.MAX_HISTORY_SIZE in Full. cbn in Full. lia.
    - exists h. reflexivity. }
  destruct Hold as [older Hold].
  exists older, stored. split; [exact Hold |].
  subst stored. unfold len in *.
  destruct (Z.ltb_spec 200 (Z.of_nat (String.length response))) as [L | L];
    split; intros H; try lia; try reflexivity.
  split; [reflexivity |].
  rewrite length_string_app, length_take by lia. reflexivity.
Qed.

(** * Further properties of the call layer *)

Lemma world_eta (w : World) :
  mkWorld (embed_calls w) (query_calls w) (slept w) (embed_input_type w) = w.
Proof. destruct w; reflexivity. Qed.

(** What one turn of the query loop can do to the world: it leaves the
    embedding alone, calls the engine at most once, and sleeps (once)
    only when it goes on to a further attempt. *)
Lemma query_body_effects (engine : Engine) (query : string)
    (max_retries attempt : Z) (w : World) :
  let r := query_body engine query max_retries attempt w in
  embed_calls (snd r) = embed_calls w /\
  embed_input_type (snd r) = embed_input_type w /\
  (query_calls (snd r) <= S (query_calls w))%nat /\
  (length (slept (snd r)) <= length (slept w)
                             + (if (attempt <? max_retries - 1)%Z then 1 else 0))%nat /\
  (fst r = Continue -> (attempt < max_retries - 1)%Z).
Proof.
  unfold query_body, query_try, query_handlers.
  destruct (Z.ltb_spec attempt (max_retries - 1));
    repeat match goal with
           | |- context [if ?b then _ else _] => destruct b
           | |- context [match engine ?q ?k with _ => _ end] =>
               destruct (engine q k)
           | |- context [match exn_class ?x with _ => _ end] =>
               destruct (exn_class x)
           end;
    cbn [fst snd sleep count_query_call embed_calls embed_input_type
         query_calls slept];
    rewrite ?length_app; cbn [length];
    repeat split; try lia; try discriminate.
Qed.

Lemma query_loop_bounded (engine : Engine) (query : string) (max_retries : Z)
    (fuel : nat) :
  forall (attempt : Z) (w : World),
    max_retries = (attempt + Z.of_nat fuel)%Z ->
    exists (r : option string) (w' : World),
      for_attempts (query_body engine query max_retries) fuel attempt w
        = (Ret r, w') /\
      (query_calls w' <= query_calls w + fuel)%nat /\
      (length (slept w') <= length (slept w) + (fuel - 1))%nat /\
      embed_calls w' = embed_calls w /\
      embed_input_type w' = embed_input_type w /\
      (fuel <> 0%nat -> r <> None).
Proof.
  induction fuel as [|fuel IH]; intros attempt w Hm; cbn [for_attempts].
  - exists None, w. repeat split; try lia.
  - pose proof (query_body_effects engine query max_retries attempt w) as E.
    pose proof (query_body_never_throws engine query max_retries attempt w) as N.
    cbv zeta in E.
    destruct (query_body engine query max_retries attempt w) as [[|v|e] w1];
      cbn [fst snd] in E; destruct E as (E1 & E2 & E3 & E4 & E5).
    + specialize (E5 eq_refl).
      destruct (Z.ltb_spec attempt (max_retries - 1)); [| lia].
      destruct (IH (attempt + 1)%Z w1) as (r & w' & R & C & S' & B1 & B2 & NN);
        [lia |].
      exists r, w'. split; [exact R |].
      repeat split; try lia; try congruence.
      intros _. apply NN. lia.
    + exists (Some v), w1. split; [reflexivity |].
      destruct (Z.ltb_spec attempt (max_retries - 1));
        repeat split; try lia; try congruence; try discriminate.
    + exfalso. apply (N e). reflexivity.
Qed.

(** X1: whatever the engine does, [safe_query_engine_call] returns
    without raising after at most [max_retries] calls of the engine and
    at most [max_retries - 1] sleeps, and leaves the embedding
    configuration alone; it returns [None] exactly when [max_retries] is
    not positive, and then nothing has happened. *)
Theorem safe_query_engine_call_bounded :
  forall (engine : Engine) (query : string) (max_retries : Z) (w : World),
  exists (r : option string) (w' : World),
    safe_query_engine_call engine query max_retries w = (Ret r, w') /\
    (query_calls w' <= query_calls w + Z.to_nat max_retries)%nat /\
    (length (slept w') <= length (slept w) + (Z.to_nat max_retries - 1))%nat /\
    embed_calls w' = embed_calls w /\
    embed_input_type w' = embed_input_type w /\
    (r = None <-> (max_retries <= 0)%Z) /\
    (r = None -> w' = w).
Proof.
  intros engine query max_retries w.
  unfold safe_query_engine_call, for_range.
  destruct (Z.to_nat max_retries) as [|fuel] eqn:F.
  - exists None, w. cbn [for_attempts].
    repeat split; try lia; reflexivity.
  - destruct (query_loop_bounded engine query max_retries (S fuel) 0%Z w)
      as (r & w' & R & C & S' & B1 & B2 & NN); [lia |].
    exists r, w'. split; [exact R |].
    assert (r <> None) by (apply NN; discriminate).
    repeat split; try lia; try congruence; try contradiction.
Qed.

(** A run of the loop whose turns [0 .. j-1] each call the engine, sleep
    and go on, and whose turn [j] calls the engine and returns [v]. *)
Lemma retry_run (body : Z -> World -> step string * World)
    (waits : Z -> Q) (v : string) (j : nat) :
  forall (fuel : nat) (a0 : Z) (w0 : World),
    (j < fuel)%nat ->
    (forall (i : nat) (w : World),
        (i < j)%nat -> query_calls w = (query_calls w0 + i)%nat ->
        body (a0 + Z.of_nat i)%Z w
          = (Continue, sleep (waits (a0 + Z.of_nat i)%Z) (count_query_call w))) ->
    (forall w : World,
        query_calls w = (query_calls w0 + j)%nat ->
        body (a0 + Z.of_nat j)%Z w = (Return v, count_query_call w)) ->
    for_attempts body fuel a0 w0
      = (Ret (Some v),
         mkWorld (embed_calls w0) (query_calls w0 + S j)
                 (slept w0 ++ map (fun i => waits (a0 + Z.of_nat i)%Z) (seq 0 j))
                 (embed_input_type w0)).
Proof.
  induction j as [|j IH]; intros fuel a0 w0 Hf Hgo Hend;
    (destruct fuel as [|fuel]; [lia |]); cbn [for_attempts].
  - specialize (Hend w0). rewrite Z.add_0_r, Nat.add_0_r in Hend.
    rewrite Hend by reflexivity.
    cbn [seq map count_query_call]. rewrite app_nil_r, Nat.add_1_r.
    reflexivity.
  - pose proof (Hgo 0%nat w0) as H0. rewrite Z.add_0_r, Nat.add_0_r in H0.
    rewrite H0 by (lia || reflexivity).
    rewrite (IH fuel (a0 + 1)%Z (sleep (waits a0) (count_query_call w0))).
    + cbn [sleep count_query_call embed_calls query_calls slept embed_input_type].
      f_equal. f_equal; [lia |].
      rewrite <- app_assoc. cbn [app seq map]. rewrite Z.add_0_r. do 2 f_equal.
      rewrite <- seq_shift, map_map. apply map_ext. intros i. f_equal. lia.
    + lia.
    + intros i w Hi Hc.
      replace (a0 + 1 + Z.of_nat i)%Z with (a0 + Z.of_nat (S i))%Z by lia.
      apply Hgo; [lia |].
      cbn [sleep count_query_call query_calls] in Hc. lia.
    + intros w Hc.
      replace (a0 + 1 + Z.of_nat j)%Z with (a0 + Z.of_nat (S j))%Z by lia.
      apply Hend.
      cbn [sleep count_query_call query_calls] in Hc. lia.
Qed.

(** The turn of the loop for a query that passes validation, by what
    the engine does. *)
Lemma query_body_valid (engine : Engine) (query : string)
    (max_retries attempt : Z) (w : World) :
  (3 <= len (strip query))%Z ->
  query_body engine query max_retries attempt w =
    match engine query (query_calls w) with
    | Raise e => query_handlers max_retries attempt e (count_query_call w)
    | Ret response =>
        if (String.eqb response "" || String.eqb (strip response) "")%bool
        then
          if (attempt <? max_retries - 1)%Z
          then (Continue, sleep 1%Q (count_query_call w))
          else (Return msg_empty_response, count_query_call w)
        else (Return response, count_query_call w)
    end.
Proof.
  intros H. unfold query_body. rewrite query_try_valid by assumption.
  destruct (engine query (query_calls w)) as [response | e]; [| reflexivity].
  destruct (_ || _)%bool; [| reflexivity].
  destruct (_ <? _)%Z; reflexivity.
Qed.

Lemma strip_nonempty_not_blank (s : string) :
  strip s <> "" ->
  (String.eqb s "" || String.eqb (strip s) "")%bool = false.
Proof.
  intros H. apply orb_false_iff. split.
  - destruct (String.eqb_spec s "") as [-> | _]; [| reflexivity].
    now contradiction H.
  - destruct (String.eqb_spec (strip s) "") as [E | _];
      [contradiction | reflexivity].
Qed.

(** X2: when the engine answers its first [j] calls with rate-limit
    errors of the provider and call [j] with a response that is not
    blank, and [j < max_retries], the call returns that response
    unchanged after [j + 1] engine calls and waits of [2 * 2^attempt]
    seconds after each failed attempt. *)
Theorem safe_query_engine_call_recovers :
  forall (engine : Engine) (query response : string) (max_retries : Z)
         (j : nat) (w : World),
    (3 <= len (strip query))%Z ->
    (Z.of_nat j < max_retries)%Z ->
    (forall i, (i < j)%nat ->
       exists e, engine query (query_calls w + i)%nat = Raise e /\
                 in_COHERE_EXCEPTIONS (exn_class e) = true /\
                 is_rate_limit_error e = true) ->
    engine query (query_calls w + j)%nat = Ret response ->
    strip response <> "" ->
    safe_query_engine_call engine query max_retries w
      = (Ret (Some response),
         mkWorld (embed_calls w) (query_calls w + S j)
                 (slept w ++ map (fun attempt => inject_Z (2 * 2 ^ Z.of_nat attempt))
                                 (seq 0 j))
                 (embed_input_type w)).
Proof.
  intros engine query response max_retries j w Hq Hj Hfail Hok Hnb.
  unfold safe_query_engine_call, for_range.
  rewrite (retry_run (query_body engine query max_retries)
             (fun a => inject_Z (2 * 2 ^ a)) response j).
  - reflexivity.
  - lia.
  - intros i w1 Hi Hc. rewrite query_body_valid by assumption.
    rewrite Hc. destruct (Hfail i Hi) as (e & -> & Hcls & Hrl).
    unfold query_handlers. rewrite Hcls, Hrl.
    destruct (Z.ltb_spec (0 + Z.of_nat i) (max_retries - 1)); [| lia].
    rewrite Z.mul_comm. reflexivity.
  - intros w1 Hc. rewrite query_body_valid by assumption.
    rewrite Hc, Hok, strip_nonempty_not_blank by assumption. reflexivity.
Qed.

Lemma safe_query_engine_call_recovers_witness :
  safe_query_engine_call
    (fun _ k => match k with
                | O => Raise (mkExn TooManyRequestsError "status_code: 429")
                | S _ => Ret "TechCorp sells cloud services."
                end)
    "Tell me about TechCorp" 3 initial_world
  = (Ret (Some "TechCorp sells cloud services."),
     mkWorld 0 2 [inject_Z 2] None).
Proof.
  apply (safe_query_engine_call_recovers
           (fun _ k => match k with
                       | O => Raise (mkExn TooManyRequestsError "status_code: 429")
                       | S _ => Ret "TechCorp sells cloud services."
                       end)
           "Tell me about TechCorp" "TechCorp sells cloud services." 3 1
           initial_world).
  - vm_compute. discriminate.
  - lia.
  - intros i Hi. assert (i = 0%nat) as -> by lia.
    eexists. split; [reflexivity |]. split; reflexivity.
  - reflexivity.
  - vm_compute. discriminate.
Defined.

(** X3: when every call of the engine fails with a network error
    ([RequestException], [ConnectionError], [Timeout]), the call makes
    [max_retries] attempts, waits [2^attempt] seconds after each but the
    last, and returns the connectivity message. *)
Theorem safe_query_engine_call_network_down :
  forall (engine : Engine) (query : string) (max_retries : Z) (w : World),
    (1 <= max_retries)%Z ->
    (3 <= len (strip query))%Z ->
    (forall k, exists e, engine query k = Raise e /\
                         is_network_exception (exn_class e) = true) ->
    safe_query_engine_call engine query max_retries w
      = (Ret (Some msg_network),
         mkWorld (embed_calls w) (query_calls w + Z.to_nat max_retries)
                 (slept w ++ map (fun attempt => inject_Z (2 ^ Z.of_nat attempt))
                                 (seq 0 (Z.to_nat max_retries - 1)))
                 (embed_input_type w)).
Proof.
  intros engine query max_retries w Hn Hq Hnet.
  assert (Hcls : forall e, is_network_exception (exn_class e) = true ->
                           in_COHERE_EXCEPTIONS (exn_class e) = false).
  { intros e. destruct (exn_class e); cbn; congruence. }
  unfold safe_query_engine_call, for_range.
  rewrite (retry_run (query_body engine query max_retries)
             (fun a => inject_Z (2 ^ a)) msg_network (Z.to_nat max_retries - 1)).
  - f_equal. f_equal. lia.
  - lia.
  - intros i w1 Hi Hc. rewrite query_body_valid by assumption.
    destruct (Hnet (query_calls w1)) as (e & -> & Hne).
    unfold query_handlers. rewrite (Hcls e Hne), Hne.
    destruct (Z.ltb_spec (0 + Z.of_nat i) (max_retries - 1)); [| lia].
    reflexivity.
  - intros w1 Hc. rewrite query_body_valid by assumption.
    destruct (Hnet (query_calls w1)) as (e & -> & Hne).
    unfold query_handlers. rewrite (Hcls e Hne), Hne.
    destruct (Z.ltb_spec (0 + Z.of_nat (Z.to_nat max_retries - 1))
                (max_retries - 1)); [lia |].
    reflexivity.
Qed.

Lemma safe_query_engine_call_network_down_witness :
  safe_query_engine_call
    (fun _ _ => Raise (mkExn Timeout "read timed out"))
    "Tell me about TechCorp" 3 initial_world
  = (Ret (Some msg_network),
     mkWorld 0 3 [inject_Z 1; inject_Z 2] None).
Proof.
  apply (safe_query_engine_call_network_down
           (fun _ _ => Raise (mkExn Timeout "read timed out"))
           "Tell me about TechCorp" 3 initial_world).
  - lia.
  - vm_compute. discriminate.
  - intros k. eexists. split; reflexivity.
Defined.

(** X4: when every response of the engine is blank, the call makes
    [max_retries] attempts with one second between them and returns the
    fixed apology. *)
Theorem safe_query_engine_call_blank_responses :
  forall (engine : Engine) (query : string) (max_retries : Z) (w : World),
    (1 <= max_retries)%Z ->
    (3 <= len (strip query))%Z ->
    (forall k, exists response, engine query k = Ret response /\
                                strip response = "") ->
    safe_query_engine_call engine query max_retries w
      = (Ret (Some msg_empty_response),
         mkWorld (embed_calls w) (query_calls w + Z.to_nat max_retries)
                 (slept w ++ repeat 1%Q (Z.to_nat max_retries - 1))
                 (embed_input_type w)).
Proof.
  intros engine query max_retries w Hn Hq Hblank.
  unfold safe_query_engine_call, for_range.
  rewrite (retry_run (query_body engine query max_retries)
             (fun _ => 1%Q) msg_empty_response (Z.to_nat max_retries - 1)).
  - f_equal. f_equal; [lia |]. f_equal.
    generalize (Z.to_nat max_retries - 1)%nat as n. intros n.
    generalize 0%nat as s.
    induction n as [|n IH]; intros s; cbn [seq map repeat];
      [reflexivity | now rewrite IH].
  - lia.
  - intros i w1 Hi Hc. rewrite query_body_valid by assumption.
    destruct (Hblank (query_calls w1)) as (r & -> & Hr).
    rewrite Hr, String.eqb_refl, orb_true_r.
    destruct (Z.ltb_spec (0 + Z.of_nat i) (max_retries - 1)); [| lia].
    reflexivity.
  - intros w1 Hc. rewrite query_body_valid by assumption.
    destruct (Hblank (query_calls w1)) as (r & -> & Hr).
    rewrite Hr, String.eqb_refl, orb_true_r.
    destruct (Z.ltb_spec (0 + Z.of_nat (Z.to_nat max_retries - 1))
                (max_retries - 1)); [lia |].
    reflexivity.
Qed.

Lemma safe_query_engine_call_blank_responses_witness :
  safe_query_engine_call (fun _ _ => Ret "   ")
    "Tell me about TechCorp" 3 initial_world
  = (Ret (Some msg_empty_response), mkWorld 0 3 [1%Q; 1%Q] None).
Proof.
  apply (safe_query_engine_call_blank_responses (fun _ _ => Ret "   ")
           "Tell me about TechCorp" 3 initial_world).
  - lia.
  - vm_compute. discriminate.
  - intros k. exists "   ". split; reflexivity.
Defined.

(** X5: a provider error that is no rate-limit signal but speaks of a
    token limit, or else of something invalid, ends the call at once:
    one engine call, no sleep, and the too-complex message in the first
    case, the rephrase message in the second. *)
Theorem safe_query_engine_call_gives_up_at_once :
  forall (engine : Engine) (query : string) (max_retries : Z) (e : Exn)
         (w : World),
    (1 <= max_retries)%Z ->
    (3 <= len (strip query))%Z ->
    engine query (query_calls w) = Raise e ->
    in_COHERE_EXCEPTIONS (exn_class e) = true ->
    is_rate_limit_error e = false ->
    ((contains "token" (lower (exn_str e)) && contains "limit" (lower (exn_str e)))
     || contains "invalid" (lower (exn_str e)))%bool = true ->
    safe_query_engine_call engine query max_retries w
      = (Ret (Some (if (contains "token" (lower (exn_str e))
                        && contains "limit" (lower (exn_str e)))%bool
                    then msg_too_complex else msg_invalid)),
         count_query_call w).
Proof.
  intros engine query max_retries e w Hn Hq He Hc Hr Hk.
  unfold safe_query_engine_call, for_range.
  destruct (Z.to_nat max_retries) as [|fuel] eqn:F; [lia |].
  cbn [for_attempts]. rewrite query_body_valid by assumption.
  rewrite He. unfold query_handlers. rewrite Hc, Hr.
  destruct (contains "token" (lower (exn_str e))
            && contains "limit" (lower (exn_str e)))%bool; [reflexivity |].
  cbn [orb] in Hk. rewrite Hk. reflexivity.
Qed.

Lemma safe_query_engine_call_gives_up_at_once_witness :
  safe_query_engine_call
    (fun _ _ => Raise (mkExn BadRequestError "too many tokens: limit is 4096"))
    "Tell me about TechCorp" 3 initial_world
  = (Ret (Some msg_too_complex), mkWorld 0 1 [] None).
Proof.
  apply (safe_query_engine_call_gives_up_at_once
           (fun _ _ => Raise (mkExn BadRequestError "too many tokens: limit is 4096"))
           "Tell me about TechCorp" 3
           (mkExn BadRequestError "too many tokens: limit is 4096")
           initial_world).
  - lia.
  - vm_compute. discriminate.
  - reflexivity.
  - reflexivity.
  - vm_compute. reflexivity.
  - vm_compute. reflexivity.
Defined.

(** ** Configuration calls *)

Lemma for_attempts_S {A} (body : Z -> World -> step A * World)
    (fuel : nat) (attempt : Z) (w : World) :
  for_attempts body (S fuel) attempt w =
    match body attempt w with
    | (Continue, w') => for_attempts body fuel (attempt + 1)%Z w'
    | (Return v, w') => (Ret (Some v), w')
    | (Throw e, w') => (Raise e, w')
    end.
Proof. reflexivity. Qed.

Lemma missing_key_body (P : Provider) (what input_type : string)
    (max_retries attempt : Z) (w : World) :
  api_key_configured P = false ->
  configure_body P what input_type max_retries attempt w =
    if (attempt <? max_retries - 1)%Z then (Continue, sleep (1 # 2)%Q w)
    else (Throw (mkExn RuntimeError
                   ("Failed to configure " ++ what ++ " embedding after "
                    ++ str_of_Z max_retries
                    ++ " attempts: COHERE_API_KEY is not set or is empty")), w).
Proof.
  intros Hk. unfold configure_body, configure_try. rewrite Hk. reflexivity.
Qed.

Lemma missing_key_turns (P : Provider) (what input_type : string)
    (max_retries : Z) :
  api_key_configured P = false ->
  forall (fuel : nat) (attempt : Z) (w : World),
    max_retries = (attempt + Z.of_nat (S fuel))%Z ->
    for_attempts (configure_body P what input_type max_retries)
                 (S fuel) attempt w
      = (Raise (mkExn RuntimeError
                  ("Failed to configure " ++ what ++ " embedding after "
                   ++ str_of_Z max_retries
                   ++ " attempts: COHERE_API_KEY is not set or is empty")),
         mkWorld (embed_calls w) (query_calls w)
                 (slept w ++ repeat (1 # 2)%Q fuel) (embed_input_type w)).
Proof.
  intros Hk. induction fuel as [|fuel IH]; intros attempt w Hm;
    rewrite for_attempts_S, missing_key_body by assumption.
  - destruct (Z.ltb_spec attempt (max_retries - 1)); [lia |].
    cbn [repeat]. rewrite app_nil_r, world_eta. reflexivity.
  - destruct (Z.ltb_spec attempt (max_retries - 1)); [| lia].
    rewrite IH by lia.
    cbn [sleep embed_calls query_calls slept embed_input_type repeat].
    rewrite <- app_assoc. reflexivity.
Qed.

(** X6: without a configured API key both configuration calls retry the
    failed check like any unexpected error: they never reach the
    provider, sleep half a second after each attempt but the last, and
    raise a [RuntimeError] that quotes the missing key. *)
Theorem configure_embedding_retries_missing_key :
  forall (P : Provider) (max_retries : Z) (w : World),
    (1 <= max_retries)%Z ->
    api_key_configured P = false ->
    configure_embedding_for_search P max_retries w
      = (Raise (mkExn RuntimeError
                  ("Failed to configure search embedding after "
                   ++ str_of_Z max_retries
                   ++ " attempts: COHERE_API_KEY is not set or is empty")),
         mkWorld (embed_calls w) (query_calls w)
                 (slept w ++ repeat (1 # 2)%Q (Z.to_nat max_retries - 1))
                 (embed_input_type w)) /\
    configure_embedding_for_indexing P max_retries w
      = (Raise (mkExn RuntimeError
                  ("Failed to configure indexing embedding after "
                   ++ str_of_Z max_retries
                   ++ " attempts: COHERE_API_KEY is not set or is empty")),
         mkWorld (embed_calls w) (query_calls w)
                 (slept w ++ repeat (1 # 2)%Q (Z.to_nat max_retries - 1))
                 (embed_input_type w)).
Proof.
  intros P max_retries w Hn Hk.
  unfold configure_embedding_for_search, configure_embedding_for_indexing,
    for_range.
  destruct (Z.to_nat max_retries) as [|fuel] eqn:F; [lia |].
  rewrite !missing_key_turns by (assumption || lia).
  rewrite Nat.sub_succ, Nat.sub_0_r. split; reflexivity.
Qed.

Lemma configure_embedding_retries_missing_key_witness :
  configure_embedding_for_search (mkProvider false (fun _ => None)) 2
                                 initial_world
    = (Raise (mkExn RuntimeError
                "Failed to configure search embedding after 2 attempts: COHERE_API_KEY is not set or is empty"),
       mkWorld 0 0 [(1 # 2)%Q] None).
Proof.
  apply (configure_embedding_retries_missing_key
           (mkProvider false (fun _ => None)) 2 initial_world).
  - lia.
  - reflexivity.
Defined.

(** What one turn of a configuration loop can do. *)
Lemma configure_body_effects (P : Provider) (what input_type : string)
    (max_retries attempt : Z) (w : World) :
  let r := configure_body P what input_type max_retries attempt w in
  query_calls (snd r) = query_calls w /\
  (embed_calls (snd r) <= S (embed_calls w))%nat /\
  match fst r with
  | Return _ => embed_input_type (snd r) = Some input_type
  | Continue => embed_input_type (snd r) = embed_input_type w /\
                (attempt < max_retries - 1)%Z
  | Throw e => embed_input_type (snd r) = embed_input_type w /\
               (exn_class e = ValueError \/ exn_class e = RuntimeError)
  end.
Proof.
  unfold configure_body, configure_try, configure_handlers.
  destruct (Z.ltb_spec attempt (max_retries - 1));
    repeat match goal with
           | |- context [if ?b then _ else _] => destruct b
           | |- context [match cohere_embedding ?p ?k with _ => _ end] =>
               destruct (cohere_embedding p k)
           end;
    cbn [fst snd sleep count_embed_call set_embed_model embed_calls
         embed_input_type query_calls slept exn_class];
    repeat split; auto.
Qed.

Lemma configure_loop_invariant (P : Provider) (what input_type : string)
    (max_retries : Z) (fuel : nat) :
  forall (attempt : Z) (w : World),
    max_retries = (attempt + Z.of_nat fuel)%Z ->
    let r := for_attempts (configure_body P what input_type max_retries)
                          fuel attempt w in
    query_calls (snd r) = query_calls w /\
    (embed_calls (snd r) <= embed_calls w + fuel)%nat /\
    match fst r with
    | Ret (Some _) => embed_input_type (snd r) = Some input_type
    | Ret None => fuel = 0%nat
    | Raise e => embed_input_type (snd r) = embed_input_type w /\
                 (exn_class e = ValueError \/ exn_class e = RuntimeError)
    end.
Proof.
  induction fuel as [|fuel IH]; intros attempt w Hm.
  - cbn. repeat split; auto; lia.
  - rewrite for_attempts_S.
    pose proof (configure_body_effects P what input_type max_retries attempt w)
      as E. cbv zeta in E.
    destruct (configure_body P what input_type max_retries attempt w)
      as [[|v|e] w1]; cbn [fst snd] in E; destruct E as (E1 & E2 & E3).
    + destruct E3 as [E3 E4].
      assert (Hm' : max_retries = (attempt + 1 + Z.of_nat fuel)%Z) by lia.
      specialize (IH (attempt + 1)%Z w1 Hm'). cbv zeta in IH |- *.
      destruct (for_attempts _ fuel (attempt + 1)%Z w1) as [[[u|]|e] w2];
        cbn [fst snd] in *; destruct IH as (I1 & I2 & I3);
        repeat split; try lia; try congruence.
      * destruct I3 as [I3 _]. congruence.
      * destruct I3 as [_ I3]. exact I3.
    + cbn [fst snd]. repeat split; try lia; assumption.
    + cbn [fst snd]. destruct E3. repeat split; try lia; assumption.
Qed.

(** X7: for every provider, [configure_embedding_for_search] either
    returns with the embedding set to [search_query], or raises a
    [ValueError] or a [RuntimeError] and leaves the embedding
    configuration as it was; it constructs at most [max_retries]
    embeddings and never calls the query engine.
    [configure_embedding_for_indexing] does the same with
    [search_document]. *)
Theorem configure_embedding_outcomes :
  forall (P : Provider) (max_retries : Z) (w : World),
    (1 <= max_retries)%Z ->
    (let r := configure_embedding_for_search P max_retries w in
     query_calls (snd r) = query_calls w /\
     (embed_calls (snd r) <= embed_calls w + Z.to_nat max_retries)%nat /\
     match fst r with
     | Ret _ => embed_input_type (snd r) = Some "search_query"
     | Raise e => embed_input_type (snd r) = embed_input_type w /\
                  (exn_class e = ValueError \/ exn_class e = RuntimeError)
     end) /\
    (let r := configure_embedding_for_indexing P max_retries w in
     query_calls (snd r) = query_calls w /\
     (embed_calls (snd r) <= embed_calls w + Z.to_nat max_retries)%nat /\
     match fst r with
     | Ret _ => embed_input_type (snd r) = Some "search_document"
     | Raise e => embed_input_type (snd r) = embed_input_type w /\
                  (exn_class e = ValueError \/ exn_class e = RuntimeError)
     end).
Proof.
  intros P max_retries w Hn.
  assert (G : forall what input_type,
             let r := for_range (configure_body P what input_type max_retries)
                                max_retries w in
             query_calls (snd r) = query_calls w /\
             (embed_calls (snd r) <= embed_calls w + Z.to_nat max_retries)%nat /\
             match fst r with
             | Ret _ => embed_input_type (snd r) = Some input_type
             | Raise e => embed_input_type (snd r) = embed_input_type w /\
                          (exn_class e = ValueError \/ exn_class e = RuntimeError)
             end).
  { intros what input_type. unfold for_range.
    pose proof (configure_loop_invariant P what input_type max_retries
                  (Z.to_nat max_retries) 0%Z w) as L.
    cbv zeta in L |- *.
    destruct (for_attempts _ (Z.to_nat max_retries) 0%Z w) as [[[u|]|e] w1];
      cbn [fst snd] in *; (destruct L as (L1 & L2 & L3); [lia |]);
      repeat split; try lia; try tauto. }
  split; apply G.
Qed.

Lemma configure_embedding_outcomes_witness :
  embed_input_type
    (snd (configure_embedding_for_search
            (mkProvider true (fun k => match k with
                                       | O => Some (mkExn InternalServerError "status_code: 500")
                                       | S _ => None
                                       end))
            2 initial_world))
  = Some "search_query".
Proof.
  pose proof (configure_embedding_outcomes
                (mkProvider true (fun k => match k with
                                           | O => Some (mkExn InternalServerError "status_code: 500")
                                           | S _ => None
                                           end))
                2 initial_world) as H.
  destruct H as [H _]; [lia |].
  cbv zeta in H. destruct H as (_ & _ & H). exact H.
Defined.

(** X8: an authorization error of the provider that carries no
    rate-limit mark ends either configuration call at its first
    attempt: one embedding is constructed, nothing is slept, the
    embedding configuration stays, and a [ValueError] quoting the error
    is raised. *)
Theorem configure_embedding_rejects_bad_credentials :
  forall (P : Provider) (max_retries : Z) (e : Exn) (w : World),
    (1 <= max_retries)%Z ->
    api_key_configured P = true ->
    cohere_embedding P (embed_calls w) = Some e ->
    in_COHERE_EXCEPTIONS (exn_class e) = true ->
    is_rate_limit_error e = false ->
    is_auth_error e = true ->
    configure_embedding_for_search P max_retries w
      = (Raise (mkExn ValueError ("Invalid API key: " ++ exn_str e)),
         count_embed_call w) /\
    configure_embedding_for_indexing P max_retries w
      = (Raise (mkExn ValueError ("Invalid API key: " ++ exn_str e)),
         count_embed_call w).
Proof.
  intros P max_retries e w Hn Hk He Hc Hr Ha.
  unfold configure_embedding_for_search, configure_embedding_for_indexing.
  split; apply configure_auth_error_fails_at_once; assumption.
Qed.

Lemma configure_embedding_rejects_bad_credentials_witness :
  configure_embedding_for_search
    (mkProvider true (fun _ => Some (mkExn ForbiddenError "status_code: 403")))
    2 initial_world
  = (Raise (mkExn ValueError "Invalid API key: status_code: 403"),
     mkWorld 1 0 [] None).
Proof.
  destruct (configure_embedding_rejects_bad_credentials
              (mkProvider true (fun _ => Some (mkExn ForbiddenError "status_code: 403")))
              2 (mkExn ForbiddenError "status_code: 403") initial_world)
    as [H _].
  - lia.
  - reflexivity.
  - reflexivity.
  - reflexivity.
  - vm_compute. reflexivity.
  - vm_compute. reflexivity.
  - exact H.
Defined.

Lemma rate_limited_configure_body (P : Provider) (what input_type : string)
    (max_retries attempt : Z) (w : World) :
  api_key_configured P = true ->
  (forall k, exists e, cohere_embedding P k = Some e /\
                       in_COHERE_EXCEPTIONS (exn_class e) = true /\
                       is_rate_limit_error e = true) ->
  configure_body P what input_type max_retries attempt w =
    if (attempt <? max_retries - 1)%Z
    then (Continue, sleep 1%Q (count_embed_call w))
    else (Throw (mkExn RuntimeError
                   ("Rate limit exceeded while configuring " ++ what
                    ++ " embedding")), count_embed_call w).
Proof.
  intros Hk Hrl. unfold configure_body, configure_try. rewrite Hk.
  cbn [negb]. destruct (Hrl (embed_calls w)) as (e & -> & Hc & Hr).
  unfold configure_handlers. rewrite Hc, Hr. reflexivity.
Qed.

Lemma rate_limited_configure_turns (P : Provider) (what input_type : string)
    (max_retries : Z) :
  api_key_configured P = true ->
  (forall k, exists e, cohere_embedding P k = Some e /\
                       in_COHERE_EXCEPTIONS (exn_class e) = true /\
                       is_rate_limit_error e = true) ->
  forall (fuel : nat) (attempt : Z) (w : World),
    max_retries = (attempt + Z.of_nat (S fuel))%Z ->
    for_attempts (configure_body P what input_type max_retries)
                 (S fuel) attempt w
      = (Raise (mkExn RuntimeError
                  ("Rate limit exceeded while configuring " ++ what
                   ++ " embedding")),
         mkWorld (embed_calls w + S fuel) (query_calls w)
                 (slept w ++ repeat 1%Q fuel) (embed_input_type w)).
Proof.
  intros Hk Hrl. induction fuel as [|fuel IH]; intros attempt w Hm;
    rewrite for_attempts_S, rate_limited_configure_body by assumption.
  - destruct (Z.ltb_spec attempt (max_retries - 1)); [lia |].
    cbn [repeat count_embed_call]. rewrite app_nil_r, Nat.add_1_r.
    reflexivity.
  - destruct (Z.ltb_spec attempt (max_retries - 1)); [| lia].
    rewrite IH by lia.
    cbn [sleep count_embed_call embed_calls query_calls slept
         embed_input_type repeat].
    rewrite <- app_assoc. cbn [app]. f_equal. f_equal. lia.
Qed.

(** X9: when the provider answers every construction with a rate-limit
    error, a configuration call constructs [max_retries] embeddings,
    waits one second (not a growing delay) after each attempt but the
    last, leaves the embedding configuration alone and raises a
    [RuntimeError] that names the rate limit. *)
Theorem configure_embedding_rate_limited :
  forall (P : Provider) (max_retries : Z) (w : World),
    (1 <= max_retries)%Z ->
    api_key_configured P = true ->
    (forall k, exists e, cohere_embedding P k = Some e /\
                         in_COHERE_EXCEPTIONS (exn_class e) = true /\
                         is_rate_limit_error e = true) ->
    configure_embedding_for_search P max_retries w
      = (Raise (mkExn RuntimeError
                  "Rate limit exceeded while configuring search embedding"),
         mkWorld (embed_calls w + Z.to_nat max_retries) (query_calls w)
                 (slept w ++ repeat 1%Q (Z.to_nat max_retries - 1))
                 (embed_input_type w)) /\
    configure_embedding_for_indexing P max_retries w
      = (Raise (mkExn RuntimeError
                  "Rate limit exceeded while configuring indexing embedding"),
         mkWorld (embed_calls w + Z.to_nat max_retries) (query_calls w)
                 (slept w ++ repeat 1%Q (Z.to_nat max_retries - 1))
                 (embed_input_type w)).
Proof.
  intros P max_retries w Hn Hk Hrl.
  unfold configure_embedding_for_search, configure_embedding_for_indexing,
    for_range.
  destruct (Z.to_nat max_retries) as [|fuel] eqn:F; [lia |].
  rewrite !rate_limited_configure_turns by (assumption || lia).
  rewrite Nat.sub_succ, Nat.sub_0_r. split; reflexivity.
Qed.

Lemma configure_embedding_rate_limited_witness :
  configure_embedding_for_indexing
    (mkProvider true (fun _ => Some (mkExn TooManyRequestsError "status_code: 429")))
    2 initial_world
  = (Raise (mkExn RuntimeError
              "Rate limit exceeded while configuring indexing embedding"),
     mkWorld 2 0 [1%Q] None).
Proof.
  destruct (configure_embedding_rate_limited
              (mkProvider true (fun _ => Some (mkExn TooManyRequestsError "status_code: 429")))
              2 initial_world) as [_ H].
  - lia.
  - reflexivity.
  - intros k. eexists. split; [reflexivity |]. split; reflexivity.
  - exact H.
Defined.

(** A configuration call with a working provider succeeds at its first
    attempt. *)
Lemma configure_first_try (P : Provider) (what input_type : string)
    (max_retries : Z) (w : World) :
  (1 <= max_retries)%Z ->
  api_key_configured P = true ->
  cohere_embedding P (embed_calls w) = None ->
  for_range (configure_body P what input_type max_retries) max_retries w
    = (Ret (Some tt), set_embed_model input_type (count_embed_call w)).
Proof.
  intros Hn Hk He. unfold for_range.
  destruct (Z.to_nat max_retries) as [|fuel] eqn:F; [lia |].
  rewrite for_attempts_S. unfold configure_body, configure_try.
  rewrite Hk, He. reflexivity.
Qed.

Lemma configure_loop_sleeps (P : Provider) (what input_type : string)
    (max_retries : Z) (fuel : nat) :
  forall (attempt : Z) (w : World),
    max_retries = (attempt + Z.of_nat fuel)%Z ->
    (length (slept (snd (for_attempts
                           (configure_body P what input_type max_retries)
                           fuel attempt w)))
     <= length (slept w) + (fuel - 1))%nat.
Proof.
  induction fuel as [|fuel IH]; intros attempt w Hm.
  - cbn. lia.
  - rewrite for_attempts_S.
    assert (E : let r := configure_body P what input_type max_retries attempt w in
                match fst r with
                | Continue => (attempt < max_retries - 1)%Z /\
                              (length (slept (snd r)) <= S (length (slept w)))%nat
                | _ => slept (snd r) = slept w
                end).
    { unfold configure_body, configure_try, configure_handlers.
      destruct (Z.ltb_spec attempt (max_retries - 1));
        repeat match goal with
               | |- context [if ?b then _ else _] => destruct b
               | |- context [match cohere_embedding ?p ?k with _ => _ end] =>
                   destruct (cohere_embedding p k)
               end;
        cbn [fst snd sleep count_embed_call set_embed_model slept];
        rewrite ?length_app; cbn [length]; try split; try lia; reflexivity. }
    cbv zeta in E.
    destruct (configure_body P what input_type max_retries attempt w)
      as [[|v|e] w1]; cbn [fst snd] in E |- *.
    + destruct E as [E1 E2].
      specialize (IH (attempt + 1)%Z w1). lia.
    + rewrite E. lia.
    + rewrite E. lia.
Qed.

(** * Further properties of the orchestrator *)

Lemma query_first_try (engine : Engine) (query response : string)
    (max_retries : Z) (w : World) :
  (1 <= max_retries)%Z ->
  (3 <= len (strip query))%Z ->
  engine query (query_calls w) = Ret response ->
  strip response <> "" ->
  safe_query_engine_call engine query max_retries w
    = (Ret (Some response), count_query_call w).
Proof.
  intros Hn Hq He Hnb. unfold safe_query_engine_call, for_range.
  destruct (Z.to_nat max_retries) as [|fuel] eqn:F; [lia |].
  rewrite for_attempts_S, query_body_valid by assumption.
  rewrite He, strip_nonempty_not_blank by assumption. reflexivity.
Qed.

(** X10: when the search configuration fails, [reason_and_act] goes no
    further: the query engine is neither built nor called, the embedding
    configuration is as before, and the answer is the message for the
    raised error. *)
Theorem reason_and_act_stops_after_failed_configuration :
  forall (P : Provider) (query : string) (index : Index)
         (competitor_list : option (list string)) (w w1 : World) (e : Exn),
    configure_embedding_for_search P 2 w = (Raise e, w1) ->
    reason_and_act P query index competitor_list w
      = (Ret (surface_error e), w1) /\
    query_calls w1 = query_calls w /\
    embed_input_type w1 = embed_input_type w /\
    (exn_class e = ValueError \/ exn_class e = RuntimeError).
Proof.
  intros P query index competitor_list w w1 e H.
  split.
  - unfold reason_and_act, execute_retrieval_and_analysis, try_except,
      retrieval_steps, bind. rewrite H. reflexivity.
  - pose proof (configure_loop_invariant P "search" "search_query" 2
                  (Z.to_nat 2) 0%Z w eq_refl) as L.
    cbv zeta in L. unfold configure_embedding_for_search, for_range in H.
    rewrite H in L. cbn [fst snd] in L.
    destruct L as (L1 & _ & L2 & L3). auto.
Qed.

Lemma reason_and_act_stops_after_failed_configuration_witness :
  reason_and_act (mkProvider false (fun _ => None)) "Tell me about TechCorp"
    (mkIndex (fun _ => Ret (fun _ _ => Ret "answer"))
             (fun _ => Ret (fun _ _ => Ret "answer")))
    None initial_world
  = (Ret (surface_error
            (mkExn RuntimeError
               "Failed to configure search embedding after 2 attempts: COHERE_API_KEY is not set or is empty")),
     mkWorld 0 0 [(1 # 2)%Q] None).
Proof.
  destruct (reason_and_act_stops_after_failed_configuration
              (mkProvider false (fun _ => None)) "Tell me about TechCorp"
              (mkIndex (fun _ => Ret (fun _ _ => Ret "answer"))
                       (fun _ => Ret (fun _ _ => Ret "answer")))
              None initial_world (mkWorld 0 0 [(1 # 2)%Q] None)
              (mkExn RuntimeError
                 "Failed to configure search embedding after 2 attempts: COHERE_API_KEY is not set or is empty"))
    as [H _].
  - vm_compute. reflexivity.
  - exact H.
Defined.

(** X11: with a working provider, an index whose engine can be built and
    an engine that answers the first call with a response that is not
    blank, a query of at least three characters is answered with that
    response, trimmed and with the footer of the intent; two embeddings
    were constructed, the engine was called once, nothing was slept and
    the embedding is back in indexing mode. *)
Theorem reason_and_act_healthy_run :
  forall (P : Provider) (query response : string) (index : Index)
         (competitor_list : option (list string)) (engine : Engine)
         (w : World),
    let intent := analyze_query_intent query competitor_list in
    api_key_configured P = true ->
    (forall k, cohere_embedding P k = None) ->
    retriever_query_engine index (similarity_depth SIMILARITY_TOP_K intent)
      = Ret engine ->
    (3 <= len (strip query))%Z ->
    engine query (query_calls w) = Ret response ->
    strip response <> "" ->
    reason_and_act P query index competitor_list w
      = (Ret (enhance_response_based_on_intent response intent),
         mkWorld (embed_calls w + 2) (query_calls w + 1) (slept w)
                 (Some "search_document")).
Proof.
  intros P query response index competitor_list engine w intent
         Hk Hemb Hidx Hq Hans Hnb.
  unfold reason_and_act, execute_retrieval_and_analysis, retrieval_steps,
    try_except, bind. fold intent.
  unfold configure_embedding_for_search, configure_embedding_for_indexing.
  rewrite configure_first_try by (lia || auto). cbv beta iota.
  unfold create_optimized_query_engine. rewrite Hidx. cbv beta iota.
  rewrite (query_first_try engine query response 3) by (lia || auto).
  cbv beta iota.
  rewrite configure_first_try by (lia || auto). cbv beta iota.
  unfold ret. cbn [py_str]. f_equal.
  unfold set_embed_model, count_embed_call, count_query_call.
  cbn [embed_calls query_calls slept embed_input_type].
  f_equal; lia.
Qed.

Lemma reason_and_act_healthy_run_witness :
  reason_and_act (mkProvider true (fun _ => None)) "Tell me about TechCorp"
    (mkIndex (fun _ => Ret (fun _ _ => Ret " TechCorp sells cloud services. "))
             (fun _ => Raise (mkExn OtherException "unused")))
    None initial_world
  = (Ret (enhance_response_based_on_intent " TechCorp sells cloud services. "
            (analyze_query_intent "Tell me about TechCorp" None)),
     mkWorld 2 1 [] (Some "search_document")).
Proof.
  apply (reason_and_act_healthy_run
           (mkProvider true (fun _ => None)) "Tell me about TechCorp"
           " TechCorp sells cloud services. "
           (mkIndex (fun _ => Ret (fun _ _ => Ret " TechCorp sells cloud services. "))
                    (fun _ => Raise (mkExn OtherException "unused")))
           None (fun _ _ => Ret " TechCorp sells cloud services. ")
           initial_world).
  - reflexivity.
  - intros k. reflexivity.
  - reflexivity.
  - vm_compute. discriminate.
  - reflexivity.
  - vm_compute. discriminate.
Defined.

(** X12: when neither the retriever-based engine nor the default engine
    can be built, the failure of the second construction is answered
    with its message, no query is made, and the embedding stays in
    search mode: the reset to indexing mode is not reached. *)
Theorem reason_and_act_engine_unavailable :
  forall (P : Provider) (query : string) (index : Index)
         (competitor_list : option (list string)) (e1 e2 : Exn) (w : World),
    let intent := analyze_query_intent query competitor_list in
    api_key_configured P = true ->
    cohere_embedding P (embed_calls w) = None ->
    retriever_query_engine index (similarity_depth SIMILARITY_TOP_K intent)
      = Raise e1 ->
    as_query_engine index (similarity_depth SIMILARITY_TOP_K intent)
      = Raise e2 ->
    reason_and_act P query index competitor_list w
      = (Ret (surface_error e2),
         mkWorld (S (embed_calls w)) (query_calls w) (slept w)
                 (Some "search_query")).
Proof.
  intros P query index competitor_list e1 e2 w intent Hk Hemb H1 H2.
  unfold reason_and_act, execute_retrieval_and_analysis, retrieval_steps,
    try_except, bind. fold intent.
  unfold configure_embedding_for_search.
  rewrite configure_first_try by (lia || auto). cbv beta iota.
  unfold create_optimized_query_engine. rewrite H1, H2. reflexivity.
Qed.

Lemma reason_and_act_engine_unavailable_witness :
  reason_and_act (mkProvider true (fun _ => None)) "Tell me about TechCorp"
    (mkIndex (fun _ => Raise (mkExn OtherException "no retriever"))
             (fun _ => Raise (mkExn OtherException "no engine")))
    None initial_world
  = (Ret msg_agent_unexpected, mkWorld 1 0 [] (Some "search_query")).
Proof.
  apply (reason_and_act_engine_unavailable
           (mkProvider true (fun _ => None)) "Tell me about TechCorp"
           (mkIndex (fun _ => Raise (mkExn OtherException "no retriever"))
                    (fun _ => Raise (mkExn OtherException "no engine")))
           None (mkExn OtherException "no retriever")
           (mkExn OtherException "no engine") initial_world);
    reflexivity.
Defined.

Lemma configure_bounds (P : Provider) (what input_type : string) (w : World) :
  let r := for_range (configure_body P what input_type 2) 2 w in
  query_calls (snd r) = query_calls w /\
  (embed_calls (snd r) <= embed_calls w + 2)%nat /\
  (length (slept (snd r)) <= length (slept w) + 1)%nat.
Proof.
  cbv zeta. unfold for_range.
  pose proof (configure_loop_invariant P what input_type 2 (Z.to_nat 2) 0%Z w
                eq_refl) as L.
  pose proof (configure_loop_sleeps P what input_type 2 (Z.to_nat 2) 0%Z w
                eq_refl) as S'.
  cbv zeta in L. destruct L as (L1 & L2 & _).
  change (Z.to_nat 2) with 2%nat in *. repeat split; try assumption; lia.
Qed.

(** X13: one call of [reason_and_act] costs at most four embedding
    constructions, three calls of the query engine and four sleeps,
    whatever the provider, the index and the engine do. *)
Theorem reason_and_act_bounded_effort :
  forall (P : Provider) (query : string) (index : Index)
         (competitor_list : option (list string)) (w : World),
    let w' := snd (reason_and_act P query index competitor_list w) in
    (embed_calls w' <= embed_calls w + 4)%nat /\
    (query_calls w' <= query_calls w + 3)%nat /\
    (length (slept w') <= length (slept w) + 4)%nat.
Proof.
  intros P query index competitor_list w.
  unfold reason_and_act, execute_retrieval_and_analysis, retrieval_steps,
    try_except, bind, ret.
  set (intent := analyze_query_intent query competitor_list).
  unfold configure_embedding_for_search, configure_embedding_for_indexing.
  pose proof (configure_bounds P "search" "search_query" w) as B1.
  cbv zeta in B1.
  destruct (for_range (configure_body P "search" "search_query" 2) 2 w)
    as [[u | e] w1]; cbn [fst snd] in B1 |- *; [| lia].
  unfold create_optimized_query_engine.
  destruct (retriever_query_engine index _) as [engine | e1].
  - destruct (query_loop_bounded engine query 3 (Z.to_nat 3) 0%Z w1 eq_refl)
      as (r & w2 & R & C & S' & E1 & E2 & _).
    change (safe_query_engine_call engine query 3 w1 = (Ret r, w2)) in R.
    rewrite R. change (Z.to_nat 3) with 3%nat in *.
    pose proof (configure_bounds P "indexing" "search_document" w2) as B2.
    cbv zeta in B2.
    destruct (for_range (configure_body P "indexing" "search_document" 2) 2 w2)
      as [[u2 | e2] w3]; cbn [fst snd] in B2 |- *; lia.
  - destruct (as_query_engine index _) as [engine | e2]; cbn [snd]; [| lia].
    destruct (query_loop_bounded engine query 3 (Z.to_nat 3) 0%Z w1 eq_refl)
      as (r & w2 & R & C & S' & E1 & E2 & _).
    change (safe_query_engine_call engine query 3 w1 = (Ret r, w2)) in R.
    rewrite R. change (Z.to_nat 3) with 3%nat in *.
    pose proof (configure_bounds P "indexing" "search_document" w2) as B2.
    cbv zeta in B2.
    destruct (for_range (configure_body P "indexing" "search_document" 2) 2 w2)
      as [[u2 | e2] w3]; cbn [fst snd] in B2 |- *; lia.
Qed.

(** * Further properties of the intent classifier and the planner *)

Lemma first_occurrences_In (l : list string) (x : string) :
  In x (first_occurrences l) <-> In x l.
Proof.
  induction l as [|a l IH]; cbn [first_occurrences]; [tauto |].
  cbn [In]. rewrite filter_In, IH.
  destruct (String.eqb_spec x a) as [-> | N]; cbn [negb].
  - intuition discriminate.
  - intuition congruence.
Qed.

Lemma NoDup_filter {A} (f : A -> bool) (l : list A) :
  NoDup l -> NoDup (filter f l).
Proof.
  induction 1 as [|a l Ha Hl IH]; cbn [filter]; [constructor |].
  destruct (f a); [| exact IH].
  constructor; [| exact IH]. rewrite filter_In. tauto.
Qed.

Lemma first_occurrences_NoDup (l : list string) : NoDup (first_occurrences l).
Proof.
  induction l as [|a l IH]; cbn [first_occurrences]; constructor.
  - rewrite filter_In. intros [_ H]. rewrite String.eqb_refl in H.
    discriminate.
  - apply NoDup_filter. exact IH.
Qed.

(** What [find_competitors] lists: the formatted names of the
    competitors that are mentioned, and nothing else. *)
Lemma find_competitors_In (ql : string) (cl : list string) (x : string) :
  In x (find_competitors ql cl) <->
  exists c, In c cl /\ is_mentioned ql c = true /\ x = formatted_name c.
Proof.
  rewrite find_competitors_first_occurrences, first_occurrences_In, in_map_iff.
  split.
  - intros (c & E & H). apply filter_In in H. destruct H as [H1 H2].
    exists c. auto.
  - intros (c & H1 & H2 & ->). exists c. split; [reflexivity |].
    apply filter_In. auto.
Qed.

(** X14: [competitors_mentioned] holds no name twice, and every name in
    it is the formatted name of a competitor of the list one of whose
    variations occurs in the lower-cased query. *)
Theorem competitors_mentioned_sound :
  forall (query : string) (competitor_list : option (list string)),
    let mentioned :=
      competitors_mentioned (analyze_query_intent query competitor_list) in
    NoDup mentioned /\
    (forall x, In x mentioned ->
       exists c, In c (effective_competitors competitor_list) /\
                 is_mentioned (lower query) c = true /\
                 x = formatted_name c).
Proof.
  intros query competitor_list mentioned.
  assert (E : mentioned =
              find_competitors (lower query)
                               (effective_competitors competitor_list)).
  { subst mentioned. unfold analyze_query_intent. cbv zeta.
    cbn [competitors_mentioned]. destruct competitor_list; reflexivity. }
  rewrite E. split.
  - rewrite find_competitors_first_occurrences. apply first_occurrences_NoDup.
  - intros x Hx. apply find_competitors_In. exact Hx.
Qed.

Lemma prefix_app (n h s : string) :
  prefix n h = true -> prefix n (h ++ s) = true.
Proof.
  revert h. induction n as [|c n IH]; intros h H;
    [destruct (h ++ s)%string; reflexivity |].
  destruct h as [|d h]; cbn [prefix] in H; [discriminate |].
  cbn [append prefix]. destruct (ascii_dec c d); [auto | discriminate].
Qed.

Lemma contains_app_r (n h s : string) :
  contains n h = true -> contains n (h ++ s) = true.
Proof.
  induction h as [|d h IH]; intros H.
  - cbn [contains] in H. destruct (prefix n "") eqn:P; [| discriminate].
    destruct n; [| discriminate P]. destruct s; reflexivity.
  - cbn [contains] in H. cbn [append contains].
    destruct (prefix n (String d h)) eqn:P.
    + change (String d (h ++ s)) with (String d h ++ s)%string.
      now rewrite (prefix_app _ _ _ P).
    + destruct (prefix n (String d (h ++ s))); [reflexivity | auto].
Qed.

Lemma contains_app_l (n p h : string) :
  contains n h = true -> contains n (p ++ h) = true.
Proof.
  intros H. induction p as [|d p IH]; [exact H |].
  cbn [append contains]. rewrite IH. now destruct (prefix n _).
Qed.

Lemma contains_embedded (n pre h post : string) :
  contains n h = true -> contains n (pre ++ h ++ post) = true.
Proof. intros H. apply contains_app_l, contains_app_r, H. Qed.

Lemma lower_app (a b : string) : lower (a ++ b) = (lower a ++ lower b)%string.
Proof.
  induction a as [|c a IH]; cbn [append lower]; [reflexivity | now rewrite IH].
Qed.

Lemma existsb_mono {A} (f g : A -> bool) (l : list A) :
  (forall x, f x = true -> g x = true) ->
  existsb f l = true -> existsb g l = true.
Proof.
  intros H. rewrite !existsb_exists. intros (x & Hx & Fx). exists x. auto.
Qed.

(** X15: text around a query never hides what the query shows: a
    comparison stays requested, and every competitor, aspect and action
    keyword found in the query is found in the longer text too. *)
Theorem analyze_query_intent_monotone :
  forall (pre query post : string) (competitor_list : option (list string)),
    let intent := analyze_query_intent query competitor_list in
    let intent' := analyze_query_intent (pre ++ query ++ post) competitor_list in
    (comparison_requested intent = true ->
       comparison_requested intent' = true) /\
    (forall x, In x (competitors_mentioned intent) ->
               In x (competitors_mentioned intent')) /\
    (forall x, In x (aspects_requested intent) ->
               In x (aspects_requested intent')) /\
    (forall x, In x (action_keywords intent) ->
               In x (action_keywords intent')).
Proof.
  intros pre query post competitor_list.
  unfold analyze_query_intent. cbv zeta.
  cbn [comparison_requested competitors_mentioned aspects_requested
       action_keywords].
  rewrite !lower_app.
  set (ql := lower query). set (p := lower pre). set (s := lower post).
  assert (K : forall k, contains k ql = true ->
                        contains k (p ++ ql ++ s) = true)
    by (intros k; apply contains_embedded).
  assert (KA : forall ks, any_in ks ql = true ->
                          any_in ks (p ++ ql ++ s) = true)
    by (intros ks; apply existsb_mono; exact K).
  split; [apply KA |]. split; [| split].
  - intros x. rewrite !find_competitors_In.
    intros (c & H1 & H2 & H3). exists c. repeat split; try assumption.
    apply KA. exact H2.
  - unfold find_aspects. intros x. rewrite !in_map_iff.
    intros (kv & E & H). exists kv. split; [exact E |].
    apply filter_In in H. apply filter_In. destruct H. split; auto.
  - unfold find_actions. intros x. rewrite !filter_In. intros [H1 H2]. auto.
Qed.

Lemma lower_char_facts (c : ascii) :
  lower_char (lower_char c) = lower_char c /\
  upper_char (lower_char c) = upper_char c /\
  isspace (lower_char c) = isspace c.
Proof.
  destruct c as [[] [] [] [] [] [] [] []]; vm_compute; auto.
Qed.

Lemma lower_idempotent (s : string) : lower (lower s) = lower s.
Proof.
  induction s as [|c s IH]; cbn [lower]; [reflexivity |].
  rewrite IH. f_equal. apply lower_char_facts.
Qed.

Lemma capitalize_lower (w : string) : capitalize (lower w) = capitalize w.
Proof.
  destruct w as [|c w]; cbn [lower capitalize]; [reflexivity |].
  rewrite lower_idempotent. f_equal. apply lower_char_facts.
Qed.

Lemma split_from_lower (s cur : string) :
  split_from (lower cur) (lower s) = map lower (split_from cur s).
Proof.
  revert cur. induction s as [|c s IH]; intros cur; cbn [lower split_from].
  - destruct cur; reflexivity.
  - assert (E : String.eqb (lower cur) "" = String.eqb cur "")
      by (destruct cur; reflexivity).
    destruct (lower_char_facts c) as (_ & _ & ->). rewrite E.
    destruct (isspace c).
    + destruct (String.eqb cur ""); cbn [map]; rewrite <- IH; reflexivity.
    + rewrite <- IH, lower_app. reflexivity.
Qed.

Lemma formatted_name_lower (c : string) :
  formatted_name (lower c) = formatted_name c.
Proof.
  unfold formatted_name, split.
  change (split_from "" (lower c)) with (split_from (lower "") (lower c)).
  rewrite split_from_lower, map_map.
  f_equal. apply map_ext. intros w. apply capitalize_lower.
Qed.

Lemma scan_competitor_lower (ql : string) (acc : list string) (c : string) :
  scan_competitor ql acc (lower c) = scan_competitor ql acc c.
Proof.
  rewrite !scan_competitor_step, formatted_name_lower.
  unfold is_mentioned, competitor_variations. now rewrite lower_idempotent.
Qed.

Lemma find_competitors_lower (ql : string) (cl : list string) :
  find_competitors ql (map lower cl) = find_competitors ql cl.
Proof.
  unfold find_competitors. generalize (@nil string) as acc.
  induction cl as [|c cl IH]; intros acc; cbn [map fold_left];
    [reflexivity |].
  now rewrite scan_competitor_lower, IH.
Qed.

(** X16: the letter case of the competitor list does not matter: two
    lists that agree after lower-casing give the same intent for every
    query, formatted names included. *)
Theorem analyze_query_intent_ignores_list_case :
  forall (query : string) (list1 list2 : list string),
    map lower list1 = map lower list2 ->
    analyze_query_intent query (Some list1)
      = analyze_query_intent query (Some list2).
Proof.
  intros query list1 list2 H. unfold analyze_query_intent. cbv zeta.
  rewrite <- (find_competitors_lower _ list1),
          <- (find_competitors_lower _ list2), H.
  reflexivity.
Qed.

Lemma analyze_query_intent_ignores_list_case_witness :
  analyze_query_intent "how is techcorp doing?" (Some ["TechCorp"; "Acme Data"])
  = analyze_query_intent "how is techcorp doing?" (Some ["techcorp"; "ACME DATA"]).
Proof.
  apply (analyze_query_intent_ignores_list_case
           "how is techcorp doing?" ["TechCorp"; "Acme Data"]
           ["techcorp"; "ACME DATA"]).
  reflexivity.
Defined.

Lemma contains_in_empty (v : string) : contains v "" = true -> v = "".
Proof. destruct v; [reflexivity | discriminate]. Qed.

Lemma replace_nonempty (old : ascii) (new s : string) :
  new <> "" -> s <> "" -> replace old new s <> "".
Proof.
  intros Hn Hs. destruct s as [|c s]; [contradiction |].
  cbn [replace]. destruct (Ascii.eqb c old); [| discriminate].
  destruct new; [contradiction | discriminate].
Qed.

(** X17: the empty query gives the default descriptor (general, nothing
    mentioned, simple) for every competitor list whose names all have a
    character that is not a blank. *)
Theorem analyze_query_intent_empty_query :
  forall competitor_list : option (list string),
    (forall c, In c (effective_competitors competitor_list) ->
               replace " " "" (lower c) <> "") ->
    analyze_query_intent "" competitor_list
      = mkIntent "general" [] [] false [] "simple".
Proof.
  intros competitor_list H.
  assert (E : find_competitors "" (effective_competitors competitor_list) = []).
  { rewrite find_competitors_first_occurrences.
    replace (filter (is_mentioned "") (effective_competitors competitor_list))
      with (@nil string); [reflexivity |].
    symmetry. induction (effective_competitors competitor_list) as [|c cl IH];
      [reflexivity |].
    cbn [filter].
    assert (M : is_mentioned "" c = false).
    { specialize (H c (or_introl eq_refl)).
      assert (L : lower c <> "") by (intros L; rewrite L in H; now apply H).
      unfold is_mentioned, any_in, competitor_variations.
      cbn [existsb].
      destruct (contains (lower c) "") eqn:C1;
        [apply contains_in_empty in C1; contradiction |].
      destruct (contains (replace " " "" (lower c)) "") eqn:C2;
        [apply contains_in_empty in C2; contradiction |].
      destruct (contains (replace " " "-" (lower c)) "") eqn:C3;
        [| reflexivity].
      apply contains_in_empty in C3. exfalso.
      revert C3. apply replace_nonempty; [discriminate | exact L]. }
    rewrite M. apply IH. intros c' Hc'. apply H. right. exact Hc'. }
  unfold analyze_query_intent. cbv zeta.
  change (lower "") with "".
  fold (effective_competitors competitor_list). rewrite E. reflexivity.
Qed.

Lemma analyze_query_intent_empty_query_witness :
  analyze_query_intent "" None = mkIntent "general" [] [] false [] "simple".
Proof.
  apply (analyze_query_intent_empty_query None).
  intros c Hc. cbn in Hc.
  repeat (destruct Hc as [<- | Hc]; [vm_compute; discriminate |]).
  contradiction.
Defined.

(** X18: for every query, the plan made from its intent has between
    two and five goals, none of them twice; it contains
    [perform_comparison] exactly when a comparison is requested, and then
    ends with [synthesize_complex_analysis]. *)
Theorem plan_of_analyzed_query :
  forall (query : string) (competitor_list : option (list string)),
    let intent := analyze_query_intent query competitor_list in
    let plan := plan_sub_goals intent in
    (2 <= length plan <= 5)%nat /\
    NoDup plan /\
    (In "perform_comparison" plan <-> comparison_requested intent = true) /\
    (comparison_requested intent = true ->
       last plan "" = "synthesize_complex_analysis").
Proof.
  intros query competitor_list. unfold analyze_query_intent. cbv zeta.
  set (cs := find_competitors _ _).
  set (asp := find_aspects _).
  set (cmp := any_in comparison_keywords _).
  unfold plan_sub_goals.
  cbn [query_complexity competitors_mentioned aspects_requested
       comparison_requested].
  rewrite two_leb_length.
  destruct cmp;
    destruct (2 <? Z.of_nat (length cs) + Z.of_nat (length asp))%Z;
    destruct (0 <? Z.of_nat (length cs) + Z.of_nat (length asp))%Z;
    destruct cs as [|c1 [|c2 cs]]; destruct asp as [|a1 asp];
    cbn;
    (split; [lia |]);
    (split; [repeat constructor; cbn [In]; intuition discriminate |]);
    (split; [split; [cbn [In]; intuition discriminate
                    | cbn [In]; intros; try discriminate; auto 10]
            | intros; try discriminate; reflexivity]).
Qed.

(** * Further properties of the history ledgers *)

Lemma push_bounded_fold {A} (N : Z) (xs : list A) :
  (0 <= N)%Z ->
  forall h : list A,
    (Z.of_nat (length h) <= N)%Z ->
    fold_left (push_bounded N) xs h
      = skipn (length (h ++ xs) - Z.to_nat N) (h ++ xs).
Proof.
  intros HN. induction xs as [|x xs IH]; intros h Hlen.
  - cbn [fold_left]. rewrite app_nil_r.
    replace (length h - Z.to_nat N)%nat with 0%nat by lia. reflexivity.
  - cbn [fold_left]. unfold push_bounded at 2.
    rewrite length_app. cbn [length].
    destruct (Z.ltb_spec N (Z.of_nat (length h + 1))) as [Full | Room].
    + destruct h as [|y h]; cbn [app tl length] in *.
      * rewrite IH by (cbn [length]; lia). cbn [app].
        replace (S (length xs) - Z.to_nat N)%nat
          with (S (length xs - Z.to_nat N))%nat by lia.
        reflexivity.
      * rewrite IH by (rewrite length_app; cbn [length]; lia).
        rewrite <- app_assoc. cbn [app]. rewrite !length_app. cbn [length].
        replace (S (length h + S (length xs)) - Z.to_nat N)%nat
          with (S (length h + S (length xs) - Z.to_nat N))%nat by lia.
        reflexivity.
    + rewrite IH by (rewrite length_app; cbn [length]; lia).
      rewrite <- app_assoc. reflexivity.
Qed.

Lemma add_all_to_history_fold (calls : list (string * string * string))
    (h : list HistoryManager.HistoryRecord) :
  add_all_to_history calls h =
    fold_left (push_bounded HistoryManager.MAX_HISTORY_SIZE)
      (map (fun c => HistoryManager.mkRecord (fst (fst c)) (snd (fst c))
                       (stored_response (snd c))) calls) h.
Proof.
  unfold add_all_to_history. revert h.
  induction calls as [|c calls IH]; intros h; cbn [fold_left map];
    [reflexivity |].
  rewrite IH. reflexivity.
Qed.

Lemma stored_response_short (response : string) :
  (len (stored_response response) <= 203)%Z.
Proof.
  unfold stored_response, len.
  destruct (Z.ltb_spec 200 (Z.of_nat (String.length response))); [| lia].
  rewrite length_string_app, length_take by lia. cbn. lia.
Qed.

Lemma Forall_skipn {A} (Q : A -> Prop) (n : nat) (l : list A) :
  Forall Q l -> Forall Q (skipn n l).
Proof.
  revert l. induction n as [|n IH]; intros l H; [exact H |].
  destruct H; [constructor | cbn [skipn]; auto].
Qed.

(** X19: starting from the empty module-level ledger, after any run of
    [add_to_history] calls the ledger holds the records of the last five
    calls in their order, never more than five, and no stored response is
    longer than 203 characters. *)
Theorem module_history_bounded :
  forall calls : list (string * string * string),
    let h := add_all_to_history calls [] in
    h = skipn (length calls - 5)
          (map (fun c => HistoryManager.mkRecord (fst (fst c)) (snd (fst c))
                           (stored_response (snd c))) calls) /\
    (length h <= 5)%nat /\
    Forall (fun r => (len (HistoryManager.response r) <= 203)%Z) h.
Proof.
  intros calls h.
  assert (E : h = skipn (length calls - 5)
                    (map (fun c => HistoryManager.mkRecord (fst (fst c))
                                     (snd (fst c)) (stored_response (snd c)))
                         calls)).
  { subst h. rewrite add_all_to_history_fold, push_bounded_fold.
    - cbn [app]. rewrite length_map. reflexivity.
    - unfold HistoryManager.MAX_HISTORY_SIZE. lia.
    - cbn. unfold HistoryManager.MAX_HISTORY_SIZE. lia. }
  split; [exact E |]. rewrite E. split.
  - rewrite length_skipn, length_map. lia.
  - apply Forall_skipn. apply Forall_forall. intros r Hr.
    apply in_map_iff in Hr. destruct Hr as (c & <- & _).
    cbn [HistoryManager.response]. apply stored_response_short.
Qed.

(** X20: [get_recent_history(count)] returns the last [count] entries
    (all of them when there are fewer) for a positive [count]; for
    [count = 0] it returns the whole ledger, and for a negative [count]
    the ledger without its first [-count] entries. *)
Theorem get_recent_history_slices :
  forall (count : Z) (self : CompetitiveAgent.Agent),
    let h := CompetitiveAgent.query_history self in
    let recent := get_recent_history count self in
    ((1 <= count)%Z ->
       recent = skipn (length h - Z.to_nat count) h /\
       length recent = Nat.min (Z.to_nat count) (length h)) /\
    (count = 0%Z -> recent = h) /\
    ((count < 0)%Z -> recent = skipn (Z.to_nat (- count)) h).
Proof.
  intros count self h recent. subst recent.
  unfold get_recent_history. fold h.
  assert (E : match h with
              | [] => []
              | x :: t => slice_from (- count) (x :: t)
              end = slice_from (- count) h).
  { destruct h; [| reflexivity]. unfold slice_from.
    destruct (_ <? _)%Z; now rewrite skipn_nil. }
  rewrite E. unfold slice_from. split; [| split].
  - intros Hc. destruct (Z.ltb_spec (- count) 0); [| lia].
    replace (Z.to_nat (Z.max 0 (Z.of_nat (length h) + - count)))
      with (length h - Z.to_nat count)%nat by lia.
    split; [reflexivity |]. rewrite length_skipn. lia.
  - intros ->. reflexivity.
  - intros Hc. destruct (Z.ltb_spec (- count) 0); [lia | reflexivity].
Qed.

Lemma reason_and_act_returns (P : Provider) (query : string) (index : Index)
    (competitor_list : option (list string)) (w : World) :
  exists (s : string) (w' : World),
    reason_and_act P query index competitor_list w = (Ret s, w').
Proof.
  unfold reason_and_act, execute_retrieval_and_analysis, try_except, ret.
  destruct (retrieval_steps P query index _ w) as [[s | e] w']; eauto.
Qed.

(** [process_query] turns a call away without touching anything
    when the agent is not initialized, and otherwise when the query is
    empty or blank: the fixed error string comes back, the agent and its
    ledger are as before, and the provider was not reached. *)
Lemma process_query_rejections :
  forall (P : Provider) (start_time end_time : Q) (now query : string)
         (self : AgentState) (w : World),
    (is_initialized self = false ->
       process_query P start_time end_time now query self w
         = (("[ERROR] Agent is not initialized. Please initialize the agent first.",
             self), w)) /\
    (is_initialized self = true -> strip query = "" ->
       process_query P start_time end_time now query self w
         = (("[ERROR] Please provide a valid query.", self), w)).
Proof.
  intros P start_time end_time now query self w. unfold process_query.
  split.
  - intros ->. reflexivity.
  - intros -> H. rewrite H, String.eqb_refl, orb_true_r. reflexivity.
Qed.

(** X21: an initialized agent with room for at least one entry answers
    a query that is not blank without raising: with what
    [reason_and_act] returns for the trimmed query, or with the
    [[ERROR]] string that quotes the exception when [reason_and_act]
    raises, as it does for a competitor list with an entry that is not a
    string. Either way the answer is recorded: the newest entry of the
    ledger carries the trimmed query, the returned string and the time
    between the two clock readings; the capacity is unchanged and a
    ledger within its capacity stays within it. *)
Theorem process_query_records :
  forall (P : Provider) (start_time end_time : Q) (now query : string)
         (self : AgentState) (w : World),
    is_initialized self = true ->
    strip query <> "" ->
    (1 <= CompetitiveAgent.max_history_size (ledger self))%Z ->
    exists (response : string) (w' : World) (self' : AgentState)
           (older : list CompetitiveAgent.QueryHistoryEntry),
      process_query P start_time end_time now query self w
        = ((response, self'), w') /\
      match Untyped.reason_and_act P (strip query) (vector_index self)
                                   (Some (competitor_list self)) w with
      | (Ret answer, w1) => response = answer /\ w' = w1
      | (Raise e, w1) =>
          response = ("[ERROR] Error processing query: " ++ exn_str e)%string /\
          w' = w1
      end /\
      (Untyped.strings_of (competitor_list self) = None ->
       response = "[ERROR] Error processing query: 'float' object has no attribute 'lower'"
       /\ w' = w) /\
      CompetitiveAgent.query_history (ledger self')
        = older ++ [CompetitiveAgent.mkEntry now (strip query) response
                      (end_time - start_time)%Q] /\
      CompetitiveAgent.max_history_size (ledger self')
        = CompetitiveAgent.max_history_size (ledger self) /\
      ((Z.of_nat (length (CompetitiveAgent.query_history (ledger self)))
        <= CompetitiveAgent.max_history_size (ledger self))%Z ->
       (Z.of_nat (length (CompetitiveAgent.query_history (ledger self')))
        <= CompetitiveAgent.max_history_size (ledger self))%Z) /\
      is_initialized self' = true /\
      competitor_list self' = competitor_list self.
Proof.
  intros P start_time end_time now query self w Hi Hq Hmax.
  set (h := CompetitiveAgent.query_history (ledger self)).
  assert (A : forall response,
             CompetitiveAgent._add_to_history now (strip query) response
               (end_time - start_time)%Q (ledger self)
             = CompetitiveAgent.mkAgent
                 (CompetitiveAgent.max_history_size (ledger self))
                 (push_bounded (CompetitiveAgent.max_history_size (ledger self))
                    h (CompetitiveAgent.mkEntry now (strip query) response
                         (end_time - start_time)%Q))).
  { intros response. unfold CompetitiveAgent._add_to_history, push_bounded.
    fold h. destruct (_ <? _)%Z; reflexivity. }
  assert (B : forall entry,
             exists older,
               push_bounded (CompetitiveAgent.max_history_size (ledger self))
                            h entry = older ++ [entry]).
  { intros entry. unfold push_bounded.
    destruct (_ <? _)%Z eqn:F; [| now exists h].
    destruct h as [|x t].
    - cbn [app length] in F. apply Z.ltb_lt in F. lia.
    - exists t. reflexivity. }
  assert (C : forall entry,
             (Z.of_nat (length h)
              <= CompetitiveAgent.max_history_size (ledger self))%Z ->
             (Z.of_nat (length (push_bounded
                                  (CompetitiveAgent.max_history_size (ledger self))
                                  h entry))
              <= CompetitiveAgent.max_history_size (ledger self))%Z).
  { intros entry Hlen. unfold push_bounded. rewrite length_app. cbn [length].
    destruct (Z.ltb_spec (CompetitiveAgent.max_history_size (ledger self))
                (Z.of_nat (length h + 1))) as [F | F].
    - destruct h as [|x t]; cbn [app tl length] in *;
        rewrite ?length_app; cbn [length]; lia.
    - rewrite length_app. cbn [length]. lia. }
  assert (N : Untyped.strings_of (competitor_list self) = None ->
              Untyped.reason_and_act P (strip query) (vector_index self)
                (Some (competitor_list self)) w
              = (Raise (mkExn OtherException
                          "'float' object has no attribute 'lower'"), w)).
  { intros E. unfold Untyped.reason_and_act, Untyped.analyze_query_intent,
      Untyped.typed. rewrite E. reflexivity. }
  unfold process_query. rewrite Hi. cbn [negb].
  rewrite strip_nonempty_not_blank by assumption. cbv zeta.
  destruct (Untyped.reason_and_act P (strip query) (vector_index self)
              (Some (competitor_list self)) w) as [[answer | e] w1] eqn:R.
  - destruct (B (CompetitiveAgent.mkEntry now (strip query) answer
                   (end_time - start_time)%Q)) as [older Hold].
    eexists answer, w1, _, older.
    split; [reflexivity |]. split; [split; reflexivity |].
    rewrite A.
    cbn [with_ledger ledger is_initialized competitor_list
         CompetitiveAgent.query_history CompetitiveAgent.max_history_size].
    split; [intros E; discriminate (N E) |].
    split; [exact Hold |]. split; [reflexivity |]. split; [apply C | auto].
  - destruct (B (CompetitiveAgent.mkEntry now (strip query)
                   ("[ERROR] Error processing query: " ++ exn_str e)%string
                   (end_time - start_time)%Q)) as [older Hold].
    eexists _, w1, _, older.
    split; [reflexivity |]. split; [split; reflexivity |].
    rewrite A.
    cbn [with_ledger ledger is_initialized competitor_list
         CompetitiveAgent.query_history CompetitiveAgent.max_history_size].
    split.
    { intros E. pose proof (N E) as K. injection K as -> ->.
      split; reflexivity. }
    split; [exact Hold |]. split; [reflexivity |]. split; [apply C | auto].
Qed.

Lemma process_query_records_witness :
  exists (response : string) (w' : World) (self' : AgentState)
         (older : list CompetitiveAgent.QueryHistoryEntry),
    process_query (mkProvider true (fun _ => None)) 10 (25 # 2)
      "2024-05-01 09:00:00" "  Tell me about TechCorp  "
      (mkAgentState (CompetitiveAgent.new_agent 10) true
         (mkIndex (fun _ => Ret (fun _ _ => Ret "TechCorp sells cloud services."))
                  (fun _ => Raise (mkExn OtherException "unused")))
         [PyStr "TechCorp"; PyNaN])
      initial_world
      = ((response, self'), w') /\
    response = "[ERROR] Error processing query: 'float' object has no attribute 'lower'" /\
    CompetitiveAgent.query_history (ledger self')
      = older ++ [CompetitiveAgent.mkEntry "2024-05-01 09:00:00"
                    "Tell me about TechCorp" response ((25 # 2) - 10)%Q].
Proof.
  destruct (process_query_records
              (mkProvider true (fun _ => None)) 10 (25 # 2)
              "2024-05-01 09:00:00" "  Tell me about TechCorp  "
              (mkAgentState (CompetitiveAgent.new_agent 10) true
                 (mkIndex (fun _ => Ret (fun _ _ => Ret "TechCorp sells cloud services."))
                          (fun _ => Raise (mkExn OtherException "unused")))
                 [PyStr "TechCorp"; PyNaN])
              initial_world)
    as (response & w' & self' & older & H1 & _ & H2 & H3 & _).
  - reflexivity.
  - vm_compute. discriminate.
  - cbn. lia.
  - exists response, w', self', older.
    split; [exact H1 |]. split; [apply H2; reflexivity | exact H3].
Defined.

Lemma fold_min_spec (xs : list Q) (x : Q) :
  In (fold_left Qmin xs x) (x :: xs) /\
  (fold_left Qmin xs x <= x)%Q /\
  (forall y, In y xs -> fold_left Qmin xs x <= y)%Q.
Proof.
  revert x. induction xs as [|y xs IH]; intros x; cbn [fold_left].
  - repeat split; [now left | apply Qle_refl | contradiction].
  - destruct (IH (Qmin x y)) as (I1 & I2 & I3).
    split; [| split].
    + destruct I1 as [I1 | I1]; [| right; right; exact I1].
      rewrite <- I1. unfold Qmin, GenericMinMax.gmin.
      destruct (x ?= y)%Q; [now left | now left | right; now left].
    + eapply Qle_trans; [exact I2 | apply Q.le_min_l].
    + intros z [<- | Hz]; [| auto].
      eapply Qle_trans; [exact I2 | apply Q.le_min_r].
Qed.

Lemma fold_max_spec (xs : list Q) (x : Q) :
  In (fold_left Qmax xs x) (x :: xs) /\
  (x <= fold_left Qmax xs x)%Q /\
  (forall y, In y xs -> y <= fold_left Qmax xs x)%Q.
Proof.
  revert x. induction xs as [|y xs IH]; intros x; cbn [fold_left].
  - repeat split; [now left | apply Qle_refl | contradiction].
  - destruct (IH (Qmax x y)) as (I1 & I2 & I3).
    split; [| split].
    + destruct I1 as [I1 | I1]; [| right; right; exact I1].
      rewrite <- I1. unfold Qmax, GenericMinMax.gmax.
      destruct (x ?= y)%Q; [now left | right; now left | now left].
    + eapply Qle_trans; [apply Q.le_max_l | exact I2].
    + intros z [<- | Hz]; [| auto].
      eapply Qle_trans; [apply Q.le_max_r | exact I2].
Qed.

(** X22: for a ledger that is not empty, [get_history_stats] counts its
    entries, reports the timestamps of its first and last entry, and
    gives as fastest and slowest query two processing times of the ledger
    between which all the others lie. *)
Theorem get_history_stats_nonempty :
  forall (self : CompetitiveAgent.Agent)
         (first : CompetitiveAgent.QueryHistoryEntry)
         (rest : list CompetitiveAgent.QueryHistoryEntry),
    CompetitiveAgent.query_history self = first :: rest ->
    exists (stats : CompetitiveAgent.HistoryStats) (fastest slowest : Q),
      CompetitiveAgent.get_history_stats self = Ret stats /\
      CompetitiveAgent.total_queries stats = Z.of_nat (S (length rest)) /\
      CompetitiveAgent.oldest_query stats
        = Some (CompetitiveAgent.timestamp first) /\
      CompetitiveAgent.newest_query stats
        = Some (CompetitiveAgent.timestamp (last (first :: rest) first)) /\
      CompetitiveAgent.fastest_query stats = Some fastest /\
      CompetitiveAgent.slowest_query stats = Some slowest /\
      In fastest (map CompetitiveAgent.processing_time (first :: rest)) /\
      In slowest (map CompetitiveAgent.processing_time (first :: rest)) /\
      (forall e, In e (first :: rest) ->
         (fastest <= CompetitiveAgent.processing_time e <= slowest)%Q).
Proof.
  intros self first rest H.
  unfold CompetitiveAgent.get_history_stats. rewrite H.
  unfold CompetitiveAgent.py_div.
  destruct (Z.eqb_spec
              (Z.of_nat (length (map CompetitiveAgent.processing_time
                                     (first :: rest)))) 0) as [E | _];
    [cbn [map length] in E; lia |].
  destruct (fold_min_spec (map CompetitiveAgent.processing_time rest)
              (CompetitiveAgent.processing_time first)) as (m1 & m2 & m3).
  destruct (fold_max_spec (map CompetitiveAgent.processing_time rest)
              (CompetitiveAgent.processing_time first)) as (M1 & M2 & M3).
  eexists. exists (CompetitiveAgent.min_from
                     (CompetitiveAgent.processing_time first)
                     (map CompetitiveAgent.processing_time rest)).
  exists (CompetitiveAgent.max_from
            (CompetitiveAgent.processing_time first)
            (map CompetitiveAgent.processing_time rest)).
  split; [reflexivity |].
  cbn [CompetitiveAgent.total_queries CompetitiveAgent.oldest_query
       CompetitiveAgent.newest_query CompetitiveAgent.fastest_query
       CompetitiveAgent.slowest_query].
  repeat split; try reflexivity.
  - destruct rest; reflexivity.
  - exact m1.
  - exact M1.
  - destruct H0 as [<- | He]; [exact m2 |].
    apply m3. apply in_map. exact He.
  - destruct H0 as [<- | He]; [exact M2 |].
    apply M3. apply in_map. exact He.
Qed.

Lemma get_history_stats_nonempty_witness :
  exists (stats : CompetitiveAgent.HistoryStats) (fastest slowest : Q),
    CompetitiveAgent.get_history_stats
      (CompetitiveAgent.mkAgent 10
         [CompetitiveAgent.mkEntry "2024-05-01 09:00:00" "q1" "r1" (3 # 2);
          CompetitiveAgent.mkEntry "2024-05-01 09:01:00" "q2" "r2" (1 # 2)])
      = Ret stats /\
    CompetitiveAgent.total_queries stats = 2%Z /\
    CompetitiveAgent.fastest_query stats = Some fastest /\
    CompetitiveAgent.slowest_query stats = Some slowest.
Proof.
  destruct (get_history_stats_nonempty
              (CompetitiveAgent.mkAgent 10
                 [CompetitiveAgent.mkEntry "2024-05-01 09:00:00" "q1" "r1" (3 # 2);
                  CompetitiveAgent.mkEntry "2024-05-01 09:01:00" "q2" "r2" (1 # 2)])
              (CompetitiveAgent.mkEntry "2024-05-01 09:00:00" "q1" "r1" (3 # 2))
              [CompetitiveAgent.mkEntry "2024-05-01 09:01:00" "q2" "r2" (1 # 2)])
    as (stats & lo & hi & H1 & H2 & _ & _ & H5 & H6 & _).
  - reflexivity.
  - exists stats, lo, hi. repeat split; assumption.
Defined.

(** * Properties of the data preparation *)

Lemma collapse_spaced (s : string) (b : bool) :
  spaced b (collapse_from b s) = true.
Proof.
  revert b. induction s as [|c s IH]; intros b; cbn [collapse_from];
    [reflexivity |].
  destruct (isspace c) eqn:W.
  - destruct b; [apply IH |]. cbn [spaced]. rewrite IH. reflexivity.
  - cbn [spaced]. rewrite W. apply IH.
Qed.

Lemma collapse_fixed (s : string) (b : bool) :
  spaced b s = true -> collapse_from b s = s.
Proof.
  revert b. induction s as [|c s IH]; intros b H; cbn [collapse_from];
    [reflexivity |].
  cbn [spaced] in H. destruct (isspace c).
  - apply andb_true_iff in H. destruct H as [H H3].
    apply andb_true_iff in H. destruct H as [H1 H2].
    apply Ascii.eqb_eq in H1. subst c.
    destruct b; [discriminate |]. now rewrite IH.
  - now rewrite IH.
Qed.

Lemma spaced_weaken (s : string) (b : bool) :
  spaced true s = true -> spaced b s = true.
Proof.
  destruct s as [|c s]; [reflexivity |]. cbn [spaced].
  destruct (isspace c); [| auto].
  rewrite andb_false_r. discriminate.
Qed.

Lemma spaced_no_lead (s : string) : spaced true s = true -> no_lead s = true.
Proof.
  destruct s as [|c s]; [reflexivity |]. cbn [spaced no_lead].
  destruct (isspace c); [| reflexivity].
  rewrite andb_false_r. discriminate.
Qed.

Lemma lstrip_fixed (s : string) : no_lead s = true -> lstrip s = s.
Proof.
  destruct s as [|c s]; [reflexivity |]. cbn [no_lead lstrip].
  destruct (isspace c); [discriminate | reflexivity].
Qed.

Lemma lstrip_spaced (s : string) (b : bool) :
  spaced b s = true -> spaced true (lstrip s) = true.
Proof.
  destruct s as [|c s]; [reflexivity |]. cbn [spaced lstrip].
  destruct (isspace c) eqn:W.
  - intros H. apply andb_true_iff in H. destruct H as [_ H].
    rewrite lstrip_fixed; [exact H | apply spaced_no_lead, H].
  - intros H. cbn [spaced]. now rewrite W.
Qed.

Lemma rstrip_spaced (s : string) (b : bool) :
  spaced b s = true -> spaced b (rstrip s) = true.
Proof.
  revert b. induction s as [|c s IH]; intros b H; [reflexivity |].
  cbn [rstrip]. cbn [spaced] in H. destruct (isspace c) eqn:W; cbn [andb].
  - apply andb_true_iff in H. destruct H as [H12 H3].
    destruct (String.eqb (rstrip s) ""); [reflexivity |].
    cbn [spaced]. rewrite W, H12. apply IH, H3.
  - cbn [spaced]. rewrite W. apply IH, H.
Qed.

Lemma rstrip_idempotent (s : string) : rstrip (rstrip s) = rstrip s.
Proof.
  induction s as [|c s IH]; [reflexivity |]. cbn [rstrip].
  destruct (isspace c && String.eqb (rstrip s) "")%bool eqn:E;
    [reflexivity |].
  cbn [rstrip]. rewrite IH, E. reflexivity.
Qed.

Lemma rstrip_no_lead (s : string) :
  no_lead s = true -> no_lead (rstrip s) = true.
Proof.
  destruct s as [|c s]; [reflexivity |]. cbn [no_lead rstrip].
  destruct (isspace c) eqn:W; [discriminate |].
  cbn [andb no_lead]. now rewrite W.
Qed.

Lemma lstrip_no_lead (s : string) : no_lead (lstrip s) = true.
Proof.
  induction s as [|c s IH]; [reflexivity |]. cbn [lstrip].
  destruct (isspace c) eqn:W; [exact IH |]. cbn [no_lead]. now rewrite W.
Qed.

(** Trimming twice is trimming once. *)
Lemma strip_idempotent (s : string) : strip (strip s) = strip s.
Proof.
  unfold strip.
  rewrite (lstrip_fixed (rstrip (lstrip s)))
    by apply rstrip_no_lead, lstrip_no_lead.
  apply rstrip_idempotent.
Qed.

Lemma kept_blank_special (s : string) : kept_only (blank_special s) = true.
Proof.
  induction s as [|c s IH]; [reflexivity |]. cbn [blank_special kept_only].
  rewrite IH. destruct (is_kept_char c) eqn:K; [now rewrite K | reflexivity].
Qed.

Lemma blank_special_fixed (s : string) :
  kept_only s = true -> blank_special s = s.
Proof.
  induction s as [|c s IH]; [reflexivity |]. cbn [kept_only blank_special].
  intros H. apply andb_true_iff in H. destruct H as [-> H]. now rewrite IH.
Qed.

Lemma kept_collapse (s : string) (b : bool) :
  kept_only s = true -> kept_only (collapse_from b s) = true.
Proof.
  revert b. induction s as [|c s IH]; intros b H; [reflexivity |].
  cbn [kept_only] in H. apply andb_true_iff in H. destruct H as [K H].
  cbn [collapse_from]. destruct (isspace c).
  - destruct b; [auto |]. cbn [kept_only]. rewrite IH by assumption.
    reflexivity.
  - cbn [kept_only]. rewrite K. cbn [andb]. auto.
Qed.

Lemma kept_lstrip (s : string) :
  kept_only s = true -> kept_only (lstrip s) = true.
Proof.
  induction s as [|c s IH]; [reflexivity |]. intros H. cbn [lstrip].
  destruct (isspace c); [| exact H].
  cbn [kept_only] in H. apply andb_true_iff in H. apply IH, H.
Qed.

Lemma kept_rstrip (s : string) :
  kept_only s = true -> kept_only (rstrip s) = true.
Proof.
  induction s as [|c s IH]; [reflexivity |]. intros H. cbn [rstrip].
  cbn [kept_only] in H. apply andb_true_iff in H. destruct H as [K H].
  destruct (isspace c && String.eqb (rstrip s) "")%bool; [reflexivity |].
  cbn [kept_only]. rewrite K. cbn [andb]. auto.
Qed.

Lemma spaced_no_double_blank (s : string) (b : bool) :
  spaced b s = true -> contains "  " s = false.
Proof.
  revert b. induction s as [|c s IH]; intros b H; [reflexivity |].
  cbn [spaced] in H. cbn [contains].
  assert (T : contains "  " s = false).
  { destruct (isspace c); [| exact (IH _ H)].
    apply andb_true_iff in H. destruct H as [_ H]. exact (IH _ H). }
  rewrite T.
  destruct (prefix "  " (String c s)) eqn:P; [| reflexivity].
  exfalso. cbn [prefix] in P.
  destruct (ascii_dec " " c) as [E | _]; [subst c | discriminate P].
  destruct s as [|d s]; [discriminate P |]. cbn [prefix] in P.
  destruct (ascii_dec " " d) as [E | _]; [subst d | discriminate P].
  destruct b; cbn in H; discriminate H.
Qed.

Lemma preprocess_text_shape (t : string) :
  let out := preprocess_text (Some t) in
  kept_only out = true /\ spaced true out = true /\ strip out = out.
Proof.
  cbv zeta. unfold preprocess_text, collapse_whitespace.
  set (u := collapse_from false (blank_special t)).
  assert (Ku : kept_only u = true)
    by (apply kept_collapse, kept_blank_special).
  assert (Su : spaced false u = true) by apply collapse_spaced.
  split; [| split].
  - unfold strip. apply kept_rstrip, kept_lstrip, Ku.
  - unfold strip. apply rstrip_spaced. apply (lstrip_spaced u false), Su.
  - apply strip_idempotent.
Qed.

Lemma shape_chars (s : string) (b : bool) :
  kept_only s = true -> spaced b s = true ->
  Forall (fun c => is_kept_char c = true /\
                   (isspace c = true -> c = " "%char))
         (list_ascii_of_string s).
Proof.
  revert b. induction s as [|c s IH]; intros b K S';
    cbn [list_ascii_of_string]; constructor.
  - cbn [kept_only] in K. apply andb_true_iff in K. destruct K as [K _].
    split; [exact K |]. intros W. cbn [spaced] in S'. rewrite W in S'.
    apply andb_true_iff in S'. destruct S' as [S' _].
    apply andb_true_iff in S'. destruct S' as [S' _].
    now apply Ascii.eqb_eq in S'.
  - cbn [kept_only] in K. apply andb_true_iff in K. destruct K as [_ K].
    cbn [spaced] in S'. destruct (isspace c).
    + apply andb_true_iff in S'. destruct S' as [_ S']. exact (IH _ K S').
    + exact (IH _ K S').
Qed.

(** X23: [preprocess_text] gives the empty string for a missing value;
    its result has only word characters, the punctuation [-.,()%$] and
    single blanks, neither begins nor ends with white space, and is left
    as it is when cleaned again. *)
Theorem preprocess_text_normalises :
  forall t : string,
    let out := preprocess_text (Some t) in
    preprocess_text None = "" /\
    Forall (fun c => is_kept_char c = true /\
                     (isspace c = true -> c = " "%char))
           (list_ascii_of_string out) /\
    contains "  " out = false /\
    strip out = out /\
    preprocess_text (Some out) = out.
Proof.
  intros t out.
  destruct (preprocess_text_shape t) as (K & S' & T). fold out in K, S', T.
  split; [reflexivity |]. split; [| split; [| split]].
  - exact (shape_chars out true K S').
  - exact (spaced_no_double_blank out true S').
  - exact T.
  - unfold preprocess_text, collapse_whitespace.
    rewrite blank_special_fixed by exact K.
    rewrite collapse_fixed by (apply spaced_weaken, S'). exact T.
Qed.

Lemma prepare_rows_fold (rs : list Row) (acc : list Document) :
  fold_left prepare_row rs acc
    = acc ++ map document_of_row (filter has_name rs).
Proof.
  revert acc. induction rs as [|row rs IH]; intros acc; cbn [fold_left filter].
  - now rewrite app_nil_r.
  - rewrite IH. unfold prepare_row, has_name.
    destruct (String.eqb (preprocess_text (row "Competitor Name")) "");
      cbn [negb]; [reflexivity |].
    rewrite <- app_assoc. reflexivity.
Qed.

(** X24: [validate_csv_structure] accepts a data frame exactly when it
    has the four required columns. [prepare_documents] raises a
    [ValueError] for a frame that lacks one; otherwise it returns one
    document for every row whose cleaned competitor name is not empty,
    in the order of the rows, and skips the other rows. *)
Theorem prepare_documents_outcome :
  forall df : DataFrame,
    (validate_csv_structure df = true <->
       (forall col, In col required_columns -> In col (columns df))) /\
    (validate_csv_structure df = false ->
       prepare_documents df
         = Raise (mkExn ValueError "CSV file does not have required columns")) /\
    (validate_csv_structure df = true ->
       prepare_documents df
         = Ret (map document_of_row (filter has_name (rows df))) /\
       Forall (fun d => competitor_name (doc_metadata d) <> "")
              (map document_of_row (filter has_name (rows df)))).
Proof.
  intros df. split; [| split].
  - unfold validate_csv_structure, required_columns. cbn [filter].
    pose proof (mem_true_iff "Competitor Name" (columns df)) as M1.
    pose proof (mem_true_iff "Product Description" (columns df)) as M2.
    pose proof (mem_true_iff "Marketing Strategy" (columns df)) as M3.
    pose proof (mem_true_iff "Financial Summary" (columns df)) as M4.
    destruct (mem "Competitor Name" (columns df));
      destruct (mem "Product Description" (columns df));
      destruct (mem "Marketing Strategy" (columns df));
      destruct (mem "Financial Summary" (columns df));
      cbn [negb]; split; intros H;
      try reflexivity; try discriminate;
      try (intros col [<- | [<- | [<- | [<- | []]]]]; intuition; fail);
      exfalso.
    all: try (assert (F : false = true) by (apply M1, H; cbn; auto); discriminate F).
    all: try (assert (F : false = true) by (apply M2, H; cbn; auto); discriminate F).
    all: try (assert (F : false = true) by (apply M3, H; cbn; auto); discriminate F).
    all: try (assert (F : false = true) by (apply M4, H; cbn; auto); discriminate F).
  - intros H. unfold prepare_documents. rewrite H. reflexivity.
  - intros H. unfold prepare_documents. rewrite H. cbn [negb].
    rewrite prepare_rows_fold. split; [reflexivity |].
    apply Forall_forall. intros d Hd. apply in_map_iff in Hd.
    destruct Hd as (row & <- & Hr). apply filter_In in Hr.
    destruct Hr as [_ Hr]. unfold has_name in Hr.
    cbn [document_of_row doc_metadata competitor_name].
    intros E. rewrite E in Hr. discriminate Hr.
Qed.

(** * Properties of index building *)

Lemma for_turns_S {St A} (body : Z -> St -> step A * St)
    (fuel : nat) (attempt : Z) (s : St) :
  for_turns body (S fuel) attempt s =
    match body attempt s with
    | (Continue, s') => for_turns body fuel (attempt + 1)%Z s'
    | (Return v, s') => (Ret (Some v), s')
    | (Throw e, s') => (Raise e, s')
    end.
Proof. reflexivity. Qed.

Ltac split_handlers :=
  repeat match goal with
         | |- context [if ?b then _ else _] => destruct b
         | |- context [match exn_class ?x with _ => _ end] =>
             destruct (exn_class x)
         | |- context [match cohere_embedding ?p ?k with _ => _ end] =>
             destruct (cohere_embedding p k)
         | |- context [match cohere_llm ?p ?k with _ => _ end] =>
             destruct (cohere_llm p k)
         end.

Lemma initialize_body_effects (Sv : Services) (max_retries : Z)
    (retry_delay : Q) (attempt : Z) (w : BuildWorld) :
  let r := initialize_body Sv max_retries retry_delay attempt w in
  index_builds (snd r) = index_builds w /\
  match fst r with
  | Return _ => embed_input_type (core (snd r)) = Some "search_document"
  | Continue => (attempt < max_retries - 1)%Z
  | Throw _ => True
  end.
Proof.
  unfold initialize_body, initialize_try, initialize_handlers.
  destruct (Z.ltb_spec attempt (max_retries - 1)); split_handlers;
    cbn; auto.
Qed.

Lemma initialize_loop_invariant (Sv : Services) (max_retries : Z)
    (retry_delay : Q) (fuel : nat) :
  forall (attempt : Z) (w : BuildWorld),
    max_retries = (attempt + Z.of_nat fuel)%Z ->
    let r := for_turns (initialize_body Sv max_retries retry_delay)
                       fuel attempt w in
    index_builds (snd r) = index_builds w /\
    match fst r with
    | Ret (Some _) => embed_input_type (core (snd r)) = Some "search_document"
    | Ret None => fuel = 0%nat
    | Raise _ => True
    end.
Proof.
  induction fuel as [|fuel IH]; intros attempt w Hm.
  - cbn. auto.
  - rewrite for_turns_S.
    pose proof (initialize_body_effects Sv max_retries retry_delay attempt w)
      as E. cbv zeta in E.
    destruct (initialize_body Sv max_retries retry_delay attempt w)
      as [[|v|e] w1]; cbn [fst snd] in E; destruct E as [E1 E2].
    + assert (Hm' : max_retries = (attempt + 1 + Z.of_nat fuel)%Z) by lia.
      specialize (IH (attempt + 1)%Z w1 Hm'). cbv zeta in IH |- *.
      destruct (for_turns _ fuel (attempt + 1)%Z w1) as [[[u|]|e] w2];
        cbn [fst snd] in *; destruct IH as [I1 I2];
        split; try congruence; try exact I2; try exact I.
      lia.
    + cbn [fst snd]. auto.
    + cbn [fst snd]. auto.
Qed.

Lemma create_index_body_effects (Sv : Services) (documents : list Document)
    (max_retries attempt : Z) (w : BuildWorld) :
  (1 <= max_retries)%Z ->
  let r := create_index_body Sv documents max_retries attempt w in
  (index_builds (snd r) <= S (index_builds w))%nat /\
  match fst r with
  | Return (Some _) =>
      embed_input_type (core (snd r)) = Some "search_document"
  | Return None => True
  | Continue => (attempt < max_retries - 1)%Z
  | Throw _ => False
  end.
Proof.
  intros Hn. unfold create_index_body, create_index_try.
  pose proof (initialize_loop_invariant Sv max_retries 1%Q
                (Z.to_nat max_retries) 0%Z w) as L.
  cbv zeta in L. unfold initialize_llm_settings.
  destruct (for_turns _ (Z.to_nat max_retries) 0%Z w) as [[[u|]|e] w1];
    cbn [fst snd] in L; (destruct L as [L1 L2]; [lia |]).
  - destruct (from_documents Sv documents (index_builds w1)) as [index | e].
    + cbn [fst snd count_index_build index_builds core]. split; [lia | exact L2].
    + unfold create_index_handlers.
      destruct (Z.ltb_spec attempt (max_retries - 1)); split_handlers;
        cbn [fst snd count_index_build on_core index_builds];
        split; try lia; exact I.
  - lia.
  - unfold create_index_handlers.
    destruct (Z.ltb_spec attempt (max_retries - 1)); split_handlers;
      cbn [fst snd on_core index_builds]; split; try lia; exact I.
Qed.

Lemma create_index_loop (Sv : Services) (documents : list Document)
    (max_retries : Z) (fuel : nat) :
  (1 <= max_retries)%Z ->
  forall (attempt : Z) (w : BuildWorld),
  exists (r : option (option Index)) (w' : BuildWorld),
    for_turns (create_index_body Sv documents max_retries) fuel attempt w
      = (Ret r, w') /\
    (index_builds w' <= index_builds w + fuel)%nat /\
    (forall index, r = Some (Some index) ->
       embed_input_type (core w') = Some "search_document").
Proof.
  intros Hn. induction fuel as [|fuel IH]; intros attempt w.
  - exists None, w. cbn. repeat split; try lia. discriminate.
  - rewrite for_turns_S.
    pose proof (create_index_body_effects Sv documents max_retries attempt w Hn)
      as E. cbv zeta in E.
    destruct (create_index_body Sv documents max_retries attempt w)
      as [[|v|e] w1]; cbn [fst snd] in E; destruct E as [E1 E2].
    + destruct (IH (attempt + 1)%Z w1) as (r & w' & R & B & M).
      exists r, w'. repeat split; try assumption; lia.
    + exists (Some v), w1. split; [reflexivity |]. split; [lia |].
      intros index H. injection H as ->. exact E2.
    + contradiction.
Qed.

(** X25: [create_vector_index] never raises: it returns an index or
    [None]. Without documents it returns [None] and touches nothing. It
    builds an index at most [max_retries] times, and when it returns an
    index the embedding is set for documents. *)
Theorem create_vector_index_total :
  forall (Sv : Services) (documents : list Document) (max_retries : Z)
         (w : BuildWorld),
  exists (r : option Index) (w' : BuildWorld),
    create_vector_index Sv documents max_retries w = (Ret r, w') /\
    (index_builds w' <= index_builds w + Z.to_nat max_retries)%nat /\
    (documents = [] -> r = None /\ w' = w) /\
    (r <> None -> embed_input_type (core w') = Some "search_document").
Proof.
  intros Sv documents max_retries w. unfold create_vector_index.
  destruct documents as [|d ds].
  - exists None, w. repeat split; try lia. intros H. now contradiction H.
  - destruct (Z.to_nat max_retries) as [|fuel] eqn:F.
    + exists None, w. cbn [for_turns].
      repeat split; try lia; try discriminate.
      intros H. now contradiction H.
    + destruct (create_index_loop Sv (d :: ds) max_retries (S fuel))
        with (attempt := 0%Z) (w := w) as (r & w' & R & B & M); [lia |].
      rewrite R. destruct r as [[index |] |].
      * exists (Some index), w'. repeat split; try lia; try discriminate.
        intros _. apply (M index). reflexivity.
      * exists None, w'. repeat split; try lia; try discriminate.
        intros H. now contradiction H.
      * exists None, w'. repeat split; try lia; try discriminate.
        intros H. now contradiction H.
Qed.

(** X26: without a configured API key [initialize_llm_settings] raises
    the [ValueError] of the key check at its first attempt: nothing is
    constructed and nothing is slept. *)
Theorem initialize_llm_settings_missing_key :
  forall (Sv : Services) (max_retries : Z) (retry_delay : Q)
         (w : BuildWorld),
    (1 <= max_retries)%Z ->
    api_key_configured (embedding_provider Sv) = false ->
    initialize_llm_settings Sv max_retries retry_delay w
      = (Raise (mkExn ValueError
                  "COHERE_API_KEY is not set or is empty. Please check your .env file."),
         w).
Proof.
  intros Sv max_retries retry_delay w Hn Hk. unfold initialize_llm_settings.
  destruct (Z.to_nat max_retries) as [|fuel] eqn:F; [lia |].
  rewrite for_turns_S. unfold initialize_body, initialize_try.
  rewrite Hk. reflexivity.
Qed.

Lemma initialize_llm_settings_missing_key_witness :
  initialize_llm_settings
    (mkServices (mkProvider false (fun _ => None)) (fun _ => None)
                (fun _ _ => Raise (mkExn OtherException "unused")))
    3 1 (mkBuildWorld initial_world 0 0)
  = (Raise (mkExn ValueError
              "COHERE_API_KEY is not set or is empty. Please check your .env file."),
     mkBuildWorld initial_world 0 0).
Proof.
  apply (initialize_llm_settings_missing_key
           (mkServices (mkProvider false (fun _ => None)) (fun _ => None)
                       (fun _ _ => Raise (mkExn OtherException "unused")))
           3 1 (mkBuildWorld initial_world 0 0)).
  - lia.
  - reflexivity.
Defined.

Lemma missing_key_create_body (Sv : Services) (documents : list Document)
    (max_retries attempt : Z) (w : BuildWorld) :
  (1 <= max_retries)%Z ->
  api_key_configured (embedding_provider Sv) = false ->
  create_index_body Sv documents max_retries attempt w =
    if (attempt <? max_retries - 1)%Z
    then (Continue, on_core (sleep (inject_Z (2 ^ attempt))) w)
    else (Return None, w).
Proof.
  intros Hn Hk. unfold create_index_body, create_index_try.
  unfold initialize_llm_settings.
  destruct (Z.to_nat max_retries) as [|fuel] eqn:F; [lia |].
  rewrite for_turns_S. unfold initialize_body, initialize_try.
  rewrite Hk. reflexivity.
Qed.

Lemma missing_key_create_turns (Sv : Services) (documents : list Document)
    (max_retries : Z) :
  (1 <= max_retries)%Z ->
  api_key_configured (embedding_provider Sv) = false ->
  forall (fuel : nat) (attempt : Z) (w : BuildWorld),
    max_retries = (attempt + Z.of_nat (S fuel))%Z ->
    for_turns (create_index_body Sv documents max_retries) (S fuel) attempt w
      = (Ret (Some None),
         on_core (fun c =>
                    mkWorld (embed_calls c) (query_calls c)
                            (slept c ++ map (fun k => inject_Z (2 ^ (attempt + Z.of_nat k)))
                                            (seq 0 fuel))
                            (embed_input_type c)) w).
Proof.
  intros Hn Hk. induction fuel as [|fuel IH]; intros attempt w Hm;
    rewrite for_turns_S, missing_key_create_body by assumption.
  - destruct (Z.ltb_spec attempt (max_retries - 1)); [lia |].
    unfold on_core. cbn [seq map]. rewrite app_nil_r, world_eta.
    destruct w; reflexivity.
  - destruct (Z.ltb_spec attempt (max_retries - 1)); [| lia].
    rewrite IH by lia. unfold on_core, sleep.
    cbn [core llm_calls index_builds embed_calls query_calls slept
         embed_input_type].
    f_equal. f_equal. f_equal.
    rewrite <- app_assoc. cbn [app seq map]. rewrite Z.add_0_r. do 2 f_equal.
    rewrite <- seq_shift, map_map. apply map_ext. intros k. do 2 f_equal. lia.
Qed.

(** X27: without a configured API key [create_vector_index] does not
    stop at once: every attempt fails in the key check, is followed by a
    wait of [2^attempt] seconds except the last, and after
    [max_retries] attempts [None] is returned; no embedding, model or
    index was constructed. *)
Theorem create_vector_index_missing_key :
  forall (Sv : Services) (documents : list Document) (max_retries : Z)
         (w : BuildWorld),
    (1 <= max_retries)%Z ->
    documents <> [] ->
    api_key_configured (embedding_provider Sv) = false ->
    create_vector_index Sv documents max_retries w
      = (Ret None,
         mkBuildWorld
           (mkWorld (embed_calls (core w)) (query_calls (core w))
                    (slept (core w)
                     ++ map (fun attempt => inject_Z (2 ^ Z.of_nat attempt))
                            (seq 0 (Z.to_nat max_retries - 1)))
                    (embed_input_type (core w)))
           (llm_calls w) (index_builds w)).
Proof.
  intros Sv documents max_retries w Hn Hd Hk. unfold create_vector_index.
  destruct documents as [|d ds]; [contradiction |].
  destruct (Z.to_nat max_retries) as [|fuel] eqn:F; [lia |].
  rewrite missing_key_create_turns by (assumption || lia).
  rewrite Nat.sub_succ, Nat.sub_0_r. reflexivity.
Qed.

Lemma create_vector_index_missing_key_witness :
  create_vector_index
    (mkServices (mkProvider false (fun _ => None)) (fun _ => None)
                (fun _ _ => Raise (mkExn OtherException "unused")))
    [mkDocument "Competitor: TechCorp" (mkMetadata "TechCorp" "" "" "")]
    3 (mkBuildWorld initial_world 0 0)
  = (Ret None,
     mkBuildWorld (mkWorld 0 0 [inject_Z 1; inject_Z 2] None) 0 0).
Proof.
  apply (create_vector_index_missing_key
           (mkServices (mkProvider false (fun _ => None)) (fun _ => None)
                       (fun _ _ => Raise (mkExn OtherException "unused")))
           [mkDocument "Competitor: TechCorp" (mkMetadata "TechCorp" "" "" "")]
           3 (mkBuildWorld initial_world 0 0)).
  - lia.
  - discriminate.
  - reflexivity.
Defined.

(** X28: with a working provider and an index builder that succeeds,
    [create_vector_index] returns the index at its first attempt: one
    embedding, one language model and one index are constructed, nothing
    is slept, and the embedding is set for documents. *)
Theorem create_vector_index_first_try :
  forall (Sv : Services) (documents : list Document) (max_retries : Z)
         (index : Index) (w : BuildWorld),
    (1 <= max_retries)%Z ->
    documents <> [] ->
    api_key_configured (embedding_provider Sv) = true ->
    cohere_embedding (embedding_provider Sv) (embed_calls (core w)) = None ->
    cohere_llm Sv (llm_calls w) = None ->
    from_documents Sv documents (index_builds w) = Ret index ->
    create_vector_index Sv documents max_retries w
      = (Ret (Some index),
         mkBuildWorld
           (mkWorld (S (embed_calls (core w))) (query_calls (core w))
                    (slept (core w)) (Some "search_document"))
           (S (llm_calls w)) (S (index_builds w))).
Proof.
  intros Sv documents max_retries index w Hn Hd Hk He Hl Hi.
  unfold create_vector_index.
  destruct documents as [|d ds]; [contradiction |].
  destruct (Z.to_nat max_retries) as [|fuel] eqn:F; [lia |].
  rewrite for_turns_S. unfold create_index_body, create_index_try.
  unfold initialize_llm_settings. rewrite F, for_turns_S.
  unfold initialize_body, initialize_try.
  rewrite Hk, He. cbn [negb]. cbv zeta.
  unfold on_core. cbn [llm_calls index_builds core].
  rewrite Hl. unfold count_llm_call. cbn [llm_calls index_builds core].
  rewrite Hi. reflexivity.
Qed.

Lemma create_vector_index_first_try_witness :
  create_vector_index
    (mkServices (mkProvider true (fun _ => None)) (fun _ => None)
       (fun _ _ => Ret (mkIndex (fun _ => Raise (mkExn OtherException "no engine"))
                                (fun _ => Raise (mkExn OtherException "no engine")))))
    [mkDocument "Competitor: TechCorp" (mkMetadata "TechCorp" "" "" "")]
    3 (mkBuildWorld initial_world 0 0)
  = (Ret (Some (mkIndex (fun _ => Raise (mkExn OtherException "no engine"))
                        (fun _ => Raise (mkExn OtherException "no engine")))),
     mkBuildWorld (mkWorld 1 0 [] (Some "search_document")) 1 1).
Proof.
  apply (create_vector_index_first_try
           (mkServices (mkProvider true (fun _ => None)) (fun _ => None)
              (fun _ _ => Ret (mkIndex (fun _ => Raise (mkExn OtherException "no engine"))
                                       (fun _ => Raise (mkExn OtherException "no engine")))))
           [mkDocument "Competitor: TechCorp" (mkMetadata "TechCorp" "" "" "")]
           3 _ (mkBuildWorld initial_world 0 0)).
  - lia.
  - discriminate.
  - reflexivity.
  - reflexivity.
  - reflexivity.
  - reflexivity.
Defined.

(** * The orchestrator: what escapes it, and the depth it retrieves with *)

Lemma untyped_reason_and_act_typed (P : Provider) (query : string)
    (index : Index) (competitor_list : option (list PyValue))
    (strings : option (list string)) (w : World) :
  Untyped.typed competitor_list = Some strings ->
  Untyped.reason_and_act P query index competitor_list w
    = reason_and_act P query index strings w.
Proof.
  intros H. unfold Untyped.reason_and_act, Untyped.analyze_query_intent.
  rewrite H. reflexivity.
Qed.

(** A blank or too short query never reaches the engine: the answer of
    [reason_and_act] is the message for the error of the search
    configuration or of the engine construction if one of them raises,
    and the validation string of the call layer, with the footer of the
    intent, otherwise. *)
Lemma reason_and_act_short_query (P : Provider) (query : string)
    (index : Index) (competitor_list : option (list string))
    (w w' : World) (s : string) :
  query = "" \/ strip query = "" \/ (len (strip query) < 3)%Z ->
  reason_and_act P query index competitor_list w = (Ret s, w') ->
  let intent := analyze_query_intent query competitor_list in
  query_calls w' = query_calls w /\
  match configure_embedding_for_search P 2 w with
  | (Raise e, _) => s = surface_error e
  | (Ret _, w1) =>
      match create_optimized_query_engine index
              (similarity_depth SIMILARITY_TOP_K intent) w1 with
      | (Raise e, _) => s = surface_error e
      | (Ret _, _) =>
          exists reason : string,
            s = enhance_response_based_on_intent
                  ("Query validation error: " ++ reason)%string intent
      end
  end.
Proof.
  intros Hq. cbv zeta.
  unfold reason_and_act, execute_retrieval_and_analysis, retrieval_steps,
    try_except, bind, ret.
  set (intent := analyze_query_intent query competitor_list).
  unfold configure_embedding_for_search, configure_embedding_for_indexing.
  pose proof (configure_bounds P "search" "search_query" w) as B1.
  cbv zeta in B1.
  destruct (for_range (configure_body P "search" "search_query" 2) 2 w)
    as [[u | e] w1]; cbn [fst snd] in B1; destruct B1 as (B1 & _).
  - unfold create_optimized_query_engine.
    assert (G : forall engine : Engine,
               (let (r, w'0) :=
                  let (r, w'0) :=
                    let (r, w'0) := safe_query_engine_call engine query 3 w1 in
                    match r with
                    | Ret a =>
                        let (r0, w'1) :=
                          let (r0, w'1) :=
                            for_range
                              (configure_body P "indexing" "search_document" 2)
                              2 w'0 in
                          match r0 with
                          | Ret a0 => (Ret a0, w'1)
                          | Raise _ => (Ret None, w'1)
                          end in
                        match r0 with
                        | Ret _ =>
                            (Ret (enhance_response_based_on_intent (py_str a)
                                    intent), w'1)
                        | Raise e => (Raise e, w'1)
                        end
                    | Raise e => (Raise e, w'0)
                    end in
                  match r with
                  | Ret a => (Ret a, w'0)
                  | Raise e => (Ret (surface_error e), w'0)
                  end in
                match r with
                | Ret a => (Ret a, w'0)
                | Raise e =>
                    (Ret ("I encountered an error while processing your query: "
                          ++ exn_str e)%string, w'0)
                end) = (Ret s, w') ->
               query_calls w' = query_calls w /\
               exists reason : string,
                 s = enhance_response_based_on_intent
                       ("Query validation error: " ++ reason)%string intent).
    { intros engine.
      destruct (query_call_rejects engine query 3 w1) as [reason R];
        [lia | exact Hq |].
      rewrite R.
      pose proof (configure_bounds P "indexing" "search_document" w1) as B2.
      cbv zeta in B2.
      destruct (for_range (configure_body P "indexing" "search_document" 2) 2 w1)
        as [[u2 | e2] w2]; cbn [fst snd] in B2; destruct B2 as (B2 & _);
        cbn [py_str]; intros E; injection E as <- <-;
        (split; [congruence | exists reason; reflexivity]). }
    destruct (retriever_query_engine index
                (similarity_depth SIMILARITY_TOP_K intent)) as [engine | e1].
    + apply G.
    + destruct (as_query_engine index
                  (similarity_depth SIMILARITY_TOP_K intent)) as [engine | e2].
      * apply G.
      * intros E. injection E as <- <-. split; [exact B1 | reflexivity].
  - intros E. injection E as <- <-. split; [exact B1 | reflexivity].
Qed.

(** C3 (as the code has it): on a competitor list whose entries are all
    strings, [reason_and_act] returns a string for every provider, index
    handle, query and world. When the retrieval steps raise, the string
    is the configuration-error message for a [ValueError], one of the
    three fallback messages for a [RuntimeError] (rate limit,
    connectivity, technical issue) and the generic apology for any other
    exception. The generative call below it never raises; a blank or too
    short query is no error to [reason_and_act]: the engine is not
    called, and unless the configuration or the engine construction
    fails the answer is the [Query validation error] string with the
    footer of the intent. *)
Theorem reason_and_act_never_raises :
  forall (P : Provider) (query : string) (index : Index)
         (competitor_list : option (list PyValue))
         (strings : option (list string)) (w : World),
    Untyped.typed competitor_list = Some strings ->
    let intent := analyze_query_intent query strings in
    exists (s : string) (w' : World),
      Untyped.analyze_query_intent query competitor_list = Ret intent /\
      Untyped.reason_and_act P query index competitor_list w = (Ret s, w') /\
      match fst (retrieval_steps P query index intent w) with
      | Ret answer => s = answer
      | Raise e =>
          match exn_class e with
          | ValueError => s = msg_configuration_error e
          | RuntimeError =>
              s = if contains "rate limit" (lower (exn_str e))
                  then msg_agent_rate_limit
                  else if (contains "network" (lower (exn_str e))
                           || contains "connection" (lower (exn_str e)))%bool
                  then msg_agent_network
                  else msg_technical_issue e
          | _ => s = msg_agent_unexpected
          end
      end /\
      (forall (engine : Engine) (max_retries : Z) (w0 : World),
          exists (r : option string) (w1 : World),
            safe_query_engine_call engine query max_retries w0 = (Ret r, w1)) /\
      (query = "" \/ strip query = "" \/ (len (strip query) < 3)%Z ->
       (forall (engine : Engine) (w0 : World),
          exists reason : string,
            safe_query_engine_call engine query 3 w0
              = (Ret (Some ("Query validation error: " ++ reason)%string), w0)) /\
       query_calls w' = query_calls w /\
       match configure_embedding_for_search P 2 w with
       | (Raise e, _) => s = surface_error e
       | (Ret _, w1) =>
           match create_optimized_query_engine index
                   (similarity_depth SIMILARITY_TOP_K intent) w1 with
           | (Raise e, _) => s = surface_error e
           | (Ret _, _) =>
               exists reason : string,
                 s = enhance_response_based_on_intent
                       ("Query validation error: " ++ reason)%string intent
           end
       end).
Proof.
  intros P query index competitor_list strings w Ht intent.
  destruct (reason_and_act_outcomes P query index strings w)
    as (s & w' & R & Hclass & Hsafe & Hshort).
  exists s, w'.
  split; [unfold Untyped.analyze_query_intent; rewrite Ht; reflexivity |].
  split; [rewrite (untyped_reason_and_act_typed _ _ _ _ _ _ Ht); exact R |].
  split; [exact Hclass |]. split; [exact Hsafe |].
  intros Hq. split; [exact (Hshort Hq) |].
  exact (reason_and_act_short_query P query index strings w w' s Hq R).
Qed.

Lemma reason_and_act_never_raises_witness :
  exists (s : string) (w' : World),
    Untyped.reason_and_act (mkProvider true (fun _ => None)) "ai"
      (mkIndex (fun _ => Ret (fun _ _ => Ret "answer"))
               (fun _ => Ret (fun _ _ => Ret "answer")))
      (Some [PyStr "TechCorp"; PyStr "AI"]) initial_world = (Ret s, w') /\
    query_calls w' = query_calls initial_world.
Proof.
  destruct (reason_and_act_never_raises
              (mkProvider true (fun _ => None)) "ai"
              (mkIndex (fun _ => Ret (fun _ _ => Ret "answer"))
                       (fun _ => Ret (fun _ _ => Ret "answer")))
              (Some [PyStr "TechCorp"; PyStr "AI"])
              (Some ["TechCorp"; "AI"]) initial_world)
    as (s & w' & _ & R & _ & _ & H).
  - reflexivity.
  - exists s, w'. split; [exact R |].
    destruct H as (_ & H & _); [right; right; vm_compute; reflexivity |].
    exact H.
Defined.

(** C3 (as stated) fails twice. A competitor list with the NaN of a
    blank cell makes the analysis, which comes before the [try], raise
    out of [reason_and_act]. And with a working provider and index the
    query [hi] is answered with the validation string of the call layer,
    which is no configuration-error message. *)
Lemma reason_and_act_validation_counterexample :
  Untyped.reason_and_act (mkProvider true (fun _ => None))
    "Tell me about TechCorp"
    (mkIndex (fun _ => Ret (fun _ _ => Ret "answer"))
             (fun _ => Ret (fun _ _ => Ret "answer")))
    (Some [PyStr "TechCorp"; PyNaN]) initial_world
    = (Raise (mkExn OtherException "'float' object has no attribute 'lower'"),
       initial_world) /\
  fst (Untyped.reason_and_act (mkProvider true (fun _ => None)) "hi"
         (mkIndex (fun _ => Ret (fun _ _ => Ret "answer"))
                  (fun _ => Ret (fun _ _ => Ret "answer")))
         (Some [PyStr "TechCorp"; PyStr "InnovateLabs"]) initial_world)
    = Ret "Query validation error: Query too short. Please provide a more detailed question." /\
  forall e : Exn,
    "Query validation error: Query too short. Please provide a more detailed question."
      <> msg_configuration_error e.
Proof.
  split; [reflexivity |]. split.
  - vm_compute. reflexivity.
  - intros e. unfold msg_configuration_error. cbn [append]. discriminate.
Qed.

(** C9: the orchestrator retrieves with depth 5, the base constant, for
    a query whose complexity is not [complex], and with depth 8, that is
    [min 8 (base + 3)], for a complex one, whichever planning branch the
    query takes. That depth is the one handed to the index: indexes that
    build the same engines at that depth give the same run; with a
    working provider the engine the index builds at that depth, by the
    retriever or by the fallback, is the one that answers. Below, the
    depth computed from any base depth depends on the complexity alone. *)
Theorem orchestrator_retrieval_depth :
  forall (P : Provider) (query : string) (index : Index)
         (competitor_list : option (list string)) (w : World),
    let intent := analyze_query_intent query competitor_list in
    let depth := (if String.eqb (query_complexity intent) "complex"
                  then Z.min 8 (SIMILARITY_TOP_K + 3)
                  else SIMILARITY_TOP_K)%Z in
    depth = (if String.eqb (query_complexity intent) "complex"
             then 8 else 5)%Z /\
    (forall index' : Index,
        retriever_query_engine index' depth = retriever_query_engine index depth ->
        as_query_engine index' depth = as_query_engine index depth ->
        reason_and_act P query index' competitor_list w
          = reason_and_act P query index competitor_list w) /\
    (forall (engine : Engine) (response : string),
        api_key_configured P = true ->
        (forall k, cohere_embedding P k = None) ->
        (retriever_query_engine index depth = Ret engine \/
         (exists e, retriever_query_engine index depth = Raise e /\
                    as_query_engine index depth = Ret engine)) ->
        (3 <= len (strip query))%Z ->
        engine query (query_calls w) = Ret response ->
        strip response <> "" ->
        fst (reason_and_act P query index competitor_list w)
          = Ret (enhance_response_based_on_intent response intent)) /\
    (forall (base : Z) (other : Intent),
        (query_complexity other <> "complex" ->
           similarity_depth base other = base) /\
        (query_complexity other = "complex" ->
           similarity_depth base other = Z.min 8 (base + 3)) /\
        (forall other' : Intent,
            query_complexity other' = query_complexity other ->
            similarity_depth base other' = similarity_depth base other)).
Proof.
  intros P query index competitor_list w intent depth.
  assert (D : depth = similarity_depth SIMILARITY_TOP_K intent) by reflexivity.
  split; [| split; [| split]].
  - subst depth. destruct (String.eqb (query_complexity intent) "complex");
      reflexivity.
  - intros index' H1 H2. rewrite D in H1, H2.
    unfold reason_and_act, execute_retrieval_and_analysis, retrieval_steps,
      try_except, bind. fold intent.
    unfold create_optimized_query_engine. rewrite H1, H2. reflexivity.
  - intros engine response Hk Hemb Hidx Hq Hans Hnb. rewrite D in Hidx.
    unfold reason_and_act, execute_retrieval_and_analysis, retrieval_steps,
      try_except, bind. fold intent.
    unfold configure_embedding_for_search, configure_embedding_for_indexing.
    rewrite configure_first_try by (lia || auto). cbv beta iota.
    assert (E : create_optimized_query_engine index
                  (similarity_depth SIMILARITY_TOP_K intent)
                  (set_embed_model "search_query" (count_embed_call w))
                = (Ret engine,
                   set_embed_model "search_query" (count_embed_call w))).
    { unfold create_optimized_query_engine.
      destruct Hidx as [-> | (e & -> & ->)]; reflexivity. }
    rewrite E. cbv beta iota.
    rewrite (query_first_try engine query response 3) by (lia || auto).
    cbv beta iota.
    rewrite configure_first_try by (lia || auto). reflexivity.
  - intros base other.
    destruct (similarity_depth_values base other) as (V1 & V2 & _ & V4).
    auto.
Qed.

Lemma orchestrator_retrieval_depth_witness :
  fst (reason_and_act (mkProvider true (fun _ => None))
         "Compare TechCorp and InnovateLabs"
         (mkIndex (fun k => if (k =? 8)%Z
                            then Ret (fun _ _ => Ret "answer from depth 8")
                            else Raise (mkExn OtherException "another depth"))
                  (fun _ => Raise (mkExn OtherException "no fallback")))
         None initial_world)
  = Ret (enhance_response_based_on_intent "answer from depth 8"
           (analyze_query_intent "Compare TechCorp and InnovateLabs" None)).
Proof.
  destruct (orchestrator_retrieval_depth
              (mkProvider true (fun _ => None))
              "Compare TechCorp and InnovateLabs"
              (mkIndex (fun k => if (k =? 8)%Z
                                 then Ret (fun _ _ => Ret "answer from depth 8")
                                 else Raise (mkExn OtherException "another depth"))
                       (fun _ => Raise (mkExn OtherException "no fallback")))
              None initial_world) as (_ & _ & H & _).
  apply (H (fun _ _ => Ret "answer from depth 8") "answer from depth 8").
  - reflexivity.
  - intros k. reflexivity.
  - left. vm_compute. reflexivity.
  - vm_compute. discriminate.
  - reflexivity.
  - vm_compute. discriminate.
Defined.
